(** * LexoHub document pipeline: classification lambda and tier-1 extraction lambda

    A shallow embedding of
      - [aws/lambda/lambda0-classification/index.py]   (fingerprint, template
        cache, filename and header heuristics, tier decision), and
      - [aws/lambda/tier1-simple-extraction/index.py]  (Textract job start,
        completion handling, confidence aggregation, metadata merge-update)
    together with the properties stated about them.

    Conventions of the embedding.
      - Python numbers are exact rationals [Q].  A [float] is represented by
        the decimal fraction it is written as, and float arithmetic is taken
        exactly, without binary rounding.  Where the kind of a number
        decides what the program does, the number is a [Number], which tells
        an [int], a [float] and a [decimal.Decimal] apart: boto3 returns
        DynamoDB numbers as [Decimal] and refuses to store a [float],
        [json.dumps] refuses a [Decimal], and Python compares a [Decimal]
        with the exact binary value of a [float].
      - Python [str] is [string], for text in the ASCII range: [str.lower]
        and the regular-expression classes are those of ASCII characters.
      - Python [dict]s with a fixed set of keys are records; [dict]s used as
        maps (keyword arguments, DynamoDB items and tables) are [gmap]s.
      - A call to a collaborator (PyMuPDF, S3, DynamoDB, Textract, the clock)
        is an input of the function that makes it: what the collaborator
        answered is an argument, and an exception is the [Raise] answer.

    The first part holds the definitions, module by source file; the second
    part holds the lemmas and theorems. *)

From Stdlib Require Import ZArith QArith Qround Qabs List String Ascii Bool Lia.
From Stdlib Require Import DecimalString Lqa.
From stdpp Require Import gmap strings list fin_maps.

Local Open Scope Z_scope.

(** ** Python numbers, exceptions and strings *)

(** A number whose Python type matters: an [int], a [float], or the
    [decimal.Decimal] under which boto3 returns a DynamoDB number.  Each
    carries its value; a float the decimal fraction it is written as. *)
Inductive Number : Type :=
| PyInt (z : Z)
| PyFloat (q : Q)
| PyDecimal (q : Q).

Module Num.

(** [a < b] and [a > b] on Python numbers, as booleans. *)
Definition ltb (a b : Q) : bool := negb (Qle_bool b a).
Definition gtb (a b : Q) : bool := ltb b a.

(** [int(x)]: truncation towards zero. *)
Definition int (x : Q) : Z := Z.quot (Qnum x) (Z.pos (Qden x)).

(** [str(n)] and [f"{n}"] for an [int]: decimal digits, [-] when negative. *)
Definition str (n : Z) : string := NilZero.string_of_int (Z.to_int n).

(** Rounding to the nearest integer, ties to the even one, as Python's
    [round] does. *)
Definition round_half_even (x : Q) : Z :=
  let f := Qfloor x in
  let d := (x - inject_Z f)%Q in
  if ltb d 0.5 then f
  else if ltb 0.5 d then f + 1
  else if Z.even f then f else f + 1.

(** [round(x, 4)]. *)
Definition round4 (x : Q) : Q :=
  (inject_Z (round_half_even (x * 10000)) / 10000)%Q.

(** [sum(xs)]: left to right from [0]. *)
Definition sum (xs : list Q) : Q := fold_left Qplus xs 0%Q.

(** The value of a number, and whether it is a [float], a [Decimal]. *)
Definition value (n : Number) : Q :=
  match n with
  | PyInt z => inject_Z z
  | PyFloat q => q
  | PyDecimal q => q
  end.

Definition is_float (n : Number) : bool :=
  match n with
  | PyFloat _ => true
  | _ => false
  end.

Definition is_decimal (n : Number) : bool :=
  match n with
  | PyDecimal _ => true
  | _ => false
  end.

(** The binary64 number that the literal [0.85] denotes,
    [0x3FEB333333333333]: 7656119366529843 / 2^53, a little below 17/20. *)
Definition float_0_85 : Q := 7656119366529843 # 9007199254740992.

(** [n > 0.85].  Two floats are compared as floats.  A [Decimal] or an
    [int] is compared with the float by exact value, so with the binary
    value of the literal. *)
Definition gt_0_85 (n : Number) : bool :=
  match n with
  | PyFloat q => gtb q 0.85
  | PyDecimal q => gtb q float_0_85
  | PyInt z => gtb (inject_Z z) float_0_85
  end.

End Num.

(** The outcome of a call that may raise: the returned value or the
    exception's message ([str(e)]). *)
Inductive Res (A : Type) : Type :=
| Ok (a : A)
| Raise (e : string).
Arguments Ok {A} a.
Arguments Raise {A} e.

Definition bind {A B : Type} (r : Res A) (k : A -> Res B) : Res B :=
  match r with
  | Ok a => k a
  | Raise e => Raise e
  end.

Notation "'do' x <- r ; k" := (bind r (fun x => k))
  (at level 10, x name, r at level 100, k at level 200).

Module PyStr.

Definition is_upper (c : ascii) : bool :=
  let n := N_of_ascii c in ((65 <=? n) && (n <=? 90))%N.

Definition lower_ascii (c : ascii) : ascii :=
  if is_upper c then ascii_of_N (N_of_ascii c + 32) else c.

(** [s.lower()]. *)
Fixpoint lower (s : string) : string :=
  match s with
  | EmptyString => EmptyString
  | String c s' => String (lower_ascii c) (lower s')
  end.

(** [kw in s]: [kw] occurs in [s] as a substring. *)
Fixpoint contains (kw s : string) : bool :=
  String.prefix kw s ||
  match s with
  | EmptyString => false
  | String _ s' => contains kw s'
  end.

(** [s.split(sep)] for a one-character separator: never the empty list. *)
Fixpoint split (sep : ascii) (s : string) : list string :=
  match s with
  | EmptyString => [EmptyString]
  | String c s' =>
      if Ascii.eqb c sep then EmptyString :: split sep s'
      else match split sep s' with
           | seg :: rest => String c seg :: rest
           | [] => [String c EmptyString]
           end
  end.

(** [key.split('/')[-1]]. *)
Definition last_segment (key : string) : string :=
  List.last (split "/" key) EmptyString.

(** [sep.join(parts)]. *)
Fixpoint join (sep : string) (parts : list string) : string :=
  match parts with
  | [] => EmptyString
  | [p] => p
  | p :: rest => String.append p (String.append sep (join sep rest))
  end.

End PyStr.

(** ** Regular expressions ([re.search]) *)

Module Re.

(** The fragment of Python's [re] syntax the filename patterns use, with
    the [(?i)] flag applied to literals and classes.  [Cls p] is one
    character satisfying [p]. *)
Inductive regex : Type :=
| Fail
| Eps
| Cls (p : ascii -> bool)
| Seq (r1 r2 : regex)
| Alt (r1 r2 : regex)
| Star (r : regex).

(** [r?] and [r+]. *)
Definition Opt (r : regex) : regex := Alt r Eps.
Definition Plus (r : regex) : regex := Seq r (Star r).

(** A literal character under [(?i)]: equal up to ASCII case. *)
Definition ci_eq (a c : ascii) : bool :=
  Ascii.eqb (PyStr.lower_ascii a) (PyStr.lower_ascii c).

Definition Chr (a : ascii) : regex := Cls (ci_eq a).

(** A literal word under [(?i)]. *)
Fixpoint Lit (w : string) : regex :=
  match w with
  | EmptyString => Eps
  | String a w' => Seq (Chr a) (Lit w')
  end.

(** [(w1|w2|...)]. *)
Fixpoint Words (ws : list string) : regex :=
  match ws with
  | [] => Fail
  | w :: ws' => Alt (Lit w) (Words ws')
  end.

(** [\d]. *)
Definition is_digit (c : ascii) : bool :=
  let n := N_of_ascii c in ((48 <=? n) && (n <=? 57))%N.

(** [[a-z0-9]] under [(?i)]: letters of either case and digits. *)
Definition is_alnum (c : ascii) : bool :=
  let n := N_of_ascii (PyStr.lower_ascii c) in
  ((97 <=? n) && (n <=? 122))%N || is_digit c.

(** [[-_]]. *)
Definition is_sep (c : ascii) : bool :=
  Ascii.eqb c "-" || Ascii.eqb c "_".

(** Matching by derivatives: [nullable r] says that [r] matches the empty
    string, [deriv c r] matches what [r] matches after a leading [c]. *)
Fixpoint nullable (r : regex) : bool :=
  match r with
  | Fail => false
  | Eps => true
  | Cls _ => false
  | Seq r1 r2 => nullable r1 && nullable r2
  | Alt r1 r2 => nullable r1 || nullable r2
  | Star _ => true
  end.

Fixpoint deriv (c : ascii) (r : regex) : regex :=
  match r with
  | Fail => Fail
  | Eps => Fail
  | Cls p => if p c then Eps else Fail
  | Seq r1 r2 =>
      if nullable r1
      then Alt (Seq (deriv c r1) r2) (deriv c r2)
      else Seq (deriv c r1) r2
  | Alt r1 r2 => Alt (deriv c r1) (deriv c r2)
  | Star r1 => Seq (deriv c r1) (Star r1)
  end.

(** [re.match(r, s)] is not [None]: some prefix of [s] matches [r]. *)
Fixpoint prefix_match (r : regex) (s : string) : bool :=
  nullable r ||
  match s with
  | EmptyString => false
  | String c s' => prefix_match (deriv c r) s'
  end.

(** [re.search(r, s)] is truthy: [r] matches at some position of [s]. *)
Fixpoint search (r : regex) (s : string) : bool :=
  prefix_match r s ||
  match s with
  | EmptyString => false
  | String _ s' => search r s'
  end.

(** The language of a regular expression. *)
Inductive matches : regex -> string -> Prop :=
| m_eps : matches Eps EmptyString
| m_cls p c : p c = true -> matches (Cls p) (String c EmptyString)
| m_seq r1 r2 s1 s2 :
    matches r1 s1 -> matches r2 s2 -> matches (Seq r1 r2) (String.append s1 s2)
| m_alt_l r1 r2 s : matches r1 s -> matches (Alt r1 r2) s
| m_alt_r r1 r2 s : matches r2 s -> matches (Alt r1 r2) s
| m_star_nil r : matches (Star r) EmptyString
| m_star_cons r s1 s2 :
    matches r s1 -> matches (Star r) s2 -> matches (Star r) (String.append s1 s2).

End Re.

(** ** lambda0-classification/index.py *)

Module Lambda0.

(** *** What PyMuPDF answers *)

(** A line of a text block: [line["bbox"]], of which the code reads the
    first two coordinates. *)
Record Line := { bbox0 : Q; bbox1 : Q }.

(** A block of [get_text("dict")["blocks"]]: image blocks have no
    ["lines"] key. *)
Record Block := { lines : option (list Line) }.

(** [doc[0]] and the calls made on it.  [find_tables] and [widgets] answer
    with the truth value of the object they return. *)
Record Page := {
  get_text_dict_blocks : Res (list Block);
  rect_width : Q;
  rect_height : Q;
  get_text : Res string;
  find_tables : Res bool;
  widgets : Res bool
}.

(** What [fitz.open(file_path)] returned: [len(doc)] and [doc[0]]. *)
Record Document := {
  len : nat;
  first_page : Res Page
}.

(** *** Fingerprint *)

(** [hashlib.sha256(data.encode()).hexdigest()].  The digest is kept as a
    term over the hashed data: the model assumes an ideal hash, under which
    two digests are equal exactly when the hashed strings are. *)
Inductive Digest : Type := sha256_hexdigest (data : string).

Definition digest_eqb (a b : Digest) : bool :=
  match a, b with
  | sha256_hexdigest x, sha256_hexdigest y => String.eqb x y
  end.

(** [f"{int(bbox[0])},{int(bbox[1])}"]. *)
Definition line_feature (l : Line) : string :=
  String.append (Num.str (Num.int (bbox0 l)))
    (String.append "," (Num.str (Num.int (bbox1 l)))).

Definition block_features (b : Block) : list string :=
  match lines b with
  | Some ls => map line_feature ls
  | None => []
  end.

(** The body of the [try] of [generate_structural_hash] up to the list
    [structural_features]. *)
Definition structural_features (fitz_open : Res Document) : Res (list string) :=
  do doc <- fitz_open;
  if (0 <? len doc)%nat then
    do page <- first_page doc;
    do text_blocks <- get_text_dict_blocks page;
    Ok (flat_map block_features (firstn 5 text_blocks)
        ++ [ String.append "pages:" (Num.str (Z.of_nat (len doc)));
             String.append "width:" (Num.str (Num.int (rect_width page)));
             String.append "height:" (Num.str (Num.int (rect_height page))) ])
  else Ok [].

Definition generate_structural_hash (fitz_open : Res Document)
    (file_path : string) : Digest :=
  match structural_features fitz_open with
  | Ok features => sha256_hexdigest (PyStr.join "|" features)
  | Raise _ => sha256_hexdigest file_path
  end.

(** *** Template cache *)

(** An item of the template cache table, as boto3 returns it: the
    confidence, a DynamoDB number, is the value of a [Decimal]. *)
Record CacheItem := {
  structuralHash : Digest;
  item_confidence : option Q;
  documentType : option string;
  fieldMappings : option (list (string * string))
}.

(** The table as [check_template_cache] sees it: whether the backend
    answers, and its items, most recent first. *)
Record CacheTable := {
  backend_error : option string;
  items : list CacheItem
}.

(** [TEMPLATE_CACHE_TABLE.query] with the key condition
    [structuralHash = :hash], [ScanIndexForward=False] and [Limit=1]. *)
Definition query (table : CacheTable) (hash : Digest) : Res (list CacheItem) :=
  match backend_error table with
  | Some e => Raise e
  | None =>
      Ok (firstn 1 (List.filter (fun it => digest_eqb (structuralHash it) hash)
                      (items table)))
  end.

(** The dict returned by [check_template_cache]. *)
Record TemplateMatch := {
  template_id : Digest;
  tm_confidence : Number;
  tm_document_type : string;
  field_mappings : list (string * string)
}.

Definition check_template_cache (table : CacheTable) (structural_hash : Digest)
    : option TemplateMatch :=
  match query table structural_hash with
  | Ok (template :: _) =>
      Some {| template_id := structuralHash template;
              tm_confidence :=
                match item_confidence template with
                | Some confidence => PyDecimal confidence
                | None => PyFloat 0
                end;
              tm_document_type := default "unknown" (documentType template);
              field_mappings := default [] (fieldMappings template) |}
  | Ok [] => None
  | Raise _ => None
  end.

(** *** Filename classifier *)

(** [FILENAME_PATTERNS], in the dict's insertion order. *)
Definition FILENAME_PATTERNS : list (string * Re.regex) :=
  [ ("invoice",
     Re.Seq (Re.Words ["invoice"; "bill"; "receipt"])
       (Re.Seq (Re.Opt (Re.Cls Re.is_sep)) (Re.Plus (Re.Cls Re.is_digit))));
    ("contract",
     Re.Seq (Re.Words ["contract"; "agreement"])
       (Re.Seq (Re.Opt (Re.Cls Re.is_sep)) (Re.Plus (Re.Cls Re.is_alnum))));
    ("court_filing",
     Re.Seq (Re.Words ["motion"; "petition"; "complaint"; "answer"])
       (Re.Opt (Re.Cls Re.is_sep)));
    ("correspondence",
     Re.Seq (Re.Words ["letter"; "memo"; "email"])
       (Re.Opt (Re.Cls Re.is_sep)));
    ("pleading",
     Re.Seq (Re.Words ["pleading"; "brief"; "memorandum"])
       (Re.Opt (Re.Cls Re.is_sep))) ].

(** The loop of [classify_by_filename] over the patterns. *)
Fixpoint first_match (patterns : list (string * Re.regex)) (filename : string)
    : option string :=
  match patterns with
  | [] => None
  | (doc_type, pattern) :: rest =>
      if Re.search pattern filename then Some doc_type
      else first_match rest filename
  end.

Definition classify_by_filename (key : string) : option string :=
  let filename := PyStr.lower (PyStr.last_segment key) in
  first_match FILENAME_PATTERNS filename.

(** *** Header analysis *)

(** The dict returned by [analyze_document_header]. *)
Record HeaderAnalysis := {
  page_count : Z;
  has_tables : bool;
  has_forms : bool;
  confidence : Q;
  type : string
}.

(** [any(keyword in text.lower() for keyword in keywords)]. *)
Definition any_keyword (keywords : list string) (text : string) : bool :=
  existsb (fun keyword => PyStr.contains keyword (PyStr.lower text)) keywords.

(** The dict of the [except] branch. *)
Definition fallback_analysis : HeaderAnalysis :=
  {| page_count := 0; has_tables := false; has_forms := false;
     confidence := 0.3; type := "unknown" |}.

(** The body of the [try] of [analyze_document_header]. *)
Definition try_analyze (fitz_open : Res Document) : Res HeaderAnalysis :=
  do doc <- fitz_open;
  let analysis :=
    {| page_count := Z.of_nat (len doc); has_tables := false;
       has_forms := false; confidence := 0.6; type := "unknown" |} in
  if (0 <? len doc)%nat then
    do page <- first_page doc;
    do text <- get_text page;
    let '(type', confidence') :=
      if any_keyword ["invoice"; "bill to"; "amount due"] text
      then ("invoice", 0.7%Q)
      else if any_keyword ["agreement"; "contract"; "parties"] text
      then ("contract", 0.7%Q)
      else if any_keyword ["court"; "plaintiff"; "defendant"] text
      then ("court_filing", 0.8%Q)
      else (type analysis, confidence analysis) in
    do tables <- find_tables page;
    do form_fields <- widgets page;
    Ok {| page_count := page_count analysis;
          has_tables := if tables then true else has_tables analysis;
          has_forms := if form_fields then true else has_forms analysis;
          confidence := confidence';
          type := type' |}
  else Ok analysis.

Definition analyze_document_header (fitz_open : Res Document) : HeaderAnalysis :=
  match try_analyze fitz_open with
  | Ok analysis => analysis
  | Raise _ => fallback_analysis
  end.

(** *** Tier decision *)

(** [template_match and ...]: [None] is falsy; the dict built by
    [check_template_cache] has four keys and is truthy. *)
Definition determine_processing_tier
    (template_match : option TemplateMatch)
    (filename_classification : option string)
    (header_analysis : HeaderAnalysis) : Z :=
  if match template_match with
     | Some tm => Num.gt_0_85 (tm_confidence tm)
     | None => false
     end
  then 0
  else if (page_count header_analysis <=? 3)
          && negb (has_tables header_analysis)
          && negb (has_forms header_analysis)
  then 1
  else if has_tables header_analysis || has_forms header_analysis
  then 2
  else if (page_count header_analysis >? 10)
          || Num.ltb (confidence header_analysis) 0.5
  then 3
  else 2.

(** *** classify_document *)

(** The dict returned by [classify_document]; the keys [template_id] and
    [metadata] are each present on one of the two return paths. *)
Record Classification := {
  bucket : string;
  key : string;
  tier : Z;
  structural_hash : Digest;
  c_template_id : option Digest;
  c_confidence : Number;
  document_type : string;
  metadata : option (Z * bool * bool)
}.

(** [classify_document(bucket, key)], given what S3 ([download]), PyMuPDF
    ([fitz_open], for the downloaded file) and the cache table answer. *)
Definition classify_document (download : Res unit) (fitz_open : Res Document)
    (table : CacheTable) (bucket key : string) : Res Classification :=
  let local_path := String.append "/tmp/" (PyStr.last_segment key) in
  do _ <- download;
  let structural_hash := generate_structural_hash fitz_open local_path in
  let template_match := check_template_cache table structural_hash in
  let filename_classification := classify_by_filename key in
  let header_analysis := analyze_document_header fitz_open in
  let heuristic :=
    {| bucket := bucket; key := key;
       tier := determine_processing_tier template_match
                 filename_classification header_analysis;
       structural_hash := structural_hash;
       c_template_id := None;
       c_confidence := PyFloat (confidence header_analysis);
       document_type := default (type header_analysis) filename_classification;
       metadata := Some (page_count header_analysis,
                         has_tables header_analysis,
                         has_forms header_analysis) |} in
  match template_match with
  | Some tm =>
      if Num.gt_0_85 (tm_confidence tm) then
        Ok {| bucket := bucket; key := key; tier := 0;
              structural_hash := structural_hash;
              c_template_id := Some (template_id tm);
              c_confidence := tm_confidence tm;
              document_type := tm_document_type tm;
              metadata := None |}
      else Ok heuristic
  | None => Ok heuristic
  end.

(** *** Routing *)

Definition TIER0_QUEUE_URL : string :=
  "https://sqs.us-east-1.amazonaws.com/YOUR_ACCOUNT/lexohub-tier0-queue".
Definition TIER1_QUEUE_URL : string :=
  "https://sqs.us-east-1.amazonaws.com/YOUR_ACCOUNT/lexohub-tier1-queue".
Definition TIER2_QUEUE_URL : string :=
  "https://sqs.us-east-1.amazonaws.com/YOUR_ACCOUNT/lexohub-tier2-queue".
Definition TIER3_QUEUE_URL : string :=
  "https://sqs.us-east-1.amazonaws.com/YOUR_ACCOUNT/lexohub-tier3-queue".

(** The dict [queue_urls] of [route_to_tier]. *)
Definition queue_urls : list (Z * string) :=
  [ (0, TIER0_QUEUE_URL); (1, TIER1_QUEUE_URL);
    (2, TIER2_QUEUE_URL); (3, TIER3_QUEUE_URL) ].

(** [d.get(k, default)] on a dict with integer keys. *)
Fixpoint dict_get (d : list (Z * string)) (k : Z) (default : string) : string :=
  match d with
  | [] => default
  | (k', v) :: rest => if k' =? k then v else dict_get rest k default
  end.

(** The message of the [TypeError] of [json.dumps]. *)
Definition not_json_serializable : string :=
  "Object of type Decimal is not JSON serializable".

(** [json.dumps(classification)].  The encoder writes [str], [int], [float],
    [bool], lists and dicts, and raises [TypeError] on a [Decimal]; the text
    it returns is kept as the classification it encodes. *)
Definition json_dumps (classification : Classification) : Res Classification :=
  if Num.is_decimal (c_confidence classification)
  then Raise not_json_serializable
  else Ok classification.

(** The arguments of one [sqs_client.send_message]: the queue, the body and
    the two message attributes. *)
Record Message := {
  QueueUrl : string;
  MessageBody : Classification;
  Tier : string;
  DocumentType : string
}.

(** [route_to_tier]: [sent] are the messages sent so far, [send_message] is
    what SQS answers to the call. *)
Definition route_to_tier (sent : list Message) (send_message : Res unit)
    (classification : Classification) : list Message * Res unit :=
  let tier := tier classification in
  let queue_url := dict_get queue_urls tier TIER2_QUEUE_URL in
  match json_dumps classification with
  | Raise e => (sent, Raise e)
  | Ok message_body =>
      match send_message with
      | Ok _ =>
          (sent ++ [ {| QueueUrl := queue_url;
                        MessageBody := message_body;
                        Tier := Num.str tier;
                        DocumentType := document_type classification |} ],
           Ok tt)
      | Raise e => (sent, Raise e)
      end
  end.

(** *** The handler *)

(** A record of the intake event: [record.get('source')], and the bucket
    name and object key under [record['detail']] and under [record['s3']],
    each absent when the key is. *)
Record EventRecord := {
  source : option string;
  detail : option (string * string);
  s3 : option (string * string)
}.

(** What the collaborators answer while one record is handled. *)
Record Answers := {
  download : Res unit;
  fitz_open : Res Document;
  cache : CacheTable;
  send_message : Res unit
}.

(** The bucket and key of a record, by the shape of the record; a missing
    field is a [KeyError], whose message is the quoted key. *)
Definition document_ref (record : EventRecord) : Res (string * string) :=
  if PyStr.contains "eventbridge" (default EmptyString (source record))
  then match detail record with
       | Some ref => Ok ref
       | None => Raise "'detail'"
       end
  else match s3 record with
       | Some ref => Ok ref
       | None => Raise "'s3'"
       end.

(** [lambda_handler]: the records in order; the first exception ends the
    invocation.  The result is the messages sent and the status code. *)
Fixpoint lambda_handler (sent : list Message)
    (records : list (EventRecord * Answers)) : list Message * Res Z :=
  match records with
  | [] => (sent, Ok 200)
  | (record, answers) :: rest =>
      match document_ref record with
      | Raise e => (sent, Raise e)
      | Ok (bucket, key) =>
          match classify_document (download answers) (fitz_open answers)
                  (cache answers) bucket key with
          | Raise e => (sent, Raise e)
          | Ok classification_result =>
              match route_to_tier sent (send_message answers)
                      classification_result with
              | (sent', Ok _) => lambda_handler sent' rest
              | (sent', Raise e) => (sent', Raise e)
              end
          end
      end
  end.

End Lambda0.

(** ** tier1-simple-extraction/index.py *)

Module Tier1.

(** *** Messages and Textract results *)

(** The message body [start_textract_job] receives, parsed by [json.loads]:
    the dict that the classification lambda queued, with an optional
    [document_id].  A number of the body is an [int] or a [float], as the
    JSON text writes it. *)
Record Classification := {
  document_id : option string;
  body : Lambda0.Classification
}.

(** The completion notification. *)
Record Completion := {
  JobId : string;
  Status : string;
  JobTag : option string
}.

(** A block of a Textract result page. *)
Record Block := {
  BlockType : string;
  Text : option string;
  Confidence : option Q
}.

(** A response of [get_document_text_detection]. *)
Record Response := {
  Blocks : option (list Block);
  NextToken : option string
}.

(** [get_textract_results]: the loop over result pages.  [responses] are
    the answers of the service to the successive calls. *)
Fixpoint get_textract_results (responses : list (Res Response))
    (results : list Block) : Res (list Block) :=
  match responses with
  | [] => Raise "no response"
  | Raise e :: _ => Raise e
  | Ok response :: rest =>
      let results := results ++ default [] (Blocks response) in
      match NextToken response with
      | None => Ok results
      | Some EmptyString => Ok results
      | Some _ => get_textract_results rest results
      end
  end.

Definition extract_text_from_results (blocks : list Block) : string :=
  PyStr.join (String "010" EmptyString)
    (flat_map (fun block =>
                 if String.eqb (BlockType block) "LINE"
                 then [default EmptyString (Text block)] else [])
       blocks).

(** *** Confidence aggregation *)

(** The result of [calculate_confidence_score] is a [float] on every path.
    Its value is computed here in exact arithmetic: the float sum, the two
    float divisions and [round] carry binary rounding errors that the rational
    value does not have, so the two can differ in the last of the four decimal
    places when the quotient is at, or within such an error of, a decimal
    tie. *)

(** [block['BlockType'] in ['LINE', 'WORD']]. *)
Definition scoring (block : Block) : bool :=
  String.eqb (BlockType block) "LINE" || String.eqb (BlockType block) "WORD".

Definition calculate_confidence_score (blocks : list Block) : Q :=
  match blocks with
  | [] => 0%Q
  | _ =>
      let confidences :=
        flat_map (fun block =>
                    if scoring block then [default 0%Q (Confidence block)] else [])
          blocks in
      match confidences with
      | [] => 0%Q
      | _ =>
          let avg_confidence :=
            (Num.sum confidences / inject_Z (Z.of_nat (length confidences)))%Q in
          Num.round4 (avg_confidence / 100)
      end
  end.

(** *** The metadata table *)

(** The Python values the lambda hands to the table: a [str], an [int], a
    [float], or the classification dict. *)
Inductive Value : Type :=
| VStr (s : string)
| VInt (n : Z)
| VFloat (q : Q)
| VDict (c : Classification).

(** boto3's [TypeSerializer], which the table resource applies to every
    attribute value before it sends a request: it writes [str], [int],
    [Decimal], [bool] and the dicts and lists made of them, and raises
    [TypeError] on a [float], also on one inside a dict. *)
Definition serializable (v : Value) : bool :=
  match v with
  | VStr _ => true
  | VInt _ => true
  | VFloat _ => false
  | VDict c => negb (Num.is_float (Lambda0.c_confidence (body c)))
  end.

(** The message of that [TypeError]. *)
Definition float_types_error : string :=
  "Float types are not supported. Use Decimal types instead.".

(** The arguments of [METADATA_TABLE.update_item].  The update expression
    ['SET ' + ', '.join(parts)] is kept as the list of its parts, a part
    [path = :placeholder] as the pair of the path and the placeholder. *)
Record UpdateItem := {
  Key : string;
  UpdateExpression : list (string * string);
  ExpressionAttributeNames : gmap string string;
  ExpressionAttributeValues : gmap string Value
}.

(** [METADATA_TABLE.update_item] with a [SET] expression: the table after
    the call, or the exception of a call, which then has written nothing.
    The attribute values are serialised first, and a value that is not
    serialisable raises before anything is sent.  The store then applies the
    expression, the "sparse/partial update (set only named fields, leave
    others)" of the metadata store: a path starting with [#] is looked up in
    the attribute names, a placeholder in the attribute values; the item is
    created with its key when it does not exist. *)
Definition resolve_path (names : gmap string string) (path : string) : option string :=
  match path with
  | String "#" _ => names !! path
  | _ => Some path
  end.

Fixpoint apply_set (names : gmap string string) (values : gmap string Value)
    (parts : list (string * string)) (item : gmap string Value)
    : Res (gmap string Value) :=
  match parts with
  | [] => Ok item
  | (path, placeholder) :: rest =>
      match resolve_path names path, values !! placeholder with
      | Some attribute, Some v => apply_set names values rest (<[attribute := v]> item)
      | _, _ => Raise "ValidationException"
      end
  end.

Definition update_item (table : gmap string (gmap string Value)) (u : UpdateItem)
    : Res (gmap string (gmap string Value)) :=
  if bool_decide (map_Forall (fun _ v => serializable v = true)
                    (ExpressionAttributeValues u))
  then
    let item := default {[ "documentId" := VStr (Key u) ]} (table !! Key u) in
    do item' <- apply_set (ExpressionAttributeNames u) (ExpressionAttributeValues u)
                  (UpdateExpression u) item;
    Ok (<[Key u := item']> table)
  else Raise float_types_error.

(** One [if name in kwargs: ...] of [update_metadata]. *)
Definition add_field (kwargs : gmap string Value) (name attribute placeholder : string)
    (st : list (string * string) * gmap string Value)
    : list (string * string) * gmap string Value :=
  match kwargs !! name with
  | Some v => (fst st ++ [(attribute, placeholder)], <[placeholder := v]> (snd st))
  | None => st
  end.

(** The request [update_metadata] builds; [now] is
    [datetime.utcnow().isoformat()]. *)
Definition update_request (now document_id status : string)
    (kwargs : gmap string Value) : UpdateItem :=
  let st := ([("#status", ":status"); ("updatedAt", ":updated_at")],
             <[":updated_at" := VStr now]> {[ ":status" := VStr status ]}) in
  let st := add_field kwargs "job_id" "jobId" ":job_id" st in
  let st := add_field kwargs "tier" "processingTier" ":tier" st in
  let st := add_field kwargs "classification" "classification" ":classification" st in
  let st := add_field kwargs "extracted_text" "extractedText" ":text" st in
  let st := add_field kwargs "confidence" "confidence" ":confidence" st in
  let st := add_field kwargs "error" "errorMessage" ":error" st in
  let st := add_field kwargs "completion_time" "completionTime" ":completion_time" st in
  {| Key := document_id;
     UpdateExpression := fst st;
     ExpressionAttributeNames := {[ "#status" := "status" ]};
     ExpressionAttributeValues := snd st |}.

Definition update_metadata (table : gmap string (gmap string Value))
    (now document_id status : string) (kwargs : gmap string Value)
    : Res (gmap string (gmap string Value)) :=
  update_item table (update_request now document_id status kwargs).

(** *** Job start and completion *)

(** [start_textract_job]: [start_document_text_detection] is what Textract
    answered (the job id, or an exception), [now] the reading of the clock in
    the update that is stored; the result is the table after the call and
    whether the call raised.  The [except] branch also takes the exception of
    the [PROCESSING] update. *)
Definition start_textract_job (table : gmap string (gmap string Value))
    (now : string) (start_document_text_detection : Res string)
    (classification : Classification)
    : gmap string (gmap string Value) * Res unit :=
  let key := Lambda0.key (body classification) in
  let document_id := default (PyStr.last_segment key) (document_id classification) in
  match
    (do job_id <- start_document_text_detection;
     update_metadata table now document_id "PROCESSING"
       (<["classification" := VDict classification]>
          (<["tier" := VInt 1]> {[ "job_id" := VStr job_id ]})))
  with
  | Ok table' => (table', Ok tt)
  | Raise e =>
      match update_metadata table now document_id "FAILED" {[ "error" := VStr e ]} with
      | Ok table' => (table', Raise e)
      | Raise e' => (table, Raise e')
      end
  end.

(** The keyword arguments of the [COMPLETED] update; the confidence score
    is a [float]. *)
Definition completed_fields (extracted_text : string) (confidence_score : Q)
    (completion_time : string) : gmap string Value :=
  <["completion_time" := VStr completion_time]>
    (<["tier" := VInt 1]>
       (<["confidence" := VFloat confidence_score]>
          {[ "extracted_text" := VStr extracted_text ]})).

(** [handle_textract_completion]: [responses] are Textract's result pages,
    [completion_time] and [now] the two readings of the clock. *)
Definition handle_textract_completion (table : gmap string (gmap string Value))
    (completion_time now : string) (responses : list (Res Response))
    (message : Completion)
    : gmap string (gmap string Value) * Res unit :=
  let job_id := JobId message in
  if negb (String.eqb (Status message) "SUCCEEDED") then (table, Ok tt)
  else
    match
      (do results <- get_textract_results responses [];
       let extracted_text := extract_text_from_results results in
       let confidence_score := calculate_confidence_score results in
       let document_id := default job_id (JobTag message) in
       update_metadata table now document_id "COMPLETED"
         (completed_fields extracted_text confidence_score completion_time))
    with
    | Ok table' => (table', Ok tt)
    | Raise e => (table, Raise e)
    end.

(** *** The handler *)

(** A record of the event with its parsed body, and what the collaborators
    answer while it is handled.  A body with a [JobId] key is a completion
    notification, any other body a classification. *)
Inductive Record_ : Type :=
| Notification (message : Completion) (completion_time now : string)
    (responses : list (Res Response))
| Queued (classification : Classification) (now : string)
    (start_document_text_detection : Res string).

(** The body of the loop of [lambda_handler]. *)
Definition handle_record (table : gmap string (gmap string Value)) (r : Record_)
    : gmap string (gmap string Value) * Res unit :=
  match r with
  | Notification message completion_time now responses =>
      handle_textract_completion table completion_time now responses message
  | Queued classification now start_document_text_detection =>
      start_textract_job table now start_document_text_detection classification
  end.

(** [lambda_handler]: the records in order; an exception ends the
    invocation. *)
Fixpoint lambda_handler (table : gmap string (gmap string Value))
    (records : list Record_) : gmap string (gmap string Value) * Res unit :=
  match records with
  | [] => (table, Ok tt)
  | r :: rest =>
      match handle_record table r with
      | (table', Ok _) => lambda_handler table' rest
      | (table', Raise e) => (table', Raise e)
      end
  end.

(** *** The persisted status of a document *)

(** The [status] attribute of the item of [document_id], if any. *)
Definition status_of (table : gmap string (gmap string Value))
    (document_id : string) : option Value :=
  table !! document_id ≫= (fun item => item !! "status").

(** The document id a record writes to, if it writes at all. *)
Definition target (r : Record_) : string :=
  match r with
  | Notification message _ _ _ => default (JobId message) (JobTag message)
  | Queued classification _ _ =>
      default (PyStr.last_segment (Lambda0.key (body classification)))
        (document_id classification)
  end.

(** The tables after each of a sequence of handled records. *)
Fixpoint run (table : gmap string (gmap string Value)) (records : list Record_)
    : list (gmap string (gmap string Value)) :=
  match records with
  | [] => []
  | r :: rest =>
      let table' := fst (handle_record table r) in
      table' :: run table' rest
  end.





(** The status history of [document_id] over a sequence of records. *)
Definition history (table : gmap string (gmap string Value))
    (records : list Record_) (document_id : string) : list (option Value) :=
  map (fun t => status_of t document_id) (table :: run table records).


End Tier1.

(** ** Notions of the specification *)

(** What the comparison [n > 0.85] of a number with the float literal
    asks of the number: a float is above the float 0.85, a [Decimal] or an
    [int] is above the binary value of that float. *)
Definition above_float_0_85 (n : Number) : Prop :=
  match n with
  | PyFloat q => (0.85 < q)%Q
  | PyDecimal q => (Num.float_0_85 < q)%Q
  | PyInt z => (Num.float_0_85 < inject_Z z)%Q
  end.

(** "A cache entry with confidence > 0.85 is present", as the program
    decides it: there is an entry, and its confidence passes the test
    [confidence > 0.85]. *)
Definition qualifying_cache_entry (template_match : option Lambda0.TemplateMatch) : Prop :=
  exists tm, template_match = Some tm /\ above_float_0_85 (Lambda0.tm_confidence tm).

Definition qualifying_cache_entryb (template_match : option Lambda0.TemplateMatch) : bool :=
  match template_match with
  | Some tm => Num.gt_0_85 (Lambda0.tm_confidence tm)
  | None => false
  end.

(** The same sentence by the value of the confidence: it is greater than
    17/20. *)
Definition confidence_above_0_85 (template_match : option Lambda0.TemplateMatch) : Prop :=
  exists tm, template_match = Some tm /\ (0.85 < Num.value (Lambda0.tm_confidence tm))%Q.



(** Sample inputs. *)
Definition mk_header (pages : Z) (tables forms : bool) (conf : Q) : Lambda0.HeaderAnalysis :=
  {| Lambda0.page_count := pages; Lambda0.has_tables := tables;
     Lambda0.has_forms := forms; Lambda0.confidence := conf;
     Lambda0.type := "unknown" |}.

Definition cache_entry (confidence : Number) : Lambda0.TemplateMatch :=
  {| Lambda0.template_id := Lambda0.sha256_hexdigest "f";
     Lambda0.tm_confidence := confidence;
     Lambda0.tm_document_type := "invoice";
     Lambda0.field_mappings := [] |}.

(** A cache entry whose confidence is a float, and one whose confidence is
    the [Decimal] of a stored item. *)
Definition mk_cache (conf : Q) : Lambda0.TemplateMatch := cache_entry (PyFloat conf).

Definition stored_cache (conf : Q) : Lambda0.TemplateMatch := cache_entry (PyDecimal conf).

Definition sample_page (text : string) : Lambda0.Page :=
  {| Lambda0.get_text_dict_blocks :=
       Ok [ {| Lambda0.lines := Some [ {| Lambda0.bbox0 := 72.5; Lambda0.bbox1 := 90 |} ] |} ];
     Lambda0.rect_width := 612; Lambda0.rect_height := 792;
     Lambda0.get_text := Ok text;
     Lambda0.find_tables := Ok false; Lambda0.widgets := Ok false |}.

Definition sample_document (pages : nat) (text : string) : Res Lambda0.Document :=
  Ok {| Lambda0.len := pages; Lambda0.first_page := Ok (sample_page text) |}.




Definition mk_block (ty : string) (score : Q) : Tier1.Block :=
  {| Tier1.BlockType := ty; Tier1.Text := Some "text"; Tier1.Confidence := Some score |}.

(** Set-if-present: the attribute takes the value of the keyword argument
    when the call supplies it. *)
Definition assign (kwargs : gmap string Tier1.Value) (name attribute : string)
    (item : gmap string Tier1.Value) : gmap string Tier1.Value :=
  match kwargs !! name with
  | Some v => <[attribute := v]> item
  | None => item
  end.

(** The item after a metadata update, as a merge into the item before it. *)
Definition merged (now status : string) (kwargs : gmap string Tier1.Value)
    (item : gmap string Tier1.Value) : gmap string Tier1.Value :=
  assign kwargs "completion_time" "completionTime"
    (assign kwargs "error" "errorMessage"
       (assign kwargs "confidence" "confidence"
          (assign kwargs "extracted_text" "extractedText"
             (assign kwargs "classification" "classification"
                (assign kwargs "tier" "processingTier"
                   (assign kwargs "job_id" "jobId"
                      (<["updatedAt" := Tier1.VStr now]>
                         (<["status" := Tier1.VStr status]> item)))))))).

(** The value a metadata update writes to an attribute, if it writes it. *)
Definition assigned (now status : string) (kwargs : gmap string Tier1.Value)
    (attribute : string) : option Tier1.Value :=
  if String.eqb attribute "status" then Some (Tier1.VStr status)
  else if String.eqb attribute "updatedAt" then Some (Tier1.VStr now)
  else if String.eqb attribute "jobId" then kwargs !! "job_id"
  else if String.eqb attribute "processingTier" then kwargs !! "tier"
  else if String.eqb attribute "classification" then kwargs !! "classification"
  else if String.eqb attribute "extractedText" then kwargs !! "extracted_text"
  else if String.eqb attribute "confidence" then kwargs !! "confidence"
  else if String.eqb attribute "errorMessage" then kwargs !! "error"
  else if String.eqb attribute "completionTime" then kwargs !! "completion_time"
  else None.

(** The item of a document id before an update: the stored one, or the new
    item [UpdateItem] creates, holding the key alone. *)
Definition item_of (table : gmap string (gmap string Tier1.Value))
    (document_id : string) : gmap string Tier1.Value :=
  default {[ "documentId" := Tier1.VStr document_id ]} (table !! document_id).

(** A state of the request under construction in [update_metadata] is well
    formed over the placeholders [used]: every part resolves, and no other
    placeholder has a value. *)
Definition well_formed (names : gmap string string) (used : list string)
    (st : list (string * string) * gmap string Tier1.Value) : Prop :=
  Forall (fun part => is_Some (Tier1.resolve_path names (fst part))
                      /\ is_Some (snd st !! snd part)) (fst st)
  /\ forall placeholder, ~ In placeholder used -> snd st !! placeholder = None.

(** The keyword arguments [update_metadata] reads and the attributes it
    stores them under. *)
Definition field_names : list (string * string) :=
  [ ("job_id", "jobId"); ("tier", "processingTier");
    ("classification", "classification"); ("extracted_text", "extractedText");
    ("confidence", "confidence"); ("error", "errorMessage");
    ("completion_time", "completionTime") ].

(** An attribute of an item, if the item exists. *)
Definition attribute (table : gmap string (gmap string Tier1.Value))
    (document_id name : string) : option Tier1.Value :=
  table !! document_id ≫= (fun item => item !! name).

(** A queued classification of the object [inbox/doc.pdf] with the given
    confidence. *)
Definition classification_with (confidence : Number) : Tier1.Classification :=
  {| Tier1.document_id := None;
     Tier1.body :=
       {| Lambda0.bucket := "intake"; Lambda0.key := "inbox/doc.pdf";
          Lambda0.tier := 1;
          Lambda0.structural_hash := Lambda0.sha256_hexdigest "f";
          Lambda0.c_template_id := None; Lambda0.c_confidence := confidence;
          Lambda0.document_type := "unknown";
          Lambda0.metadata := Some (2, false, false) |} |}.

(** The message as the classification lambda queues it, with the float
    confidence of the header analysis, and a message whose confidence is
    written as the integer [1]. *)
Definition sample_classification : Tier1.Classification :=
  classification_with (PyFloat 0.6).

Definition integral_classification : Tier1.Classification :=
  classification_with (PyInt 1).

(** A document whose job was started at time [t0]. *)
Definition started_table : gmap string (gmap string Tier1.Value) :=
  {[ "doc.pdf" :=
       <["classification" := Tier1.VDict integral_classification]>
         (<["updatedAt" := Tier1.VStr "t0"]>
            (<["status" := Tier1.VStr "PROCESSING"]>
               {[ "documentId" := Tier1.VStr "doc.pdf" ]})) ]}.

(** A completion notification for the sample document, and one page of
    Textract results. *)
Definition sample_completion (job_id : string) : Tier1.Completion :=
  {| Tier1.JobId := job_id; Tier1.Status := "SUCCEEDED";
     Tier1.JobTag := Some "doc.pdf" |}.

Definition sample_responses : list (Res Tier1.Response) :=
  [ Ok {| Tier1.Blocks := Some [ mk_block "LINE" 100; mk_block "WORD" 80 ];
          Tier1.NextToken := None |} ].



(** The keyword argument [name] is absent or holds a value that the store
    accepts; the store accepts the keyword arguments of an update when that
    is so of each of those that [update_metadata] reads. *)
Definition supplied_serializable (kwargs : gmap string Tier1.Value) (name : string) : bool :=
  match kwargs !! name with
  | Some v => Tier1.serializable v
  | None => true
  end.

Definition storable (kwargs : gmap string Tier1.Value) : bool :=
  forallb (supplied_serializable kwargs) (map fst field_names).

(** The text is made of ASCII characters. *)
Fixpoint is_ascii (s : string) : bool :=
  match s with
  | EmptyString => true
  | String c s' => (N_of_ascii c <? 128)%N && is_ascii s'
  end.

(** The first character of a string. *)
Definition head_char (s : string) : option ascii :=
  match s with
  | EmptyString => None
  | String c _ => Some c
  end.

(** A legitimate structural fingerprint: the digest of the feature string
    of a document whose feature extraction succeeded. *)
Definition structural_fingerprint (h : Lambda0.Digest) : Prop :=
  exists fitz_open features,
    Lambda0.structural_features fitz_open = Ok features /\
    h = Lambda0.sha256_hexdigest (PyStr.join "|" features).

(** A readable document without pages, and a cache that holds an entry for
    the fingerprint of such documents. *)
Definition zero_page_document : Res Lambda0.Document :=
  Ok {| Lambda0.len := 0; Lambda0.first_page := Raise "page not in document" |}.

Definition zero_page_cache : Lambda0.CacheTable :=
  {| Lambda0.backend_error := None;
     Lambda0.items :=
       [ {| Lambda0.structuralHash := Lambda0.sha256_hexdigest EmptyString;
            Lambda0.item_confidence := Some 0.9%Q;
            Lambda0.documentType := Some "invoice";
            Lambda0.fieldMappings := None |} ] |}.

(** The same cache with an entry of confidence exactly 0.85. *)
Definition threshold_cache : Lambda0.CacheTable :=
  {| Lambda0.backend_error := None;
     Lambda0.items :=
       [ {| Lambda0.structuralHash := Lambda0.sha256_hexdigest EmptyString;
            Lambda0.item_confidence := Some 0.85%Q;
            Lambda0.documentType := Some "invoice";
            Lambda0.fieldMappings := None |} ] |}.

(** The filename rules in words: a keyword occurs in the filename, in either
    case, and what follows it satisfies the condition of the rule. *)

(** [kw] is a prefix of [s] up to ASCII case. *)
Fixpoint ci_prefix (kw s : string) : bool :=
  match kw, s with
  | EmptyString, _ => true
  | String a kw', String c s' => Re.ci_eq a c && ci_prefix kw' s'
  | String _ _, EmptyString => false
  end.

(** [s[n:]]. *)
Fixpoint drop_chars (n : nat) (s : string) : string :=
  match n, s with
  | O, _ => s
  | S n', String _ s' => drop_chars n' s'
  | S _, EmptyString => EmptyString
  end.

Definition starts_with (p : ascii -> bool) (s : string) : bool :=
  match s with
  | String c _ => p c
  | EmptyString => false
  end.

(** Nothing is asked of what follows the keyword. *)
Definition bare (rest : string) : bool := true.

(** What follows the keyword is a character of class [p], or [-] or [_] and
    then a character of class [p]. *)
Definition after_separator (p : ascii -> bool) (rest : string) : bool :=
  starts_with p rest ||
  match rest with
  | String c rest' => Re.is_sep c && starts_with p rest'
  | EmptyString => false
  end.

Definition keyword_at (keywords : list string) (suffix : string -> bool)
    (s : string) : bool :=
  existsb (fun kw => ci_prefix kw s && suffix (drop_chars (String.length kw) s))
    keywords.

Fixpoint occurs (keywords : list string) (suffix : string -> bool)
    (s : string) : bool :=
  keyword_at keywords suffix s ||
  match s with
  | EmptyString => false
  | String _ s' => occurs keywords suffix s'
  end.

Definition filename_rules : list (string * (list string * (string -> bool))) :=
  [ ("invoice", (["invoice"; "bill"; "receipt"], after_separator Re.is_digit));
    ("contract", (["contract"; "agreement"], after_separator Re.is_alnum));
    ("court_filing", (["motion"; "petition"; "complaint"; "answer"], bare));
    ("correspondence", (["letter"; "memo"; "email"], bare));
    ("pleading", (["pleading"; "brief"; "memorandum"], bare)) ].

Fixpoint first_rule (rules : list (string * (list string * (string -> bool))))
    (filename : string) : option string :=
  match rules with
  | [] => None
  | (doc_type, (keywords, suffix)) :: rest =>
      if occurs keywords suffix filename then Some doc_type
      else first_rule rest filename
  end.

(** The keywords of the three rules that ask nothing of what follows. *)
Definition bare_keywords : list string :=
  [ "motion"; "petition"; "complaint"; "answer"; "letter"; "memo"; "email";
    "pleading"; "brief"; "memorandum" ].

(** The message [route_to_tier] sends for a classification. *)
Definition message_for (c : Lambda0.Classification) : Lambda0.Message :=
  {| Lambda0.QueueUrl :=
       Lambda0.dict_get Lambda0.queue_urls (Lambda0.tier c) Lambda0.TIER2_QUEUE_URL;
     Lambda0.MessageBody := c;
     Lambda0.Tier := Num.str (Lambda0.tier c);
     Lambda0.DocumentType := Lambda0.document_type c |}.

(** The message is the one of the classification of the record. *)
Definition routed (ra : Lambda0.EventRecord * Lambda0.Answers)
    (m : Lambda0.Message) : Prop :=
  exists bucket key c,
    Lambda0.document_ref (fst ra) = Ok (bucket, key) /\
    Lambda0.classify_document (Lambda0.download (snd ra)) (Lambda0.fitz_open (snd ra))
      (Lambda0.cache (snd ra)) bucket key = Ok c /\
    Lambda0.bucket c = bucket /\ Lambda0.key c = key /\
    m = message_for c.

(** A record of either shape for the same object, and answers of the
    collaborators for a readable two-page letter. *)
Definition s3_record (bucket key : string) : Lambda0.EventRecord :=
  {| Lambda0.source := Some "aws:s3"; Lambda0.detail := None;
     Lambda0.s3 := Some (bucket, key) |}.

Definition eventbridge_record (bucket key : string) : Lambda0.EventRecord :=
  {| Lambda0.source := Some "aws.eventbridge"; Lambda0.detail := Some (bucket, key);
     Lambda0.s3 := None |}.

Definition empty_cache : Lambda0.CacheTable :=
  {| Lambda0.backend_error := None; Lambda0.items := [] |}.

Definition sample_answers : Lambda0.Answers :=
  {| Lambda0.download := Ok tt;
     Lambda0.fitz_open := sample_document 2 "Dear Sir";
     Lambda0.cache := empty_cache;
     Lambda0.send_message := Ok tt |}.

(** The blocks of a response, and whether the response announces a further
    page. *)
Definition blocks_of (r : Tier1.Response) : list Tier1.Block :=
  default [] (Tier1.Blocks r).

Definition has_token (r : Tier1.Response) : bool :=
  match Tier1.NextToken r with
  | Some (String _ _) => true
  | _ => false
  end.

Definition is_line (b : Tier1.Block) : bool := String.eqb (Tier1.BlockType b) "LINE".

Definition newline : string := String "010" EmptyString.

(** The confidences [calculate_confidence_score] averages: that of each LINE
    and WORD block, 0 for a block that carries none. *)
Definition confidences (blocks : list Tier1.Block) : list Q :=
  map (fun b => default 0%Q (Tier1.Confidence b)) (List.filter Tier1.scoring blocks).

(** Every confidence the blocks carry lies between 0 and 100. *)
Definition percentages (blocks : list Tier1.Block) : Prop :=
  Forall (fun b => forall q, Tier1.Confidence b = Some q -> (0 <= q <= 100)%Q) blocks.

(** What the request under construction in [update_metadata] keeps true: no
    path is set twice, the paths and the placeholders come from the given
    lists, and the values are those of the placeholders in use. *)
Definition request_invariant (paths placeholders : list string)
    (st : list (string * string) * gmap string Tier1.Value) : Prop :=
  List.NoDup (map fst (fst st)) /\
  (forall p, In p (map fst (fst st)) -> In p paths) /\
  (forall ph, is_Some (snd st !! ph) <-> In ph (map snd (fst st))) /\
  (forall ph, In ph (map snd (fst st)) -> In ph placeholders).

(** * Properties *)

(** ** Comparisons *)

Lemma Num_ltb_lt a b : Num.ltb a b = true <-> (a < b)%Q.
Proof.
  unfold Num.ltb. rewrite negb_true_iff. split.
  - intros H. apply Qnot_le_lt. intros Hle.
    apply Qle_bool_iff in Hle. congruence.
  - intros H. destruct (Qle_bool b a) eqn:E; [|reflexivity].
    apply Qle_bool_iff in E. exfalso. exact (Qlt_not_le _ _ H E).
Qed.

Lemma Num_gtb_gt a b : Num.gtb a b = true <-> (b < a)%Q.
Proof. apply Num_ltb_lt. Qed.

Lemma Num_ltb_ge a b : Num.ltb a b = false <-> (b <= a)%Q.
Proof. unfold Num.ltb. rewrite negb_false_iff. apply Qle_bool_iff. Qed.

(** ** The tier policy *)

Lemma gt_0_85_spec n : Num.gt_0_85 n = true <-> above_float_0_85 n.
Proof. destruct n; apply Num_gtb_gt. Qed.

Lemma qualifying_cache_entryb_spec tm :
  qualifying_cache_entryb tm = true <-> qualifying_cache_entry tm.
Proof.
  unfold qualifying_cache_entryb, qualifying_cache_entry. split.
  - destruct tm as [m|]; [|discriminate].
    intros H. exists m. split; [reflexivity | now apply gt_0_85_spec].
  - intros (m & -> & H). now apply gt_0_85_spec.
Qed.

Lemma not_qualifying tm :
  ~ qualifying_cache_entry tm -> qualifying_cache_entryb tm = false.
Proof.
  intros Hno. destruct (qualifying_cache_entryb tm) eqn:E; [|reflexivity].
  apply qualifying_cache_entryb_spec in E. contradiction.
Qed.


Lemma tier_decision tm fc h :
  In (Lambda0.determine_processing_tier tm fc h) [0; 1; 2; 3] /\
  (Lambda0.determine_processing_tier tm fc h = 0 <-> qualifying_cache_entry tm).
Proof.
  rewrite <- qualifying_cache_entryb_spec.
  unfold Lambda0.determine_processing_tier. fold (qualifying_cache_entryb tm).
  destruct (qualifying_cache_entryb tm).
  - split; [simpl; auto | tauto].
  - repeat match goal with
           | |- context [if ?b then _ else _] => destruct b
           end; simpl; split; auto; split; discriminate.
Qed.

(** The float [0.85] is the binary64 number closest to 17/20, and lies
    below it. *)
Lemma float_0_85_nearest :
  (Num.float_0_85 == inject_Z 7656119366529843 / inject_Z (2 ^ 53))%Q /\
  2 ^ 52 <= 7656119366529843 < 2 ^ 53 /\
  (Num.float_0_85 < 0.85)%Q /\
  (0.85 - Num.float_0_85 <= 1 / inject_Z (2 ^ 54))%Q.
Proof.
  split; [reflexivity|]. split; [lia|]. split; [reflexivity|].
  unfold Qle. vm_compute. discriminate.
Qed.

Lemma gt_0_85_decimal d :
  Num.gt_0_85 (PyDecimal d) = true <-> (Num.float_0_85 < d)%Q.
Proof. apply (gt_0_85_spec (PyDecimal d)). Qed.

(** A confidence whose value is above 17/20 passes the test of the code,
    whatever its kind. *)
Lemma above_qualifies tm : confidence_above_0_85 tm -> qualifying_cache_entry tm.
Proof.
  intros (m & Hm & Hlt). exists m. split; [exact Hm|].
  destruct float_0_85_nearest as (_ & _ & Hbelow & _).
  destruct (Lambda0.tm_confidence m) as [z|q|q]; simpl in *;
    first [exact Hlt | eapply Qlt_trans; eassumption].
Qed.

(** C1, as the code has it.  For every cache entry (or none), filename type
    (or none) and header analysis, [determine_processing_tier] returns a tier
    among 0, 1, 2, 3, and it returns 0 exactly when a cache entry passes the
    test [confidence > 0.85]; that rule comes first: cache confidence 0.9 with
    20 pages is tier 0.  A confidence above 17/20 passes the test.  But the
    cache confidence is a [Decimal], and the test compares it with the float
    [0.85], which is below 17/20: a stored confidence passes exactly when it
    is above that float, so a cache entry of confidence exactly 0.85 gets
    tier 0, from [determine_processing_tier] and from [classify_document],
    whose early return repeats the test. *)
Theorem C1_tier_range_and_cache_rule :
  (forall tm fc h,
      In (Lambda0.determine_processing_tier tm fc h) [0; 1; 2; 3] /\
      (Lambda0.determine_processing_tier tm fc h = 0 <-> qualifying_cache_entry tm)) /\
  (forall tm, confidence_above_0_85 tm -> qualifying_cache_entry tm) /\
  (forall fc tables forms conf,
      Lambda0.determine_processing_tier (Some (stored_cache 0.9)) fc
        (mk_header 20 tables forms conf) = 0 /\
      Lambda0.determine_processing_tier (Some (mk_cache 0.9)) fc
        (mk_header 20 tables forms conf) = 0) /\
  (forall d fc h,
      Lambda0.determine_processing_tier (Some (stored_cache d)) fc h = 0 <->
      (Num.float_0_85 < d)%Q) /\
  (forall fc h,
      Lambda0.determine_processing_tier (Some (stored_cache 0.85)) fc h = 0) /\
  ~ confidence_above_0_85 (Some (stored_cache 0.85)) /\
  (forall download fitz_open table bucket key c,
      Lambda0.classify_document download fitz_open table bucket key = Ok c ->
      In (Lambda0.tier c) [0; 1; 2; 3] /\
      (Lambda0.tier c = 0 <->
       qualifying_cache_entry
         (Lambda0.check_template_cache table
            (Lambda0.generate_structural_hash fitz_open
               (String.append "/tmp/" (PyStr.last_segment key)))))) /\
  (exists c,
      Lambda0.classify_document (Ok tt) zero_page_document threshold_cache
        "intake" "inbox/empty.pdf" = Ok c /\
      Lambda0.tier c = 0 /\ Lambda0.c_confidence c = PyDecimal 0.85).
Proof.
  split; [exact tier_decision|]. split; [exact above_qualifies|].
  split; [intros; split; reflexivity|].
  split; [|split; [reflexivity|split; [|split]]].
  - intros d fc h.
    destruct (tier_decision (Some (stored_cache d)) fc h) as [_ ->].
    split.
    + intros (m & [= <-] & H). exact H.
    + intros H. exists (stored_cache d). split; [reflexivity | exact H].
  - intros (m & [= <-] & Hlt). simpl in Hlt.
    revert Hlt. apply Qle_not_lt. apply Qle_refl.
  - intros download fitz_open table bucket key c.
    unfold Lambda0.classify_document.
    destruct download as [[]|e]; cbn [bind]; [|discriminate].
    set (tm := Lambda0.check_template_cache _ _).
    destruct tm as [m|] eqn:Etm.
    + destruct (Num.gt_0_85 (Lambda0.tm_confidence m)) eqn:Eg; intros [= <-].
      * cbn [Lambda0.tier]. split; [simpl; auto|].
        split; [intros _|reflexivity].
        apply qualifying_cache_entryb_spec. exact Eg.
      * apply tier_decision.
    + intros [= <-]. apply tier_decision.
  - eexists. split; [reflexivity|]. split; reflexivity.
Qed.

Lemma C1_tier_range_and_cache_rule_witness :
  exists c,
    Lambda0.classify_document (Ok tt) zero_page_document zero_page_cache
      "intake" "inbox/empty.pdf" = Ok c /\
    In (Lambda0.tier c) [0; 1; 2; 3].
Proof.
  eexists. split; [reflexivity|].
  exact (proj1 (proj1 (proj2 (proj2 (proj2 (proj2 (proj2 (proj2
           C1_tier_range_and_cache_rule))))))
           (Ok tt) zero_page_document zero_page_cache "intake" "inbox/empty.pdf"
           _ eq_refl)).
Defined.




(** ** Header analysis and the tier policy *)

(** A header analysis that succeeded reports a confidence of 0.6, 0.7 or
    0.8 and the page count of the document. *)
Lemma try_analyze_ok fitz_open a :
  Lambda0.try_analyze fitz_open = Ok a ->
  (0.6 <= Lambda0.confidence a)%Q /\
  exists doc, fitz_open = Ok doc /\ Lambda0.page_count a = Z.of_nat (Lambda0.len doc).
Proof.
  unfold Lambda0.try_analyze.
  destruct fitz_open as [doc|e]; cbn [bind]; [|discriminate].
  destruct (0 <? Lambda0.len doc)%nat.
  - destruct (Lambda0.first_page doc) as [page|e]; cbn [bind]; [|discriminate].
    destruct (Lambda0.get_text page) as [text|e]; cbn [bind]; [|discriminate].
    repeat match goal with
           | |- context [if Lambda0.any_keyword ?k text then _ else _] =>
               destruct (Lambda0.any_keyword k text)
           end;
      (destruct (Lambda0.find_tables page) as [tables|e]; cbn [bind]; [|discriminate];
       destruct (Lambda0.widgets page) as [forms|e]; cbn [bind]; [|discriminate];
       intros [= <-]; simpl; split; [unfold Qle; simpl; lia | eauto]).
  - intros [= <-]. simpl. split; [unfold Qle; simpl; lia | eauto].
Qed.

Lemma analyze_raise fitz_open e :
  Lambda0.try_analyze fitz_open = Raise e ->
  Lambda0.analyze_document_header fitz_open = Lambda0.fallback_analysis.
Proof.
  intros H. unfold Lambda0.analyze_document_header. now rewrite H.
Qed.

(** What [analyze_document_header] can return: a confidence of at least 0.6,
    or the fallback dict. *)
Lemma analyze_cases fitz_open :
  (0.6 <= Lambda0.confidence (Lambda0.analyze_document_header fitz_open))%Q \/
  Lambda0.analyze_document_header fitz_open = Lambda0.fallback_analysis.
Proof.
  unfold Lambda0.analyze_document_header.
  destruct (Lambda0.try_analyze fitz_open) as [a|e] eqn:E.
  - left. now apply try_analyze_ok in E.
  - now right.
Qed.

Lemma tier3_needs_pages tm fc h :
  (0.6 <= Lambda0.confidence h)%Q \/ h = Lambda0.fallback_analysis ->
  Lambda0.determine_processing_tier tm fc h = 3 ->
  10 < Lambda0.page_count h.
Proof.
  intros Hh. unfold Lambda0.determine_processing_tier.
  destruct (match tm with Some _ => _ | None => _ end); [discriminate|].
  destruct Hh as [Hconf | ->]; [|simpl; discriminate].
  destruct (_ && _); [discriminate|].
  destruct (_ || _); [discriminate|].
  assert (Hlow : Num.ltb (Lambda0.confidence h) 0.5 = false).
  { apply Num_ltb_ge. eapply Qle_trans; [|exact Hconf]. unfold Qle; simpl; lia. }
  rewrite Hlow, orb_false_r.
  destruct (Lambda0.page_count h >? 10) eqn:E; [|discriminate].
  intros _. apply Z.gtb_lt in E. lia.
Qed.

(** C4. When the first-page analysis fails, whether opening the file raises
    or a call on the first page does, [analyze_document_header] returns the
    fallback dict (0 pages, no tables, no forms, confidence 0.3, type
    unknown); with no cache entry the tier policy sends that analysis to
    tier 1, by its rule for at most 3 pages without tables and forms, and not
    to tier 3. *)
Theorem C4_fallback_analysis_is_tier_1 :
  forall e n w h tables forms fc,
    let failing_page :=
      {| Lambda0.get_text_dict_blocks := Ok []; Lambda0.rect_width := w;
         Lambda0.rect_height := h; Lambda0.get_text := Raise e;
         Lambda0.find_tables := tables; Lambda0.widgets := forms |} in
    let unreadable := Ok {| Lambda0.len := S n; Lambda0.first_page := Ok failing_page |} in
    Lambda0.analyze_document_header (Raise e) = Lambda0.fallback_analysis /\
    Lambda0.analyze_document_header unreadable = Lambda0.fallback_analysis /\
    Lambda0.fallback_analysis = mk_header 0 false false 0.3 /\
    Lambda0.determine_processing_tier None fc (Lambda0.analyze_document_header (Raise e)) = 1 /\
    Lambda0.determine_processing_tier None fc (Lambda0.analyze_document_header unreadable) = 1.
Proof.
  intros. repeat split.
Qed.

(** C10. For every document classified without a qualifying cache entry, a
    tier of 3 means that the header analysis reported more than 10 pages.
    The disjunct [confidence < 0.5] of the tier-3 rule never decides: an
    analysis that succeeds has confidence at least 0.6, and the fallback
    analysis (confidence 0.3) has 0 pages, no tables and no forms, which the
    tier-1 rule takes first. *)
Theorem C10_tier_3_only_by_page_count :
  (forall download fitz_open table bucket key c,
      Lambda0.classify_document download fitz_open table bucket key = Ok c ->
      Lambda0.tier c = 3 ->
      exists pages tables forms,
        Lambda0.metadata c = Some (pages, tables, forms) /\
        pages = Lambda0.page_count (Lambda0.analyze_document_header fitz_open) /\
        10 < pages) /\
  (forall tm fc fitz_open,
      Lambda0.determine_processing_tier tm fc
        (Lambda0.analyze_document_header fitz_open) = 3 ->
      10 < Lambda0.page_count (Lambda0.analyze_document_header fitz_open)) /\
  (forall fitz_open a,
      Lambda0.try_analyze fitz_open = Ok a -> (0.6 <= Lambda0.confidence a)%Q) /\
  (forall fitz_open e tm fc,
      Lambda0.try_analyze fitz_open = Raise e ->
      ~ qualifying_cache_entry tm ->
      Lambda0.determine_processing_tier tm fc
        (Lambda0.analyze_document_header fitz_open) = 1).
Proof.
  assert (H2 : forall tm fc fitz_open,
             Lambda0.determine_processing_tier tm fc
               (Lambda0.analyze_document_header fitz_open) = 3 ->
             10 < Lambda0.page_count (Lambda0.analyze_document_header fitz_open)).
  { intros tm fc fitz_open. apply tier3_needs_pages, analyze_cases. }
  split; [|split; [exact H2|split]].
  - intros download fitz_open table bucket key c.
    unfold Lambda0.classify_document.
    destruct download as [[]|e]; simpl; [|discriminate].
    set (tm := Lambda0.check_template_cache _ _).
    assert (Hh : forall c',
               c' = {| Lambda0.bucket := bucket; Lambda0.key := key;
                       Lambda0.tier := Lambda0.determine_processing_tier tm
                                         (Lambda0.classify_by_filename key)
                                         (Lambda0.analyze_document_header fitz_open);
                       Lambda0.structural_hash :=
                         Lambda0.generate_structural_hash fitz_open
                           (String.append "/tmp/" (PyStr.last_segment key));
                       Lambda0.c_template_id := None;
                       Lambda0.c_confidence :=
                         PyFloat
                           (Lambda0.confidence (Lambda0.analyze_document_header fitz_open));
                       Lambda0.document_type :=
                         default (Lambda0.type (Lambda0.analyze_document_header fitz_open))
                           (Lambda0.classify_by_filename key);
                       Lambda0.metadata :=
                         Some (Lambda0.page_count (Lambda0.analyze_document_header fitz_open),
                               Lambda0.has_tables (Lambda0.analyze_document_header fitz_open),
                               Lambda0.has_forms (Lambda0.analyze_document_header fitz_open)) |} ->
               Lambda0.tier c' = 3 ->
               exists pages tables forms,
                 Lambda0.metadata c' = Some (pages, tables, forms) /\
                 pages = Lambda0.page_count (Lambda0.analyze_document_header fitz_open) /\
                 10 < pages).
    { intros c' -> Ht. simpl in *. do 3 eexists. split; [reflexivity|].
      split; [reflexivity|]. exact (H2 _ _ _ Ht). }
    destruct tm as [m|] eqn:Etm.
    + destruct (Num.gt_0_85 (Lambda0.tm_confidence m)).
      * intros [= <-]. simpl. discriminate.
      * intros [= <-]. now apply Hh.
    + intros [= <-]. now apply Hh.
  - intros fitz_open a Ha. now apply try_analyze_ok in Ha.
  - intros fitz_open e tm fc He Hno.
    rewrite (analyze_raise _ _ He).
    unfold Lambda0.determine_processing_tier.
    fold (qualifying_cache_entryb tm). now rewrite (not_qualifying _ Hno).
Qed.

Lemma C10_tier_3_only_by_page_count_witness :
  Lambda0.determine_processing_tier None None
    (Lambda0.analyze_document_header (sample_document 15 "Quarterly report")) = 3 /\
  10 < Lambda0.page_count
         (Lambda0.analyze_document_header (sample_document 15 "Quarterly report")).
Proof.
  split; [reflexivity|].
  exact (proj1 (proj2 C10_tier_3_only_by_page_count) None None
           (sample_document 15 "Quarterly report") eq_refl).
Defined.

(** ** Confidence aggregation *)



Lemma confidences_flat_map blocks :
  flat_map (fun block =>
              if Tier1.scoring block
              then [default 0%Q (Tier1.Confidence block)] else []) blocks
  = confidences blocks.
Proof.
  unfold confidences. induction blocks as [|b blocks IH]; [reflexivity|].
  cbn [flat_map List.filter]. destruct (Tier1.scoring b); cbn [map app];
    now rewrite IH.
Qed.

Lemma calculate_confidence_score_alt blocks :
  Tier1.calculate_confidence_score blocks =
  match confidences blocks with
  | [] => 0%Q
  | cs => Num.round4
            ((Num.sum cs / inject_Z (Z.of_nat (length cs))) / 100)
  end.
Proof.
  unfold Tier1.calculate_confidence_score. rewrite confidences_flat_map.
  destruct blocks as [|b blocks]; [reflexivity|].
  destruct (confidences (b :: blocks)); reflexivity.
Qed.




(** ** The metadata update as a merge *)

Section ApplySet.

Variable names : gmap string string.

Lemma apply_set_app values p1 p2 item :
  Tier1.apply_set names values (p1 ++ p2) item =
  (do item' <- Tier1.apply_set names values p1 item;
   Tier1.apply_set names values p2 item').
Proof.
  revert item. induction p1 as [|[path ph] p1 IH]; intros item; [reflexivity|].
  simpl. destruct (Tier1.resolve_path names path); [|reflexivity].
  destruct (values !! ph); [apply IH | reflexivity].
Qed.

Lemma apply_set_agree v1 v2 parts item :
  Forall (fun part : string * string => v1 !! snd part = v2 !! snd part) parts ->
  Tier1.apply_set names v1 parts item = Tier1.apply_set names v2 parts item.
Proof.
  intros H. revert item.
  induction H as [|[path ph] parts Hp _ IH]; intros item; [reflexivity|].
  simpl in *. rewrite Hp.
  destruct (Tier1.resolve_path names path); [|reflexivity].
  destruct (v2 !! ph); [apply IH | reflexivity].
Qed.

(** One [if name in kwargs] block extends the request by one assignment, and
    its values by the value of the keyword argument. *)
Lemma add_field_step used st kwargs name attribute placeholder item :
  well_formed names used st ->
  ~ In placeholder used ->
  Tier1.resolve_path names attribute = Some attribute ->
  let st' := Tier1.add_field kwargs name attribute placeholder st in
  Tier1.apply_set names (snd st') (fst st') item =
  (do item' <- Tier1.apply_set names (snd st) (fst st) item;
   Ok (assign kwargs name attribute item'))
  /\ well_formed names (placeholder :: used) st'
  /\ (map_Forall (fun _ v => Tier1.serializable v = true) (snd st') <->
      map_Forall (fun _ v => Tier1.serializable v = true) (snd st) /\
      supplied_serializable kwargs name = true).
Proof.
  intros [Hparts Hfresh] Hnew Hattr. unfold Tier1.add_field, assign, supplied_serializable.
  pose proof (Hfresh _ Hnew) as Hnone.
  destruct (kwargs !! name) as [v|]; simpl.
  - assert (Hagree : Forall (fun part : string * string =>
                               <[placeholder := v]> (snd st) !! snd part
                               = snd st !! snd part) (fst st)).
    { eapply Forall_impl; [exact Hparts|]. intros [path ph] [_ [w Hw]]. simpl in *.
      apply lookup_insert_ne. intros <-. congruence. }
    split; [|split].
    + rewrite apply_set_app, (apply_set_agree _ _ _ _ Hagree).
      destruct (Tier1.apply_set names (snd st) (fst st) item) as [item'|e];
        [|reflexivity].
      simpl. now rewrite Hattr, lookup_insert_eq.
    + split.
      * apply Forall_app. split.
        -- eapply Forall_impl; [exact Hparts|].
           intros [path ph] [Hr [w Hw]]. simpl in *. split; [exact Hr|].
           destruct (String.eqb_spec placeholder ph) as [->|Hne].
           ++ rewrite lookup_insert_eq. eauto.
           ++ rewrite lookup_insert_ne by exact Hne. eauto.
        -- constructor; [|constructor]. simpl. rewrite Hattr, lookup_insert_eq. eauto.
      * intros ph Hph. simpl in Hph |- *.
        rewrite lookup_insert_ne by (intros <-; tauto).
        apply Hfresh. tauto.
    + rewrite (map_Forall_insert _ _ _ _ Hnone). tauto.
  - split; [|split].
    + destruct (Tier1.apply_set names (snd st) (fst st) item); reflexivity.
    + split; [exact Hparts|].
      intros ph Hph. apply Hfresh. simpl in Hph. tauto.
    + tauto.
Qed.

End ApplySet.

Ltac fresh_placeholder :=
  let H := fresh in
  intros H; simpl in H;
  repeat (destruct H as [H|H]; [discriminate H|]); exact H.

(** The request [update_metadata] builds always resolves, and [UpdateItem]
    applies it as the merge [merged]; its values are serialisable exactly
    when those of the keyword arguments it reads are. *)
Lemma update_request_merges now document_id status kwargs item :
  let u := Tier1.update_request now document_id status kwargs in
  Tier1.apply_set (Tier1.ExpressionAttributeNames u)
    (Tier1.ExpressionAttributeValues u) (Tier1.UpdateExpression u) item
  = Ok (merged now status kwargs item) /\
  (map_Forall (fun _ v => Tier1.serializable v = true)
     (Tier1.ExpressionAttributeValues u) <-> storable kwargs = true).
Proof.
  unfold Tier1.update_request. cbn [Tier1.ExpressionAttributeNames
    Tier1.ExpressionAttributeValues Tier1.UpdateExpression].
  set (names := {[ "#status" := "status" ]} : gmap string string).
  set (st0 := ([("#status", ":status"); ("updatedAt", ":updated_at")],
               <[":updated_at" := Tier1.VStr now]> {[ ":status" := Tier1.VStr status ]})
              : list (string * string) * gmap string Tier1.Value).
  assert (W0 : well_formed names [":updated_at"; ":status"] st0).
  { split.
    - constructor; [|constructor; [|constructor]]; simpl; (split; [eauto|]).
      + rewrite lookup_insert_ne by discriminate. rewrite lookup_singleton_eq. eauto.
      + rewrite lookup_insert_eq. eauto.
    - intros ph Hph. simpl in *.
      rewrite lookup_insert_ne by (intros <-; tauto).
      apply lookup_singleton_ne. intros <-. tauto. }
  assert (E0 : Tier1.apply_set names (snd st0) (fst st0) item
               = Ok (<["updatedAt" := Tier1.VStr now]>
                       (<["status" := Tier1.VStr status]> item))).
  { simpl. unfold names at 1. rewrite lookup_singleton_eq.
    rewrite lookup_insert_ne by discriminate. rewrite lookup_singleton_eq.
    simpl. now rewrite lookup_insert_eq. }
  assert (S0 : map_Forall (fun _ v => Tier1.serializable v = true) (snd st0)).
  { apply map_Forall_insert_2; [reflexivity|].
    apply map_Forall_singleton. reflexivity. }
  destruct (add_field_step names _ st0 kwargs "job_id" "jobId" ":job_id" item W0)
    as (E1 & W1 & S1); [fresh_placeholder | reflexivity |].
  set (st1 := Tier1.add_field kwargs "job_id" "jobId" ":job_id" st0) in *.
  destruct (add_field_step names _ st1 kwargs "tier" "processingTier" ":tier" item W1)
    as (E2 & W2 & S2); [fresh_placeholder | reflexivity |].
  set (st2 := Tier1.add_field kwargs "tier" "processingTier" ":tier" st1) in *.
  destruct (add_field_step names _ st2 kwargs "classification" "classification"
              ":classification" item W2)
    as (E3 & W3 & S3); [fresh_placeholder | reflexivity |].
  set (st3 := Tier1.add_field kwargs "classification" "classification"
                ":classification" st2) in *.
  destruct (add_field_step names _ st3 kwargs "extracted_text" "extractedText"
              ":text" item W3)
    as (E4 & W4 & S4); [fresh_placeholder | reflexivity |].
  set (st4 := Tier1.add_field kwargs "extracted_text" "extractedText" ":text" st3) in *.
  destruct (add_field_step names _ st4 kwargs "confidence" "confidence"
              ":confidence" item W4)
    as (E5 & W5 & S5); [fresh_placeholder | reflexivity |].
  set (st5 := Tier1.add_field kwargs "confidence" "confidence" ":confidence" st4) in *.
  destruct (add_field_step names _ st5 kwargs "error" "errorMessage" ":error" item W5)
    as (E6 & W6 & S6); [fresh_placeholder | reflexivity |].
  set (st6 := Tier1.add_field kwargs "error" "errorMessage" ":error" st5) in *.
  destruct (add_field_step names _ st6 kwargs "completion_time" "completionTime"
              ":completion_time" item W6)
    as (E7 & _ & S7); [fresh_placeholder | reflexivity |].
  cbv zeta in *. split.
  - rewrite E7, E6, E5, E4, E3, E2, E1, E0. reflexivity.
  - rewrite S7, S6, S5, S4, S3, S2, S1.
    unfold storable, field_names. cbn [map fst forallb].
    fold (supplied_serializable kwargs "job_id")
         (supplied_serializable kwargs "tier")
         (supplied_serializable kwargs "classification")
         (supplied_serializable kwargs "extracted_text")
         (supplied_serializable kwargs "confidence")
         (supplied_serializable kwargs "error")
         (supplied_serializable kwargs "completion_time").
    rewrite !andb_true_iff. tauto.
Qed.

(** [update_metadata] is refused when a keyword argument it reads holds a
    float, and is the merge otherwise. *)
Lemma update_metadata_merges table now document_id status kwargs :
  Tier1.update_metadata table now document_id status kwargs =
  if storable kwargs
  then Ok (<[document_id := merged now status kwargs (item_of table document_id)]> table)
  else Raise Tier1.float_types_error.
Proof.
  unfold Tier1.update_metadata, Tier1.update_item.
  destruct (update_request_merges now document_id status kwargs
              (item_of table document_id)) as [H Hs].
  cbv zeta in H, Hs. unfold item_of in *.
  change (Tier1.Key (Tier1.update_request now document_id status kwargs))
    with document_id.
  destruct (storable kwargs).
  - rewrite bool_decide_eq_true_2 by (now apply Hs). rewrite H. reflexivity.
  - rewrite bool_decide_eq_false_2; [reflexivity|].
    intros Hall. apply Hs in Hall. discriminate Hall.
Qed.

Lemma update_metadata_stored table now document_id status kwargs :
  storable kwargs = true ->
  Tier1.update_metadata table now document_id status kwargs =
  Ok (<[document_id := merged now status kwargs (item_of table document_id)]> table).
Proof. intros H. now rewrite update_metadata_merges, H. Qed.

Lemma update_metadata_refused table now document_id status kwargs :
  storable kwargs = false ->
  Tier1.update_metadata table now document_id status kwargs =
  Raise Tier1.float_types_error.
Proof. intros H. now rewrite update_metadata_merges, H. Qed.

Lemma lookup_assign kwargs name attr item a :
  assign kwargs name attr item !! a =
  if String.eqb a attr
  then match kwargs !! name with Some v => Some v | None => item !! a end
  else item !! a.
Proof.
  unfold assign. destruct (String.eqb_spec a attr) as [->|Hne].
  - destruct (kwargs !! name); [apply lookup_insert_eq | reflexivity].
  - destruct (kwargs !! name); [|reflexivity].
    apply lookup_insert_ne. congruence.
Qed.

(** Attribute by attribute, the merge takes the assigned value where the call
    assigns one and keeps the stored value elsewhere. *)
Lemma lookup_merged now status kwargs item a :
  merged now status kwargs item !! a =
  match assigned now status kwargs a with
  | Some v => Some v
  | None => item !! a
  end.
Proof.
  unfold merged, assigned. rewrite !lookup_assign.
  repeat (match goal with
          | |- context [String.eqb a ?s] =>
              destruct (String.eqb_spec a s) as [->|?]
          end; simpl);
    rewrite ?lookup_insert_eq;
    repeat (rewrite lookup_insert_ne by congruence);
    rewrite ?lookup_insert_eq;
    repeat match goal with
           | |- context [match ?o with Some _ => _ | None => _ end] => destruct o
           end; reflexivity.
Qed.

Lemma assigned_none now status kwargs a :
  assigned now status kwargs a = None <->
  a <> "status" /\ a <> "updatedAt" /\
  forall name, In (name, a) field_names -> kwargs !! name = None.
Proof.
  unfold assigned, field_names. split.
  - repeat (match goal with
            | |- context [String.eqb a ?s] =>
                destruct (String.eqb_spec a s) as [->|?]
            end; simpl);
      intros H; try discriminate H;
      (split; [first [assumption | discriminate]
              | split; [first [assumption | discriminate]|]]);
      intros name Hin; simpl in Hin;
      repeat (destruct Hin as [Hin|Hin];
              [inversion Hin; subst; first [assumption | congruence]|]);
      contradiction.
  - intros (Hs & Hu & Hk).
    repeat match goal with
           | |- context [String.eqb a ?s] =>
               destruct (String.eqb_spec a s) as [->|?]; simpl
           end; try congruence; try reflexivity;
      apply Hk; simpl; tauto.
Qed.

Lemma assigned_field now status kwargs name a :
  In (name, a) field_names -> assigned now status kwargs a = kwargs !! name.
Proof.
  unfold field_names. intros Hin. simpl in Hin.
  repeat (destruct Hin as [Hin|Hin]; [injection Hin as <- <-; reflexivity|]).
  contradiction.
Qed.

Lemma attribute_updated table document_id item d a :
  attribute (<[document_id := item]> table) d a =
  if String.eqb d document_id then item !! a else attribute table d a.
Proof.
  unfold attribute. destruct (String.eqb_spec d document_id) as [->|Hne].
  - now rewrite lookup_insert_eq.
  - rewrite lookup_insert_ne by congruence. reflexivity.
Qed.

Lemma item_of_updated table document_id item :
  item_of (<[document_id := item]> table) document_id = item.
Proof. unfold item_of. now rewrite lookup_insert_eq. Qed.

(** ** The keyword arguments of the three updates of the lambda *)

Lemma start_kwargs_lookup (job_id : string) (c : Tier1.Classification) name :
  (<["classification" := Tier1.VDict c]>
     (<["tier" := Tier1.VInt 1]> ({[ "job_id" := Tier1.VStr job_id ]})) : gmap string Tier1.Value)
  !! name =
  if String.eqb name "classification" then Some (Tier1.VDict c)
  else if String.eqb name "tier" then Some (Tier1.VInt 1)
  else if String.eqb name "job_id" then Some (Tier1.VStr job_id)
  else None.
Proof.
  destruct (String.eqb_spec name "classification") as [->|H1];
    [apply lookup_insert_eq|].
  rewrite lookup_insert_ne by congruence.
  destruct (String.eqb_spec name "tier") as [->|H2]; [apply lookup_insert_eq|].
  rewrite lookup_insert_ne by congruence.
  destruct (String.eqb_spec name "job_id") as [->|H3]; [apply lookup_singleton_eq|].
  apply lookup_singleton_ne. congruence.
Qed.

Lemma completed_fields_lookup text score time name :
  Tier1.completed_fields text score time !! name =
  if String.eqb name "completion_time" then Some (Tier1.VStr time)
  else if String.eqb name "tier" then Some (Tier1.VInt 1)
  else if String.eqb name "confidence" then Some (Tier1.VFloat score)
  else if String.eqb name "extracted_text" then Some (Tier1.VStr text)
  else None.
Proof.
  unfold Tier1.completed_fields.
  destruct (String.eqb_spec name "completion_time") as [->|H1];
    [apply lookup_insert_eq|].
  rewrite lookup_insert_ne by congruence.
  destruct (String.eqb_spec name "tier") as [->|H2]; [apply lookup_insert_eq|].
  rewrite lookup_insert_ne by congruence.
  destruct (String.eqb_spec name "confidence") as [->|H3]; [apply lookup_insert_eq|].
  rewrite lookup_insert_ne by congruence.
  destruct (String.eqb_spec name "extracted_text") as [->|H4];
    [apply lookup_singleton_eq|].
  apply lookup_singleton_ne. congruence.
Qed.

Lemma error_kwargs_lookup (e : string) name :
  ({[ "error" := Tier1.VStr e ]} : gmap string Tier1.Value) !! name =
  if String.eqb name "error" then Some (Tier1.VStr e) else None.
Proof.
  destruct (String.eqb_spec name "error") as [->|H]; [apply lookup_singleton_eq|].
  apply lookup_singleton_ne. congruence.
Qed.

Lemma job_kwargs_lookup (job_id : string) name :
  ({[ "job_id" := Tier1.VStr job_id ]} : gmap string Tier1.Value) !! name =
  if String.eqb name "job_id" then Some (Tier1.VStr job_id) else None.
Proof.
  destruct (String.eqb_spec name "job_id") as [->|H]; [apply lookup_singleton_eq|].
  apply lookup_singleton_ne. congruence.
Qed.

(** The [PROCESSING] update is storable when the queued classification is;
    the [FAILED] update always; the [COMPLETED] update never, for its
    confidence score is a float. *)
Lemma storable_start job_id c :
  storable (<["classification" := Tier1.VDict c]>
              (<["tier" := Tier1.VInt 1]> {[ "job_id" := Tier1.VStr job_id ]}))
  = Tier1.serializable (Tier1.VDict c).
Proof.
  unfold storable, field_names, supplied_serializable. cbn [map fst forallb].
  rewrite !start_kwargs_lookup. cbn [String.eqb Ascii.eqb Bool.eqb].
  cbn [Tier1.serializable andb]. now rewrite andb_true_r.
Qed.

Lemma storable_error e : storable {[ "error" := Tier1.VStr e ]} = true.
Proof.
  unfold storable, field_names, supplied_serializable. cbn [map fst forallb].
  rewrite !error_kwargs_lookup. reflexivity.
Qed.

Lemma storable_job job_id : storable {[ "job_id" := Tier1.VStr job_id ]} = true.
Proof.
  unfold storable, field_names, supplied_serializable. cbn [map fst forallb].
  rewrite !job_kwargs_lookup. reflexivity.
Qed.

Lemma storable_completed text score time :
  storable (Tier1.completed_fields text score time) = false.
Proof.
  unfold storable, field_names, supplied_serializable. cbn [map fst forallb].
  rewrite !completed_fields_lookup. reflexivity.
Qed.

(** C7, as the code has it.  [update_metadata] is a sparse merge.  A call
    that the store accepts leaves the items of the other document ids alone,
    writes [status], the timestamp [updatedAt] and the attribute of every
    keyword argument it is given, and leaves every other attribute of the item
    as it was; so an update with [status] and [job_id] alone keeps a stored
    [classification].  A call that supplies a float, alone or inside the
    classification, is refused before anything is written: that is the
    [COMPLETED] call of the lambda, whose confidence score is a float, and its
    [PROCESSING] call when the queued classification holds one. *)
Theorem C7_update_is_sparse_merge :
  (forall table now d status kwargs,
      storable kwargs = true ->
      exists table',
        Tier1.update_metadata table now d status kwargs = Ok table' /\
        (forall d' a, d' <> d -> attribute table' d' a = attribute table d' a) /\
        attribute table' d "status" = Some (Tier1.VStr status) /\
        attribute table' d "updatedAt" = Some (Tier1.VStr now) /\
        (forall name a v,
            In (name, a) field_names -> kwargs !! name = Some v ->
            attribute table' d a = Some v) /\
        (forall a,
            a <> "status" -> a <> "updatedAt" ->
            (forall name, In (name, a) field_names -> kwargs !! name = None) ->
            attribute table' d a = item_of table d !! a)) /\
  (forall table now d status kwargs,
      storable kwargs = false ->
      Tier1.update_metadata table now d status kwargs
      = Raise Tier1.float_types_error) /\
  (forall now status job_id,
      exists table',
        Tier1.update_metadata started_table now "doc.pdf" status
          {[ "job_id" := Tier1.VStr job_id ]} = Ok table' /\
        attribute table' "doc.pdf" "classification"
        = Some (Tier1.VDict integral_classification)) /\
  (forall text score time,
      storable (Tier1.completed_fields text score time) = false) /\
  (forall job_id c,
      storable (<["classification" := Tier1.VDict c]>
                  (<["tier" := Tier1.VInt 1]> {[ "job_id" := Tier1.VStr job_id ]}))
      = Tier1.serializable (Tier1.VDict c)).
Proof.
  split; [|split; [exact update_metadata_refused|
                   split; [|split; [exact storable_completed | exact storable_start]]]].
  - intros table now d status kwargs Hs. eexists.
    split; [now apply update_metadata_stored|].
    split; [|split; [|split; [|split]]].
    + intros d' a Hne. rewrite attribute_updated.
      destruct (String.eqb_spec d' d); [contradiction | reflexivity].
    + rewrite attribute_updated, String.eqb_refl, lookup_merged. reflexivity.
    + rewrite attribute_updated, String.eqb_refl, lookup_merged. reflexivity.
    + intros name a v Hin Hv.
      rewrite attribute_updated, String.eqb_refl, lookup_merged.
      now rewrite (assigned_field _ _ _ _ _ Hin), Hv.
    + intros a Hs' Hu Hk.
      rewrite attribute_updated, String.eqb_refl, lookup_merged.
      assert (Hnone : assigned now status kwargs a = None)
        by (apply assigned_none; auto).
      now rewrite Hnone.
  - intros now status job_id. eexists.
    split; [apply update_metadata_stored, storable_job|].
    rewrite attribute_updated, lookup_merged. reflexivity.
Qed.

Lemma C7_update_is_sparse_merge_witness :
  storable {[ "error" := Tier1.VStr "AccessDenied" ]} = true /\
  exists table',
    Tier1.update_metadata started_table "t1" "doc.pdf" "FAILED"
      {[ "error" := Tier1.VStr "AccessDenied" ]} = Ok table' /\
    attribute table' "doc.pdf" "status" = Some (Tier1.VStr "FAILED").
Proof.
  assert (Hs : storable {[ "error" := Tier1.VStr "AccessDenied" ]} = true)
    by reflexivity.
  split; [exact Hs|].
  destruct (proj1 C7_update_is_sparse_merge started_table "t1" "doc.pdf" "FAILED"
              {[ "error" := Tier1.VStr "AccessDenied" ]} Hs)
    as (table' & Hu & _ & Hst & _).
  exists table'. split; [exact Hu | exact Hst].
Defined.

(** An update that supplies [status] and [job_id] alone overwrites the stored
    [updatedAt], which it was not given. *)
Lemma C7_counterexample :
  exists table',
    Tier1.update_metadata started_table "t1" "doc.pdf" "PROCESSING"
      {[ "job_id" := Tier1.VStr "job-1" ]} = Ok table' /\
    ({[ "job_id" := Tier1.VStr "job-1" ]} : gmap string Tier1.Value) !! "updatedAt" = None /\
    attribute started_table "doc.pdf" "updatedAt" = Some (Tier1.VStr "t0") /\
    attribute table' "doc.pdf" "updatedAt" = Some (Tier1.VStr "t1").
Proof.
  eexists. split; [apply update_metadata_stored, storable_job|].
  split; [reflexivity|]. split; [reflexivity|].
  rewrite attribute_updated, lookup_merged. reflexivity.
Qed.

(** ** Job start and completion, as functions of the table *)

(** A completion notification never changes the table: the [COMPLETED]
    update carries the float confidence score, which the store refuses. *)
Lemma completion_result table completion_time now responses message :
  Tier1.handle_textract_completion table completion_time now responses message =
  if negb (String.eqb (Tier1.Status message) "SUCCEEDED") then (table, Ok tt)
  else match Tier1.get_textract_results responses [] with
       | Ok _ => (table, Raise Tier1.float_types_error)
       | Raise e => (table, Raise e)
       end.
Proof.
  unfold Tier1.handle_textract_completion.
  destruct (negb _); [reflexivity|].
  destruct (Tier1.get_textract_results responses []) as [results|e];
    cbn [bind]; [|reflexivity].
  now rewrite update_metadata_refused by apply storable_completed.
Qed.

Lemma completion_writes_nothing table completion_time now responses message :
  fst (Tier1.handle_textract_completion table completion_time now responses message)
  = table.
Proof.
  rewrite completion_result.
  destruct (negb _); [reflexivity|].
  destruct (Tier1.get_textract_results responses []); reflexivity.
Qed.

(** A job start writes one merge: [PROCESSING] with the job when Textract
    accepts the job and the store the classification, [FAILED] with the
    message of the exception when either refuses. *)
Lemma start_result table now start c :
  let d := default (PyStr.last_segment (Lambda0.key (Tier1.body c)))
             (Tier1.document_id c) in
  Tier1.start_textract_job table now start c =
  match start with
  | Ok job_id =>
      if Tier1.serializable (Tier1.VDict c)
      then (<[d := merged now "PROCESSING"
                     (<["classification" := Tier1.VDict c]>
                        (<["tier" := Tier1.VInt 1]> {[ "job_id" := Tier1.VStr job_id ]}))
                     (item_of table d)]> table, Ok tt)
      else (<[d := merged now "FAILED"
                     {[ "error" := Tier1.VStr Tier1.float_types_error ]}
                     (item_of table d)]> table, Raise Tier1.float_types_error)
  | Raise e =>
      (<[d := merged now "FAILED" {[ "error" := Tier1.VStr e ]} (item_of table d)]> table,
       Raise e)
  end.
Proof.
  intros d. unfold Tier1.start_textract_job. fold d.
  destruct start as [job_id|e]; cbn [bind].
  - rewrite update_metadata_merges, storable_start.
    destruct (Tier1.serializable (Tier1.VDict c)); [reflexivity|].
    now rewrite update_metadata_stored by apply storable_error.
  - now rewrite update_metadata_stored by apply storable_error.
Qed.


(** ** The status of a document over a sequence of invocations *)

Lemma status_after_update table now document_id status kwargs d :
  Tier1.status_of
    (<[document_id := merged now status kwargs (item_of table document_id)]> table) d
  = if String.eqb d document_id then Some (Tier1.VStr status)
    else Tier1.status_of table d.
Proof.
  change (Tier1.status_of ?t d) with (attribute t d "status").
  rewrite attribute_updated.
  destruct (String.eqb d document_id); [|reflexivity].
  rewrite lookup_merged. reflexivity.
Qed.

(** A handled record leaves the status of a document as it was, unless the
    record is a queued classification of the document: then it sets
    [PROCESSING] or [FAILED]. *)
Lemma handle_record_status table r d :
  let table' := fst (Tier1.handle_record table r) in
  Tier1.status_of table' d = Tier1.status_of table d \/
  Tier1.target r = d /\
  match r with
  | Tier1.Notification _ _ _ _ => False
  | Tier1.Queued _ _ _ =>
      Tier1.status_of table' d = Some (Tier1.VStr "PROCESSING") \/
      Tier1.status_of table' d = Some (Tier1.VStr "FAILED")
  end.
Proof.
  destruct r as [message completion_time now responses
                | classification now start]; cbn [Tier1.handle_record Tier1.target].
  - left. now rewrite completion_writes_nothing.
  - rewrite start_result.
    set (doc := default _ (Tier1.document_id classification)).
    destruct start as [job_id|e];
      [destruct (Tier1.serializable (Tier1.VDict classification))|];
      cbn [fst]; rewrite status_after_update;
      destruct (String.eqb_spec d doc) as [->|Hne];
      try (now left); right; split; auto.
Qed.




Lemma history_cons table r rest d :
  Tier1.history table (r :: rest) d =
  Tier1.status_of table d :: Tier1.history (fst (Tier1.handle_record table r)) rest d.
Proof. reflexivity. Qed.




(** An invocation handles a prefix of its records, one after the other. *)
Lemma lambda_handler_run records : forall table,
  exists n, fst (Tier1.lambda_handler table records)
            = fold_left (fun t r => fst (Tier1.handle_record t r))
                (firstn n records) table.
Proof.
  induction records as [|r rest IH]; intros table.
  - exists 0%nat. reflexivity.
  - simpl. destruct (Tier1.handle_record table r) as [table' [[]|e]] eqn:E.
    + destruct (IH table') as [n Hn]. exists (S n).
      rewrite Hn. simpl. now rewrite E.
    + exists 1%nat. simpl. now rewrite E.
Qed.




(** ** The fallback fingerprint *)

Lemma head_char_append a b c :
  head_char a = Some c -> head_char (String.append a b) = Some c.
Proof. destruct a; [discriminate | auto]. Qed.

(** The decimal writing of an integer starts with a digit or a minus sign. *)
Lemma head_char_str n :
  exists c, head_char (Num.str n) = Some c /\ c <> "/"%char.
Proof.
  unfold Num.str.
  destruct (Z.to_int n) as [u|u]; simpl.
  - destruct u; simpl; eexists; (split; [reflexivity | discriminate]).
  - eexists. split; [reflexivity | discriminate].
Qed.

Lemma head_char_line_feature l :
  exists c, head_char (Lambda0.line_feature l) = Some c /\ c <> "/"%char.
Proof.
  unfold Lambda0.line_feature.
  destruct (head_char_str (Num.int (Lambda0.bbox0 l))) as (c & Hc & Hne).
  exists c. split; [now apply head_char_append | exact Hne].
Qed.

Lemma head_char_join f rest c :
  head_char f = Some c -> head_char (PyStr.join "|" (f :: rest)) = Some c.
Proof.
  intros H. simpl. destruct rest; [exact H | now apply head_char_append].
Qed.

(** A feature string never starts with a slash: it is empty, or starts with
    a coordinate or with [pages:]. *)
Lemma feature_string_head fitz_open features :
  Lambda0.structural_features fitz_open = Ok features ->
  head_char (PyStr.join "|" features) <> Some "/"%char.
Proof.
  unfold Lambda0.structural_features.
  destruct fitz_open as [doc|e]; cbn [bind]; [|discriminate].
  destruct (0 <? Lambda0.len doc)%nat; [|intros [= <-]; discriminate].
  destruct (Lambda0.first_page doc) as [page|e]; cbn [bind]; [|discriminate].
  destruct (Lambda0.get_text_dict_blocks page) as [blocks|e]; cbn [bind];
    [|discriminate].
  intros [= <-].
  destruct (flat_map Lambda0.block_features (firstn 5 blocks)) as [|f fs] eqn:E.
  - simpl. discriminate.
  - assert (Hin : In f (flat_map Lambda0.block_features (firstn 5 blocks)))
      by (rewrite E; now left).
    apply in_flat_map in Hin as (b & _ & Hb).
    unfold Lambda0.block_features in Hb.
    destruct (Lambda0.lines b) as [ls|]; [|contradiction].
    apply in_map_iff in Hb as (l & <- & _).
    destruct (head_char_line_feature l) as (c & Hc & Hne).
    rewrite <- app_comm_cons, (head_char_join _ _ _ Hc). congruence.
Qed.

Lemma fallback_not_structural h x :
  structural_fingerprint h ->
  h <> Lambda0.sha256_hexdigest (String.append "/tmp/" x).
Proof.
  intros (fitz_open & features & Hf & ->) [= E].
  apply (feature_string_head _ _ Hf). now rewrite E.
Qed.

Lemma digest_eqb_eq a b : Lambda0.digest_eqb a b = true <-> a = b.
Proof.
  destruct a as [x], b as [y]. simpl. rewrite String.eqb_eq.
  split; [now intros -> | now intros [= ->]].
Qed.

Lemma cache_miss table h :
  Forall (fun item => Lambda0.structuralHash item <> h) (Lambda0.items table) ->
  Lambda0.check_template_cache table h = None.
Proof.
  intros Hall. unfold Lambda0.check_template_cache, Lambda0.query.
  destruct (Lambda0.backend_error table); [reflexivity|].
  assert (E : List.filter (fun it => Lambda0.digest_eqb (Lambda0.structuralHash it) h)
                (Lambda0.items table) = []).
  { induction Hall as [|item l Hne _ IH]; [reflexivity|].
    simpl. destruct (Lambda0.digest_eqb _ h) eqn:Eq; [|exact IH].
    apply digest_eqb_eq in Eq. contradiction. }
  now rewrite E.
Qed.

(** C5, as the code has it.  When feature extraction raises (the file does
    not open, or its first page or text blocks cannot be read), the
    fingerprint is the hash of the local path [/tmp/] followed by the last
    segment of the key.  For a hash without collisions that fingerprint is
    no structural fingerprint, since no feature string starts with a slash;
    so the lookup in a cache that holds structural fingerprints only is a
    miss.  A document without pages that opens is not a failure: its
    fingerprint is the hash of the empty feature string. *)
Theorem C5_fallback_fingerprint :
  (forall fitz_open e key,
      Lambda0.structural_features fitz_open = Raise e ->
      Lambda0.generate_structural_hash fitz_open
        (String.append "/tmp/" (PyStr.last_segment key))
      = Lambda0.sha256_hexdigest (String.append "/tmp/" (PyStr.last_segment key))) /\
  (forall h x,
      structural_fingerprint h ->
      h <> Lambda0.sha256_hexdigest (String.append "/tmp/" x)) /\
  (forall table x,
      Forall (fun item => structural_fingerprint (Lambda0.structuralHash item))
        (Lambda0.items table) ->
      Lambda0.check_template_cache table
        (Lambda0.sha256_hexdigest (String.append "/tmp/" x)) = None) /\
  (forall first_page path,
      Lambda0.generate_structural_hash
        (Ok {| Lambda0.len := 0; Lambda0.first_page := first_page |}) path
      = Lambda0.sha256_hexdigest EmptyString).
Proof.
  split; [|split; [|split]].
  - intros fitz_open e key He. unfold Lambda0.generate_structural_hash.
    now rewrite He.
  - intros h x. apply fallback_not_structural.
  - intros table x Hall. apply cache_miss.
    eapply Forall_impl; [exact Hall|].
    intros item Hitem. now apply fallback_not_structural.
  - reflexivity.
Qed.

Lemma C5_fallback_fingerprint_witness :
  Lambda0.structural_features (Raise "cannot open broken document") =
    Raise "cannot open broken document" /\
  Lambda0.generate_structural_hash (Raise "cannot open broken document")
    (String.append "/tmp/" (PyStr.last_segment "inbox/scan.pdf"))
  = Lambda0.sha256_hexdigest "/tmp/scan.pdf".
Proof.
  split; [reflexivity|].
  exact (proj1 C5_fallback_fingerprint (Raise "cannot open broken document")
           "cannot open broken document" "inbox/scan.pdf" eq_refl).
Defined.

(** A document without pages opens, so its fingerprint is the hash of the
    empty feature string and not that of its key or local path; a cache
    entry under that fingerprint is found, and the document gets tier 0.
    A file that does not open gets the hash of its local path, which is not
    the key. *)
Lemma C5_counterexample :
  Lambda0.generate_structural_hash zero_page_document "/tmp/empty.pdf"
    = Lambda0.sha256_hexdigest EmptyString /\
  Lambda0.sha256_hexdigest EmptyString <> Lambda0.sha256_hexdigest "inbox/empty.pdf" /\
  Lambda0.sha256_hexdigest EmptyString <> Lambda0.sha256_hexdigest "/tmp/empty.pdf" /\
  structural_fingerprint (Lambda0.sha256_hexdigest EmptyString) /\
  (exists c,
      Lambda0.classify_document (Ok tt) zero_page_document zero_page_cache
        "intake" "inbox/empty.pdf" = Ok c /\
      Lambda0.tier c = 0 /\
      Lambda0.c_template_id c = Some (Lambda0.sha256_hexdigest EmptyString)) /\
  Lambda0.generate_structural_hash (Raise "cannot open broken document")
    (String.append "/tmp/" (PyStr.last_segment "inbox/scan.pdf"))
  <> Lambda0.sha256_hexdigest "inbox/scan.pdf".
Proof.
  split; [reflexivity|]. split; [discriminate|]. split; [discriminate|].
  split; [exists zero_page_document, []; split; reflexivity|].
  split; [eexists; split; [reflexivity | split; reflexivity]|].
  discriminate.
Qed.

(** ** Regular expressions: the matcher computes the language *)

Lemma append_cons c s t : String c s +:+ t = String c (s +:+ t).
Proof. reflexivity. Qed.

Lemma append_nil_r s : s +:+ EmptyString = s.
Proof.
  induction s as [|c s IH]; [reflexivity|].
  rewrite append_cons. f_equal. exact IH.
Qed.

Lemma append_assoc a b c : (a +:+ b) +:+ c = a +:+ (b +:+ c).
Proof.
  induction a as [|x a IH]; [reflexivity|].
  rewrite !append_cons. f_equal. exact IH.
Qed.

Lemma append_eq_nil a b : a +:+ b = EmptyString -> a = EmptyString /\ b = EmptyString.
Proof.
  destruct a as [|x a]; [intros H; split; [reflexivity | exact H]|].
  rewrite append_cons. discriminate.
Qed.

Lemma append_eq_cons a b c s :
  a +:+ b = String c s ->
  (a = EmptyString /\ b = String c s) \/ exists a', a = String c a' /\ s = a' +:+ b.
Proof.
  destruct a as [|x a]; [intros H; left; split; [reflexivity | exact H]|].
  rewrite append_cons. intros [= -> <-]. right. eauto.
Qed.

Lemma nullable_matches r : Re.nullable r = true <-> Re.matches r EmptyString.
Proof.
  split.
  - induction r; simpl; intros H; try discriminate.
    + constructor.
    + apply andb_true_iff in H as [H1 H2].
      change EmptyString with (EmptyString +:+ EmptyString). constructor; auto.
    + apply orb_true_iff in H as [H|H];
        [apply Re.m_alt_l | apply Re.m_alt_r]; auto.
    + constructor.
  - intros H. remember EmptyString as s eqn:E.
    induction H; simpl; auto.
    + discriminate.
    + apply append_eq_nil in E as [-> ->].
      now rewrite IHmatches1, IHmatches2.
    + now rewrite IHmatches.
    + rewrite IHmatches by assumption. apply orb_true_r.
Qed.

Lemma deriv_sound c r : forall s,
  Re.matches (Re.deriv c r) s -> Re.matches r (String c s).
Proof.
  induction r; simpl; intros s H.
  - inversion H.
  - inversion H.
  - destruct (p c) eqn:Ep; inversion H; subst. now constructor.
  - assert (Hseq : forall s, Re.matches (Re.Seq (Re.deriv c r1) r2) s ->
                             Re.matches (Re.Seq r1 r2) (String c s)).
    { intros s' H'. inversion H'; subst.
      change (String c (s1 +:+ s2)) with (String c s1 +:+ s2).
      constructor; auto. }
    destruct (Re.nullable r1) eqn:N; [|now apply Hseq].
    inversion H; subst; [now apply Hseq|].
    change (String c s) with (EmptyString +:+ String c s).
    constructor; [now apply nullable_matches | auto].
  - inversion H; subst; [apply Re.m_alt_l | apply Re.m_alt_r]; auto.
  - inversion H; subst.
    change (String c (s1 +:+ s2)) with (String c s1 +:+ s2).
    apply Re.m_star_cons; auto.
Qed.

Lemma deriv_complete c r w :
  Re.matches r w -> forall s, w = String c s -> Re.matches (Re.deriv c r) s.
Proof.
  induction 1 as [ | p x Hp | r1 r2 s1 s2 H1 IH1 H2 IH2 | r1 r2 w H IH
                 | r1 r2 w H IH | r | r s1 s2 H1 IH1 H2 IH2 ];
    intros s E; simpl.
  - discriminate.
  - injection E as -> <-. rewrite Hp. constructor.
  - apply append_eq_cons in E as [[-> E2] | (a' & -> & ->)].
    + apply nullable_matches in H1. rewrite H1. apply Re.m_alt_r. auto.
    + destruct (Re.nullable r1); [apply Re.m_alt_l|]; constructor; auto.
  - apply Re.m_alt_l. auto.
  - apply Re.m_alt_r. auto.
  - discriminate.
  - apply append_eq_cons in E as [[-> E2] | (a' & -> & ->)].
    + apply (IH2 _ E2).
    + constructor; auto.
Qed.

(** [prefix_match r s] holds exactly when a prefix of [s] is in the language
    of [r]. *)
Lemma prefix_match_spec s : forall r,
  Re.prefix_match r s = true <->
  exists m rest, s = m +:+ rest /\ Re.matches r m.
Proof.
  induction s as [|c s IH]; intros r; simpl.
  - rewrite orb_false_r, nullable_matches. split.
    + intros H. exists EmptyString, EmptyString. auto.
    + intros (m & rest & E & H). symmetry in E.
      apply append_eq_nil in E as [-> _]. exact H.
  - rewrite orb_true_iff, nullable_matches, IH. split.
    + intros [H | (m & rest & -> & H)].
      * exists EmptyString, (String c s). auto.
      * exists (String c m), rest. split; [reflexivity | now apply deriv_sound].
    + intros (m & rest & E & H). symmetry in E.
      apply append_eq_cons in E as [[-> _] | (m' & -> & ->)]; [now left|].
      right. exists m', rest. split; [reflexivity|].
      now apply (deriv_complete _ _ _ H).
Qed.

Lemma search_nil r : Re.search r EmptyString = Re.prefix_match r EmptyString.
Proof. unfold Re.search. apply orb_false_r. Qed.

Lemma search_cons r c s :
  Re.search r (String c s) = Re.prefix_match r (String c s) || Re.search r s.
Proof. reflexivity. Qed.

(** [search r s] holds exactly when a substring of [s] is in the language of
    [r]. *)
Lemma search_spec s : forall r,
  Re.search r s = true <->
  exists pre m post, s = pre +:+ m +:+ post /\ Re.matches r m.
Proof.
  induction s as [|c s IH]; intros r.
  - rewrite search_nil, prefix_match_spec. split.
    + intros (m & rest & E & H). exists EmptyString, m, rest. auto.
    + intros (pre & m & post & E & H). symmetry in E.
      apply append_eq_nil in E as [-> E]. apply append_eq_nil in E as [-> ->].
      exists EmptyString, EmptyString. auto.
  - rewrite search_cons, orb_true_iff, prefix_match_spec, IH. split.
    + intros [(m & rest & E & H) | (pre & m & post & -> & H)].
      * exists EmptyString, m, rest. auto.
      * exists (String c pre), m, post. auto.
    + intros (pre & m & post & E & H). symmetry in E.
      apply append_eq_cons in E as [[-> E] | (pre' & -> & ->)].
      * left. exists m, post. auto.
      * right. exists pre', m, post. auto.
Qed.

(** ** The filename patterns, in words *)

Lemma append_nil_l s : EmptyString +:+ s = s.
Proof. reflexivity. Qed.

Ltac norm_append :=
  repeat (rewrite append_assoc || rewrite append_cons || rewrite append_nil_l).

Lemma matches_seq_inv r1 r2 m :
  Re.matches (Re.Seq r1 r2) m ->
  exists m1 m2, m = m1 +:+ m2 /\ Re.matches r1 m1 /\ Re.matches r2 m2.
Proof. inversion 1; subst; eauto. Qed.

Lemma matches_cls_inv p m :
  Re.matches (Re.Cls p) m -> exists c, m = String c EmptyString /\ p c = true.
Proof. inversion 1; subst; eauto. Qed.

Lemma matches_opt_inv r m :
  Re.matches (Re.Opt r) m -> Re.matches r m \/ m = EmptyString.
Proof.
  unfold Re.Opt. inversion 1 as [| | | | ? ? ? Heps | |]; subst; [now left|].
  inversion Heps. now right.
Qed.

Lemma matches_lit kw : forall m,
  Re.matches (Re.Lit kw) m ->
  forall rest,
    ci_prefix kw (m +:+ rest) = true /\
    drop_chars (String.length kw) (m +:+ rest) = rest.
Proof.
  induction kw as [|a kw IH]; intros m H rest.
  - inversion H; subst. split; reflexivity.
  - apply matches_seq_inv in H as (m1 & m2 & -> & H1 & H2).
    apply matches_cls_inv in H1 as (c & -> & Hc).
    destruct (IH _ H2 rest) as [Hp Hd].
    norm_append. cbn [ci_prefix drop_chars String.length].
    now rewrite Hc, Hp, Hd.
Qed.

Lemma lit_of_prefix kw : forall s,
  ci_prefix kw s = true ->
  exists m, s = m +:+ drop_chars (String.length kw) s /\ Re.matches (Re.Lit kw) m.
Proof.
  induction kw as [|a kw IH]; intros s H.
  - exists EmptyString. split; [reflexivity | constructor].
  - destruct s as [|c s]; [discriminate H|].
    cbn [ci_prefix] in H. apply andb_true_iff in H as [Hc Hp].
    destruct (IH s Hp) as (m & E & Hm).
    exists (String c m). split.
    + cbn [drop_chars String.length]. rewrite append_cons. f_equal. exact E.
    + change (String c m) with (String c EmptyString +:+ m).
      constructor; [now constructor | exact Hm].
Qed.

Lemma matches_words kws m :
  Re.matches (Re.Words kws) m <-> exists kw, In kw kws /\ Re.matches (Re.Lit kw) m.
Proof.
  induction kws as [|w kws IH]; simpl.
  - split; [inversion 1 | intros (kw & [] & _)].
  - split.
    + inversion 1; subst; [exists w; auto|].
      apply IH in H3 as (kw & Hin & Hkw). eauto.
    + intros (kw & [<- | Hin] & Hkw); [now apply Re.m_alt_l|].
      apply Re.m_alt_r, IH. eauto.
Qed.

(** A pattern [(w1|w2|...)tail] matches at the start of [s] when one of the
    words does, up to case, and [tail] matches what follows it. *)
Lemma prefix_keywords kws tail suffix s :
  (forall x, Re.prefix_match tail x = suffix x) ->
  Re.prefix_match (Re.Seq (Re.Words kws) tail) s = keyword_at kws suffix s.
Proof.
  intros Ht. apply eq_true_iff_eq.
  rewrite prefix_match_spec. unfold keyword_at. rewrite existsb_exists. split.
  - intros (m & rest & -> & H).
    apply matches_seq_inv in H as (m1 & m2 & -> & H1 & H2).
    apply matches_words in H1 as (kw & Hin & Hkw).
    exists kw. split; [exact Hin|].
    rewrite append_assoc.
    destruct (matches_lit kw m1 Hkw (m2 +:+ rest)) as [Hp Hd].
    rewrite Hp, Hd, <- Ht. simpl.
    apply prefix_match_spec. eauto.
  - intros (kw & Hin & H). apply andb_true_iff in H as [Hp Hs].
    rewrite <- Ht in Hs. apply prefix_match_spec in Hs as (m2 & rest & E & H2).
    destruct (lit_of_prefix kw s Hp) as (m1 & E1 & H1).
    exists (m1 +:+ m2), rest. split.
    + rewrite append_assoc, <- E. exact E1.
    + constructor; [apply matches_words; eauto | exact H2].
Qed.

(** [[-_]?] asks nothing. *)
Lemma tail_bare x : Re.prefix_match (Re.Opt (Re.Cls Re.is_sep)) x = bare x.
Proof. destruct x; reflexivity. Qed.

(** [[-_]?c+], for a class [c], asks for a character of the class, after an
    optional separator. *)
Lemma tail_after_separator p x :
  Re.prefix_match (Re.Seq (Re.Opt (Re.Cls Re.is_sep)) (Re.Plus (Re.Cls p))) x
  = after_separator p x.
Proof.
  apply eq_true_iff_eq. rewrite prefix_match_spec. split.
  - intros (m & rest & -> & H).
    apply matches_seq_inv in H as (m1 & m2 & -> & H1 & H2).
    apply matches_seq_inv in H2 as (m3 & m4 & -> & H3 & _).
    apply matches_cls_inv in H3 as (c2 & -> & Hc2).
    apply matches_opt_inv in H1 as [H1 | ->].
    + apply matches_cls_inv in H1 as (c & -> & Hc).
      norm_append. unfold after_separator, starts_with.
      rewrite Hc, Hc2. apply orb_true_r.
    + norm_append. unfold after_separator, starts_with. now rewrite Hc2.
  - unfold after_separator. intros H. apply orb_true_iff in H as [H|H].
    + destruct x as [|c x]; [discriminate H|]. simpl in H.
      exists (String c EmptyString), x. split; [reflexivity|].
      change (String c EmptyString) with (EmptyString +:+ (String c EmptyString +:+ EmptyString)).
      constructor; [apply Re.m_alt_r; constructor|].
      constructor; [now constructor | constructor].
    + destruct x as [|c [|c2 x]]; [discriminate H| |].
      * rewrite andb_false_r in H. discriminate H.
      * apply andb_true_iff in H as [Hc Hc2]. simpl in Hc2.
        exists (String c (String c2 EmptyString)), x. split; [reflexivity|].
        change (String c (String c2 EmptyString))
          with (String c EmptyString +:+ (String c2 EmptyString +:+ EmptyString)).
        constructor; [apply Re.m_alt_l; now constructor|].
        constructor; [now constructor | constructor].
Qed.

Lemma search_keywords kws tail suffix :
  (forall x, Re.prefix_match tail x = suffix x) ->
  forall s, Re.search (Re.Seq (Re.Words kws) tail) s = occurs kws suffix s.
Proof.
  intros Ht. induction s as [|c s IH].
  - rewrite search_nil, (prefix_keywords _ _ _ _ Ht). symmetry. apply orb_false_r.
  - rewrite search_cons, (prefix_keywords _ _ _ _ Ht), IH. reflexivity.
Qed.

Lemma first_match_cons doc_type pattern rest filename :
  Lambda0.first_match ((doc_type, pattern) :: rest) filename =
  if Re.search pattern filename then Some doc_type
  else Lambda0.first_match rest filename.
Proof. reflexivity. Qed.

(** The classifier follows the rules in words. *)
Lemma classify_by_filename_rules key :
  Lambda0.classify_by_filename key =
  first_rule filename_rules (PyStr.lower (PyStr.last_segment key)).
Proof.
  unfold Lambda0.classify_by_filename, Lambda0.FILENAME_PATTERNS.
  rewrite !first_match_cons.
  rewrite (search_keywords _ _ _ (tail_after_separator Re.is_digit)).
  rewrite (search_keywords _ _ _ (tail_after_separator Re.is_alnum)).
  rewrite !(search_keywords _ _ _ tail_bare).
  reflexivity.
Qed.

Lemma ci_eq_refl a : Re.ci_eq a a = true.
Proof. unfold Re.ci_eq. apply Ascii.eqb_refl. Qed.

Lemma prefix_ci kw : forall s, String.prefix kw s = true -> ci_prefix kw s = true.
Proof.
  induction kw as [|a kw IH]; intros s H; [reflexivity|].
  destruct s as [|c s]; [discriminate H|].
  simpl in H. destruct (ascii_dec a c) as [<-|]; [|discriminate H].
  cbn [ci_prefix]. now rewrite ci_eq_refl, IH.
Qed.

Lemma contains_occurs kw kws : forall s,
  In kw kws -> PyStr.contains kw s = true -> occurs kws bare s = true.
Proof.
  intros s Hin. induction s as [|c s IH]; intros H.
  - destruct kw; [|discriminate H].
    apply orb_true_iff. left. apply existsb_exists. exists EmptyString. auto.
  - change (PyStr.contains kw (String c s))
      with (String.prefix kw (String c s) || PyStr.contains kw s) in H.
    change (occurs kws bare (String c s))
      with (keyword_at kws bare (String c s) || occurs kws bare s).
    apply orb_true_iff in H as [H|H]; apply orb_true_iff; [left | right; auto].
    apply existsb_exists. exists kw. split; [exact Hin|].
    rewrite (prefix_ci _ _ H). reflexivity.
Qed.

(** C9, as the code has it.  For a key of ASCII characters, the classifier
    searches the lowercased last segment of the key for the patterns in their
    order (invoice, contract, court_filing, correspondence, pleading) and
    returns the type of the first that matches, or nothing.  The invoice
    pattern needs a digit after its keyword, the contract pattern a letter or
    digit, each after an optional [-] or [_]; the other three patterns match
    on their keyword alone.  So a filename holding a keyword of those three is
    always classified, while [invoice.pdf] and [contract.pdf] are not. *)
Theorem C9_filename_rules :
  (forall key,
      is_ascii key = true ->
      Lambda0.classify_by_filename key =
      first_rule filename_rules (PyStr.lower (PyStr.last_segment key))) /\
  (forall key kw,
      is_ascii key = true ->
      In kw bare_keywords ->
      PyStr.contains kw (PyStr.lower (PyStr.last_segment key)) = true ->
      exists doc_type, Lambda0.classify_by_filename key = Some doc_type) /\
  Lambda0.classify_by_filename "inbox/Invoice_2024.PDF" = Some "invoice" /\
  Lambda0.classify_by_filename "CONTRACT-a7.pdf" = Some "contract" /\
  Lambda0.classify_by_filename "2024/motion.pdf" = Some "court_filing" /\
  Lambda0.classify_by_filename "Letter.docx" = Some "correspondence" /\
  Lambda0.classify_by_filename "brief" = Some "pleading" /\
  Lambda0.classify_by_filename "scan0001.pdf" = None.
Proof.
  split; [intros key _; apply classify_by_filename_rules|].
  split; [|repeat split; vm_compute; reflexivity].
  intros key kw _ Hin Hc. rewrite classify_by_filename_rules.
  set (f := PyStr.lower (PyStr.last_segment key)) in *.
  unfold filename_rules. cbn [first_rule].
  destruct (occurs _ (after_separator Re.is_digit) f); [eauto|].
  destruct (occurs _ (after_separator Re.is_alnum) f); [eauto|].
  unfold bare_keywords in Hin. simpl in Hin.
  assert (H3 : In kw ["motion"; "petition"; "complaint"; "answer"] \/
               In kw ["letter"; "memo"; "email"] \/
               In kw ["pleading"; "brief"; "memorandum"])
    by (simpl; tauto).
  destruct H3 as [H|[H|H]];
    pose proof (contains_occurs _ _ f H Hc) as Ho.
  - rewrite Ho. eauto.
  - destruct (occurs ["motion"; "petition"; "complaint"; "answer"] bare f); [eauto|].
    rewrite Ho. eauto.
  - destruct (occurs ["motion"; "petition"; "complaint"; "answer"] bare f); [eauto|].
    destruct (occurs ["letter"; "memo"; "email"] bare f); [eauto|].
    rewrite Ho. eauto.
Qed.

Lemma C9_filename_rules_witness :
  is_ascii "case/Answer-Final.pdf" = true /\
  In "answer" bare_keywords /\
  PyStr.contains "answer" (PyStr.lower (PyStr.last_segment "case/Answer-Final.pdf")) = true /\
  exists doc_type, Lambda0.classify_by_filename "case/Answer-Final.pdf" = Some doc_type.
Proof.
  assert (Hin : In "answer" bare_keywords) by (simpl; tauto).
  split; [reflexivity|]. split; [exact Hin|]. split; [reflexivity|].
  exact (proj1 (proj2 C9_filename_rules) "case/Answer-Final.pdf" "answer"
           eq_refl Hin eq_refl).
Defined.

(** A filename that holds the keyword [invoice] or [contract] and nothing
    after it that the pattern asks for is not classified, and [memorandum],
    a keyword of the pleading pattern, is classified as correspondence. *)
Lemma C9_counterexample :
  is_ascii "inbox/invoice.pdf" = true /\
  PyStr.contains "invoice" (PyStr.lower (PyStr.last_segment "inbox/invoice.pdf")) = true /\
  Lambda0.classify_by_filename "inbox/invoice.pdf" = None /\
  PyStr.contains "contract" (PyStr.lower (PyStr.last_segment "inbox/contract.pdf")) = true /\
  Lambda0.classify_by_filename "inbox/contract.pdf" = None /\
  PyStr.contains "memorandum" (PyStr.lower (PyStr.last_segment "memorandum.pdf")) = true /\
  Lambda0.classify_by_filename "memorandum.pdf" = Some "correspondence".
Proof.
  repeat split; vm_compute; reflexivity.
Qed.

(** * Further properties of the classification lambda *)

(** ** Routing *)

Lemma classify_tier_range download fitz_open table bucket key c :
  Lambda0.classify_document download fitz_open table bucket key = Ok c ->
  In (Lambda0.tier c) [0; 1; 2; 3].
Proof.
  unfold Lambda0.classify_document.
  destruct download as [[]|e]; cbn [bind]; [|discriminate].
  destruct (Lambda0.check_template_cache _ _) as [m|].
  - destruct (Num.gt_0_85 (Lambda0.tm_confidence m)); intros [= <-].
    + simpl. auto.
    + apply tier_decision.
  - intros [= <-]. apply tier_decision.
Qed.

Lemma json_dumps_ok c body : Lambda0.json_dumps c = Ok body -> body = c.
Proof.
  unfold Lambda0.json_dumps.
  destruct (Num.is_decimal (Lambda0.c_confidence c)); [discriminate|].
  now intros [= <-].
Qed.

Lemma tier_queue t :
  Lambda0.dict_get Lambda0.queue_urls t Lambda0.TIER2_QUEUE_URL =
  if t =? 0 then Lambda0.TIER0_QUEUE_URL
  else if t =? 1 then Lambda0.TIER1_QUEUE_URL
  else if t =? 3 then Lambda0.TIER3_QUEUE_URL
  else Lambda0.TIER2_QUEUE_URL.
Proof.
  unfold Lambda0.queue_urls, Lambda0.dict_get.
  rewrite (Z.eqb_sym 0), (Z.eqb_sym 1), (Z.eqb_sym 2), (Z.eqb_sym 3).
  destruct (t =? 0); [reflexivity|].
  destruct (t =? 1); [reflexivity|].
  destruct (Z.eqb_spec t 2), (Z.eqb_spec t 3); solve [reflexivity | lia].
Qed.

(** What a cache answer that passes the test holds: the [Decimal] of a
    stored item, above the float 0.85; the float 0.0 read for an item without
    confidence does not pass. *)
Lemma qualifying_is_decimal table h tm :
  Lambda0.check_template_cache table h = Some tm ->
  Num.gt_0_85 (Lambda0.tm_confidence tm) = true ->
  exists d, Lambda0.tm_confidence tm = PyDecimal d /\ (Num.float_0_85 < d)%Q.
Proof.
  unfold Lambda0.check_template_cache.
  destruct (Lambda0.query table h) as [[|item rest]|e]; try discriminate.
  intros [= <-]. cbn [Lambda0.tm_confidence].
  destruct (Lambda0.item_confidence item) as [d|]; [|discriminate].
  intros H. exists d. split; [reflexivity | now apply gt_0_85_decimal].
Qed.

Lemma cache_match_id table h tm :
  Lambda0.check_template_cache table h = Some tm -> Lambda0.template_id tm = h.
Proof.
  unfold Lambda0.check_template_cache, Lambda0.query.
  destruct (Lambda0.backend_error table); [discriminate|].
  destruct (List.filter _ (Lambda0.items table)) as [|item rest] eqn:E;
    [discriminate|].
  cbn [firstn]. intros [= <-]. cbn [Lambda0.template_id].
  clear -E. revert item rest E.
  induction (Lambda0.items table) as [|x items IH]; intros item rest; simpl;
    [discriminate|].
  destruct (Lambda0.digest_eqb (Lambda0.structuralHash x) h) eqn:Ex.
  - intros [= -> _]. now apply digest_eqb_eq.
  - apply IH.
Qed.

(** The two kinds of result of [classify_document]: tier 0 with the answer
    of the cache, or another tier with the header analysis. *)
Lemma classify_document_cases download fitz_open table bucket key c :
  Lambda0.classify_document download fitz_open table bucket key = Ok c ->
  let analysis := Lambda0.analyze_document_header fitz_open in
  (Lambda0.tier c = 0 /\
   Lambda0.c_template_id c = Some (Lambda0.structural_hash c) /\
   (exists d, Lambda0.c_confidence c = PyDecimal d /\ (Num.float_0_85 < d)%Q) /\
   Lambda0.metadata c = None) \/
  (Lambda0.tier c <> 0 /\
   Lambda0.c_template_id c = None /\
   Lambda0.c_confidence c = PyFloat (Lambda0.confidence analysis) /\
   Lambda0.metadata c =
     Some (Lambda0.page_count analysis, Lambda0.has_tables analysis,
           Lambda0.has_forms analysis)).
Proof.
  unfold Lambda0.classify_document.
  destruct download as [[]|e]; cbn [bind]; [|discriminate].
  set (h := Lambda0.generate_structural_hash _ _).
  destruct (Lambda0.check_template_cache table h) as [m|] eqn:Etm.
  - destruct (Num.gt_0_85 (Lambda0.tm_confidence m)) eqn:Eg; intros [= <-];
      cbn [Lambda0.tier Lambda0.c_template_id Lambda0.structural_hash
           Lambda0.c_confidence Lambda0.metadata].
    + left. rewrite (cache_match_id _ _ _ Etm).
      split; [reflexivity|]. split; [reflexivity|].
      split; [exact (qualifying_is_decimal _ _ _ Etm Eg) | reflexivity].
    + right. split; [|auto].
      intros Ht. apply tier_decision in Ht.
      apply qualifying_cache_entryb_spec in Ht. simpl in Ht. congruence.
  - intros [= <-].
    cbn [Lambda0.tier Lambda0.c_template_id Lambda0.structural_hash
         Lambda0.c_confidence Lambda0.metadata].
    right. split; [|auto].
    intros Ht. apply tier_decision in Ht. destruct Ht as (m & Hm & _). discriminate.
Qed.

(** X1. [route_to_tier] serialises the classification before it sends it.
    A classification whose confidence is a [Decimal] cannot be serialised:
    the call raises [TypeError] and nothing is sent, whatever SQS would
    answer.  For any other classification, when SQS accepts, one message is
    sent after those already sent: its body is the classification, its
    attributes are the decimal tier and the document type, and its queue is
    the queue of the tier for tiers 0 to 3 and the tier-2 queue for every
    other tier; when SQS raises, nothing is added and the exception
    propagates.  The four queues are distinct. *)
Theorem X1_route_to_tier_destination :
  (forall sent send_message c,
      Num.is_decimal (Lambda0.c_confidence c) = true ->
      Lambda0.route_to_tier sent send_message c
      = (sent, Raise Lambda0.not_json_serializable)) /\
  (forall sent c,
      Num.is_decimal (Lambda0.c_confidence c) = false ->
      exists m,
        Lambda0.route_to_tier sent (Ok tt) c = (sent ++ [m], Ok tt) /\
        Lambda0.MessageBody m = c /\
        Lambda0.Tier m = Num.str (Lambda0.tier c) /\
        Lambda0.DocumentType m = Lambda0.document_type c /\
        Lambda0.QueueUrl m =
          (if Lambda0.tier c =? 0 then Lambda0.TIER0_QUEUE_URL
           else if Lambda0.tier c =? 1 then Lambda0.TIER1_QUEUE_URL
           else if Lambda0.tier c =? 3 then Lambda0.TIER3_QUEUE_URL
           else Lambda0.TIER2_QUEUE_URL)) /\
  (forall sent e c,
      Num.is_decimal (Lambda0.c_confidence c) = false ->
      Lambda0.route_to_tier sent (Raise e) c = (sent, Raise e)) /\
  NoDup [ Lambda0.TIER0_QUEUE_URL; Lambda0.TIER1_QUEUE_URL;
          Lambda0.TIER2_QUEUE_URL; Lambda0.TIER3_QUEUE_URL ].
Proof.
  split; [|split; [|split]].
  - intros sent send_message c Hd.
    unfold Lambda0.route_to_tier, Lambda0.json_dumps. now rewrite Hd.
  - intros sent c Hd.
    unfold Lambda0.route_to_tier, Lambda0.json_dumps. rewrite Hd.
    eexists. split; [reflexivity|].
    cbn [Lambda0.MessageBody Lambda0.Tier Lambda0.DocumentType Lambda0.QueueUrl].
    repeat split. apply tier_queue.
  - intros sent e c Hd.
    unfold Lambda0.route_to_tier, Lambda0.json_dumps. now rewrite Hd.
  - apply (bool_decide_unpack _). vm_compute. exact I.
Qed.

Lemma X1_route_to_tier_destination_witness :
  Num.is_decimal (Lambda0.c_confidence (Tier1.body sample_classification)) = false /\
  exists m,
    Lambda0.route_to_tier [] (Ok tt) (Tier1.body sample_classification)
    = ([] ++ [m], Ok tt) /\
    Lambda0.QueueUrl m = Lambda0.TIER1_QUEUE_URL.
Proof.
  split; [reflexivity|].
  destruct (proj1 (proj2 X1_route_to_tier_destination) []
              (Tier1.body sample_classification) eq_refl)
    as (m & Hm & _ & _ & _ & Hq).
  exists m. split; [exact Hm | exact Hq].
Defined.

(** X2. A document that [classify_document] classifies outside tier 0 is
    routed to the queue of its own tier, one of the queues of tiers 1, 2 and
    3: the default of the queue lookup is never taken.  A document of tier 0
    is never routed: its confidence is the [Decimal] of the cache entry, the
    serialisation raises [TypeError], and nothing is sent to the tier-0
    queue. *)
Theorem X2_classified_documents_go_to_their_tier :
  forall download fitz_open table bucket key c sent,
    Lambda0.classify_document download fitz_open table bucket key = Ok c ->
    (Lambda0.tier c = 0 ->
     forall send_message,
       Lambda0.route_to_tier sent send_message c
       = (sent, Raise Lambda0.not_json_serializable)) /\
    (Lambda0.tier c <> 0 ->
     exists m,
       Lambda0.route_to_tier sent (Ok tt) c = (sent ++ [m], Ok tt) /\
       In (Lambda0.tier c, Lambda0.QueueUrl m) Lambda0.queue_urls /\
       Lambda0.QueueUrl m <> Lambda0.TIER0_QUEUE_URL).
Proof.
  intros download fitz_open table bucket key c sent Hc.
  pose proof (classify_tier_range _ _ _ _ _ _ Hc) as Hrange.
  destruct (classify_document_cases _ _ _ _ _ _ Hc)
    as [(Ht & _ & (d & Hd & _) & _) | (Ht & _ & Hf & _)].
  - split; [|intros Hne; contradiction].
    intros _ send_message.
    unfold Lambda0.route_to_tier, Lambda0.json_dumps. now rewrite Hd.
  - split; [intros H0; contradiction|]. intros _.
    unfold Lambda0.route_to_tier, Lambda0.json_dumps. rewrite Hf. cbn [Num.is_decimal].
    eexists. split; [reflexivity|]. cbn [Lambda0.QueueUrl].
    simpl in Hrange.
    destruct Hrange as [E|[E|[E|[E|[]]]]]; rewrite <- E in *;
      [contradiction| | |]; (split; [simpl; auto|]);
      intros H; vm_compute in H; discriminate H.
Qed.

Lemma X2_classified_documents_go_to_their_tier_witness :
  (exists c,
      Lambda0.classify_document (Ok tt) zero_page_document zero_page_cache
        "intake" "inbox/empty.pdf" = Ok c /\
      Lambda0.tier c = 0 /\
      Lambda0.route_to_tier [] (Ok tt) c
      = ([], Raise Lambda0.not_json_serializable)) /\
  (exists c m,
      Lambda0.classify_document (Ok tt) (sample_document 2 "Dear Sir") empty_cache
        "intake" "inbox/letter.pdf" = Ok c /\
      Lambda0.tier c <> 0 /\
      Lambda0.route_to_tier [] (Ok tt) c = ([] ++ [m], Ok tt) /\
      In (Lambda0.tier c, Lambda0.QueueUrl m) Lambda0.queue_urls).
Proof.
  split.
  - eexists. split; [reflexivity|]. split; [reflexivity|].
    exact (proj1 (X2_classified_documents_go_to_their_tier (Ok tt) zero_page_document
                    zero_page_cache "intake" "inbox/empty.pdf" _ [] eq_refl)
             eq_refl (Ok tt)).
  - assert (Ht : 1 <> 0) by discriminate.
    destruct (proj2 (X2_classified_documents_go_to_their_tier (Ok tt)
                       (sample_document 2 "Dear Sir") empty_cache
                       "intake" "inbox/letter.pdf" _ [] eq_refl) Ht)
      as (m & Hm & Hin & _).
    eexists. exists m. split; [reflexivity|]. split; [exact Ht|].
    split; [exact Hm | exact Hin].
Defined.

(** ** The template cache *)

Lemma first_match_of_filter (h : Lambda0.Digest) : forall items item rest,
  List.filter (fun it => Lambda0.digest_eqb (Lambda0.structuralHash it) h) items
  = item :: rest ->
  exists before after,
    items = before ++ item :: after /\
    Lambda0.structuralHash item = h /\
    Forall (fun it => Lambda0.structuralHash it <> h) before.
Proof.
  induction items as [|x items IH]; intros item rest; simpl; [discriminate|].
  destruct (Lambda0.digest_eqb (Lambda0.structuralHash x) h) eqn:E.
  - intros [= -> _]. exists [], items. apply digest_eqb_eq in E. auto.
  - intros H. destruct (IH _ _ H) as (before & after & -> & Hh & Hb).
    exists (x :: before), after. repeat split; auto.
    constructor; [|exact Hb].
    intros Hx. apply digest_eqb_eq in Hx. congruence.
Qed.

(** X3. [check_template_cache] degrades to "no match" when the backend
    raises.  When it returns a match, the match is built from the first item
    of the table, in recency order, whose hash is the queried one: its
    template id is the queried hash, its confidence is the [Decimal] of the
    item, and a missing confidence or document type is read as the float 0.0
    and "unknown". *)
Theorem X3_check_template_cache :
  (forall table h e,
      Lambda0.backend_error table = Some e ->
      Lambda0.check_template_cache table h = None) /\
  (forall table h tm,
      Lambda0.check_template_cache table h = Some tm ->
      Lambda0.template_id tm = h /\
      exists before item after,
        Lambda0.items table = before ++ item :: after /\
        Lambda0.structuralHash item = h /\
        Forall (fun it => Lambda0.structuralHash it <> h) before /\
        Lambda0.tm_confidence tm =
          match Lambda0.item_confidence item with
          | Some confidence => PyDecimal confidence
          | None => PyFloat 0
          end /\
        Lambda0.tm_document_type tm = default "unknown" (Lambda0.documentType item)).
Proof.
  split.
  - intros table h e He. unfold Lambda0.check_template_cache, Lambda0.query.
    now rewrite He.
  - intros table h tm. unfold Lambda0.check_template_cache, Lambda0.query.
    destruct (Lambda0.backend_error table); [discriminate|].
    destruct (List.filter _ (Lambda0.items table)) as [|item rest] eqn:E;
      [discriminate|].
    cbn [firstn]. intros [= <-]. cbn [Lambda0.template_id Lambda0.tm_confidence
      Lambda0.tm_document_type].
    destruct (first_match_of_filter _ _ _ _ E) as (before & after & Hi & Hh & Hb).
    split; [exact Hh|]. exists before, item, after. auto.
Qed.

Lemma X3_check_template_cache_witness :
  Lambda0.backend_error
    {| Lambda0.backend_error := Some "ProvisionedThroughputExceededException";
       Lambda0.items := Lambda0.items zero_page_cache |}
  = Some "ProvisionedThroughputExceededException" /\
  Lambda0.check_template_cache
    {| Lambda0.backend_error := Some "ProvisionedThroughputExceededException";
       Lambda0.items := Lambda0.items zero_page_cache |}
    (Lambda0.sha256_hexdigest EmptyString) = None.
Proof.
  split; [reflexivity|].
  exact (proj1 X3_check_template_cache
           {| Lambda0.backend_error := Some "ProvisionedThroughputExceededException";
              Lambda0.items := Lambda0.items zero_page_cache |}
           (Lambda0.sha256_hexdigest EmptyString)
           "ProvisionedThroughputExceededException" eq_refl).
Defined.

(** ** classify_document *)

(** X4. Once the download has succeeded [classify_document] returns a
    classification, whatever PyMuPDF and the cache backend answer: it echoes
    the bucket and key, reports the fingerprint of [generate_structural_hash]
    for the local path, and a tier from 0 to 3.  Only a failed download makes
    it raise. *)
Theorem X4_classify_document_degrades :
  (forall fitz_open table bucket key,
      exists c,
        Lambda0.classify_document (Ok tt) fitz_open table bucket key = Ok c /\
        Lambda0.bucket c = bucket /\
        Lambda0.key c = key /\
        Lambda0.structural_hash c =
          Lambda0.generate_structural_hash fitz_open
            (String.append "/tmp/" (PyStr.last_segment key)) /\
        In (Lambda0.tier c) [0; 1; 2; 3]) /\
  (forall download fitz_open table bucket key e,
      Lambda0.classify_document download fitz_open table bucket key = Raise e <->
      download = Raise e).
Proof.
  split.
  - intros fitz_open table bucket key.
    destruct (Lambda0.classify_document (Ok tt) fitz_open table bucket key)
      as [c|e] eqn:E.
    + exists c. split; [reflexivity|].
      pose proof (classify_tier_range _ _ _ _ _ _ E) as Hr.
      revert E. unfold Lambda0.classify_document. cbn [bind].
      destruct (Lambda0.check_template_cache _ _) as [m|];
        [destruct (Num.gt_0_85 (Lambda0.tm_confidence m))|];
        intros [= <-]; auto.
    + revert E. unfold Lambda0.classify_document. cbn [bind].
      destruct (Lambda0.check_template_cache _ _) as [m|];
        [destruct (Num.gt_0_85 (Lambda0.tm_confidence m))|]; discriminate.
  - intros download fitz_open table bucket key e.
    unfold Lambda0.classify_document.
    destruct download as [[]|e']; cbn [bind].
    + destruct (Lambda0.check_template_cache _ _) as [m|];
        [destruct (Num.gt_0_85 (Lambda0.tm_confidence m))|];
        split; discriminate.
    + split; intros [= ->]; reflexivity.
Qed.

(** X5. The two kinds of result of [classify_document].  With tier 0 the
    result carries the template id, which is the fingerprint of the document
    itself, the confidence of the cache entry, a [Decimal] above the float
    0.85, and no metadata.  With any other tier it carries no template id,
    the metadata of the header analysis and its confidence, a float, one of
    0.6, 0.7, 0.8 and 0.3. *)
Theorem X5_classification_result_shapes :
  forall download fitz_open table bucket key c,
    Lambda0.classify_document download fitz_open table bucket key = Ok c ->
    (Lambda0.tier c = 0 ->
     Lambda0.c_template_id c = Some (Lambda0.structural_hash c) /\
     (exists d, Lambda0.c_confidence c = PyDecimal d /\ (Num.float_0_85 < d)%Q) /\
     Lambda0.metadata c = None) /\
    (Lambda0.tier c <> 0 ->
     let analysis := Lambda0.analyze_document_header fitz_open in
     Lambda0.c_template_id c = None /\
     Lambda0.metadata c =
       Some (Lambda0.page_count analysis, Lambda0.has_tables analysis,
             Lambda0.has_forms analysis) /\
     Lambda0.c_confidence c = PyFloat (Lambda0.confidence analysis) /\
     In (Lambda0.confidence analysis) [0.6%Q; 0.7%Q; 0.8%Q; 0.3%Q]).
Proof.
  intros download fitz_open table bucket key c Hc.
  assert (Hconf : In (Lambda0.confidence (Lambda0.analyze_document_header fitz_open))
                    [0.6%Q; 0.7%Q; 0.8%Q; 0.3%Q]).
  { unfold Lambda0.analyze_document_header, Lambda0.try_analyze.
    destruct fitz_open as [doc|e]; cbn [bind]; [|simpl; auto].
    destruct (0 <? Lambda0.len doc)%nat; [|simpl; auto].
    destruct (Lambda0.first_page doc) as [page|e]; cbn [bind]; [|simpl; auto].
    destruct (Lambda0.get_text page) as [text|e]; cbn [bind]; [|simpl; auto].
    repeat match goal with
           | |- context [if Lambda0.any_keyword ?k text then _ else _] =>
               destruct (Lambda0.any_keyword k text)
           end;
      (destruct (Lambda0.find_tables page) as [tables|e]; cbn [bind]; [|simpl; auto];
       destruct (Lambda0.widgets page) as [forms|e]; cbn [bind]; simpl; auto). }
  destruct (classify_document_cases _ _ _ _ _ _ Hc)
    as [(Ht & Hid & Hd & Hm) | (Ht & Hid & Hf & Hm)].
  - split; [auto | intros Hne; contradiction].
  - split; [intros H0; contradiction | intros _; cbv zeta; auto].
Qed.

Lemma X5_classification_result_shapes_witness :
  exists c,
    Lambda0.classify_document (Ok tt) zero_page_document zero_page_cache
      "intake" "inbox/empty.pdf" = Ok c /\
    Lambda0.tier c = 0 /\
    Lambda0.c_confidence c = PyDecimal 0.9 /\
    Lambda0.c_template_id c = Some (Lambda0.structural_hash c) /\
    (exists d, Lambda0.c_confidence c = PyDecimal d /\ (Num.float_0_85 < d)%Q) /\
    Lambda0.metadata c = None.
Proof.
  eexists. split; [reflexivity|]. split; [reflexivity|]. split; [reflexivity|].
  exact (proj1 (X5_classification_result_shapes (Ok tt) zero_page_document
                  zero_page_cache "intake" "inbox/empty.pdf" _ eq_refl) eq_refl).
Defined.

(** ** The handler of the classification lambda *)

Lemma classify_document_echo download fitz_open table bucket key c :
  Lambda0.classify_document download fitz_open table bucket key = Ok c ->
  Lambda0.bucket c = bucket /\ Lambda0.key c = key.
Proof.
  unfold Lambda0.classify_document.
  destruct download as [[]|e]; cbn [bind]; [|discriminate].
  destruct (Lambda0.check_template_cache _ _) as [m|];
    [destruct (Num.gt_0_85 (Lambda0.tm_confidence m))|];
    intros [= <-]; auto.
Qed.

(** X6. The handler reads both shapes of record alike: a record relayed by
    EventBridge, with the bucket and key under [detail], is handled as the
    direct S3 record of the same bucket and key.  A record whose source does
    not mention eventbridge is read as an S3 record, and a record without the
    field of its shape ends the invocation before anything is sent for it. *)
Theorem X6_event_shapes :
  (forall src bucket key ignored ignored' src' answers rest sent,
      PyStr.contains "eventbridge" src = true ->
      PyStr.contains "eventbridge" (default EmptyString src') = false ->
      Lambda0.lambda_handler sent
        (({| Lambda0.source := Some src; Lambda0.detail := Some (bucket, key);
             Lambda0.s3 := ignored |}, answers) :: rest)
      = Lambda0.lambda_handler sent
          (({| Lambda0.source := src'; Lambda0.detail := ignored';
               Lambda0.s3 := Some (bucket, key) |}, answers) :: rest)) /\
  (forall record answers rest sent e,
      Lambda0.document_ref record = Raise e ->
      Lambda0.lambda_handler sent ((record, answers) :: rest) = (sent, Raise e)).
Proof.
  split.
  - intros src bucket key ignored ignored' src' answers rest sent Hsrc Hsrc'.
    cbn [Lambda0.lambda_handler]. unfold Lambda0.document_ref.
    cbn [Lambda0.source Lambda0.detail Lambda0.s3].
    change (default EmptyString (Some src)) with src.
    now rewrite Hsrc, Hsrc'.
  - intros record answers rest sent e He. cbn [Lambda0.lambda_handler].
    now rewrite He.
Qed.

Lemma X6_event_shapes_witness :
  PyStr.contains "eventbridge" "aws.eventbridge" = true /\
  PyStr.contains "eventbridge" (default EmptyString (Some "aws:s3")) = false /\
  Lambda0.lambda_handler [] [(eventbridge_record "intake" "inbox/letter.pdf", sample_answers)]
  = Lambda0.lambda_handler [] [(s3_record "intake" "inbox/letter.pdf", sample_answers)].
Proof.
  split; [reflexivity|]. split; [reflexivity|].
  exact (proj1 X6_event_shapes "aws.eventbridge" "intake" "inbox/letter.pdf"
           None None (Some "aws:s3") sample_answers [] [] eq_refl eq_refl).
Defined.

(** X7. The handler sends one message per record, in the order of the
    records, each the routed classification of its record, and keeps the
    messages sent before it.  It returns status 200 exactly when every record
    was handled; when a record fails, the messages of the records before it
    stay sent and no later record is handled. *)
Theorem X7_handler_sends_in_order :
  forall records sent,
  exists msgs,
    fst (Lambda0.lambda_handler sent records) = sent ++ msgs /\
    Forall2 routed (firstn (length msgs) records) msgs /\
    match snd (Lambda0.lambda_handler sent records) with
    | Ok code => code = 200 /\ length msgs = length records
    | Raise _ => (length msgs < length records)%nat
    end.
Proof.
  induction records as [|[record answers] rest IH]; intros sent.
  - exists []. simpl. rewrite app_nil_r. repeat split; constructor.
  - cbn [Lambda0.lambda_handler].
    destruct (Lambda0.document_ref record) as [[bucket key]|e] eqn:Eref;
      [|exists []; simpl; rewrite app_nil_r; repeat split; [constructor | lia]].
    destruct (Lambda0.classify_document _ _ _ bucket key) as [c|e] eqn:Ec;
      [|exists []; simpl; rewrite app_nil_r; repeat split; [constructor | lia]].
    unfold Lambda0.route_to_tier.
    destruct (Lambda0.json_dumps c) as [body|e] eqn:Ej;
      [|exists []; simpl; rewrite app_nil_r; repeat split; [constructor | lia]].
    apply json_dumps_ok in Ej. subst body.
    destruct (Lambda0.send_message answers) as [[]|e];
      [|exists []; simpl; rewrite app_nil_r; repeat split; [constructor | lia]].
    match goal with
    | |- context [Lambda0.lambda_handler (sent ++ [?m]) rest] =>
        destruct (IH (sent ++ [m])) as (msgs & Hfst & Hall & Hsnd);
        exists (m :: msgs)
    end.
    split; [rewrite Hfst, <- app_assoc; reflexivity|].
    split.
    + cbn [length firstn]. constructor; [|exact Hall].
      destruct (classify_document_echo _ _ _ _ _ _ Ec) as [Hb Hk].
      exists bucket, key, c. cbn [fst snd]. auto.
    + destruct (snd (Lambda0.lambda_handler _ rest)); cbn [length];
        [destruct Hsnd; split; [assumption | lia] | lia].
Qed.

(** ** Document type, fingerprint and heuristics *)

Lemma first_match_range filename t :
  Lambda0.first_match Lambda0.FILENAME_PATTERNS filename = Some t ->
  In t ["invoice"; "contract"; "court_filing"; "correspondence"; "pleading"].
Proof.
  unfold Lambda0.FILENAME_PATTERNS. rewrite !first_match_cons.
  repeat match goal with
         | |- context [if Re.search ?p filename then _ else _] =>
             destruct (Re.search p filename)
         end;
    intros H; try discriminate H; injection H as <-; simpl; tauto.
Qed.

Lemma analysis_type_range fitz_open :
  In (Lambda0.type (Lambda0.analyze_document_header fitz_open),
      Lambda0.confidence (Lambda0.analyze_document_header fitz_open))
    [ ("unknown", 0.6%Q); ("invoice", 0.7%Q); ("contract", 0.7%Q);
      ("court_filing", 0.8%Q); ("unknown", 0.3%Q) ].
Proof.
  unfold Lambda0.analyze_document_header, Lambda0.try_analyze.
  destruct fitz_open as [doc|e]; cbn [bind]; [|simpl; tauto].
  destruct (0 <? Lambda0.len doc)%nat; [|simpl; tauto].
  destruct (Lambda0.first_page doc) as [page|e]; cbn [bind]; [|simpl; tauto].
  destruct (Lambda0.get_text page) as [text|e]; cbn [bind]; [|simpl; tauto].
  repeat match goal with
         | |- context [if Lambda0.any_keyword ?k text then _ else _] =>
             destruct (Lambda0.any_keyword k text)
         end;
    (destruct (Lambda0.find_tables page) as [tables|e]; cbn [bind]; [|simpl; tauto];
     destruct (Lambda0.widgets page) as [forms|e]; cbn [bind]; simpl; tauto).
Qed.

(** X8. Outside tier 0 the reported document type is the type the filename
    gives, whatever the content says, and the type of the header analysis
    when the filename gives none; it is always one of invoice, contract,
    court_filing, correspondence, pleading and unknown. *)
Theorem X8_document_type_precedence :
  forall download fitz_open table bucket key c,
    Lambda0.classify_document download fitz_open table bucket key = Ok c ->
    Lambda0.tier c <> 0 ->
    Lambda0.document_type c =
      match Lambda0.classify_by_filename key with
      | Some t => t
      | None => Lambda0.type (Lambda0.analyze_document_header fitz_open)
      end /\
    In (Lambda0.document_type c)
      ["invoice"; "contract"; "court_filing"; "correspondence"; "pleading"; "unknown"].
Proof.
  intros download fitz_open table bucket key c Hc Ht.
  assert (E : Lambda0.document_type c =
              default (Lambda0.type (Lambda0.analyze_document_header fitz_open))
                (Lambda0.classify_by_filename key)).
  { revert Hc Ht. unfold Lambda0.classify_document.
    destruct download as [[]|e]; cbn [bind]; [|discriminate].
    destruct (Lambda0.check_template_cache _ _) as [m|];
      [destruct (Num.gt_0_85 (Lambda0.tm_confidence m))|];
      intros [= <-] Ht; cbn [Lambda0.tier Lambda0.document_type] in *;
      [now contradiction Ht | reflexivity | reflexivity]. }
  rewrite E. clear E.
  destruct (Lambda0.classify_by_filename key) as [t|] eqn:Ef; cbn [default].
  - split; [reflexivity|].
    apply first_match_range in Ef. simpl in Ef |- *. tauto.
  - split; [reflexivity|].
    pose proof (analysis_type_range fitz_open) as Hr. simpl in Hr.
    destruct Hr as [H|[H|[H|[H|[H|[]]]]]]; injection H as <- _; simpl; tauto.
Qed.

Lemma X8_document_type_precedence_witness :
  exists c,
    Lambda0.classify_document (Ok tt) (sample_document 2 "Invoice no. 7: amount due")
      empty_cache "intake" "inbox/letter.pdf" = Ok c /\
    Lambda0.tier c <> 0 /\
    Lambda0.document_type c = "correspondence".
Proof.
  eexists. split; [reflexivity|].
  assert (Ht : 1 <> 0) by discriminate.
  split; [exact Ht|].
  exact (proj1 (X8_document_type_precedence (Ok tt)
                  (sample_document 2 "Invoice no. 7: amount due")
                  empty_cache "intake" "inbox/letter.pdf" _ eq_refl Ht)).
Defined.

(** X9. The fingerprint of a document that opens reads the first five text
    blocks of the first page, the page count and the integer part of the
    page width and height: text blocks after the fifth, fractions of the page
    size, the other answers of the page and the local path do not change it. *)
Theorem X9_fingerprint_reads_five_blocks :
  forall n page page' blocks extra path path',
    length blocks = 5%nat ->
    Lambda0.get_text_dict_blocks page = Ok blocks ->
    Lambda0.get_text_dict_blocks page' = Ok (blocks ++ extra) ->
    Num.int (Lambda0.rect_width page) = Num.int (Lambda0.rect_width page') ->
    Num.int (Lambda0.rect_height page) = Num.int (Lambda0.rect_height page') ->
    Lambda0.generate_structural_hash
      (Ok {| Lambda0.len := S n; Lambda0.first_page := Ok page |}) path
    = Lambda0.generate_structural_hash
        (Ok {| Lambda0.len := S n; Lambda0.first_page := Ok page' |}) path'.
Proof.
  intros n page page' blocks extra path path' Hlen Hb Hb' Hw Hh.
  unfold Lambda0.generate_structural_hash, Lambda0.structural_features.
  cbn [bind Lambda0.len Lambda0.first_page Nat.ltb Nat.leb].
  rewrite Hb, Hb'. cbn [bind].
  rewrite Hw, Hh.
  replace (firstn 5 (blocks ++ extra)) with (firstn 5 blocks); [reflexivity|].
  rewrite <- Hlen, firstn_all, firstn_app, firstn_all, Nat.sub_diag.
  cbn [firstn]. now rewrite app_nil_r.
Qed.

Lemma X9_fingerprint_reads_five_blocks_witness :
  let b := {| Lambda0.lines := Some [ {| Lambda0.bbox0 := 72; Lambda0.bbox1 := 90.4 |} ] |} in
  let page (blocks : list Lambda0.Block) (w : Q) :=
    {| Lambda0.get_text_dict_blocks := Ok blocks;
       Lambda0.rect_width := w; Lambda0.rect_height := 792;
       Lambda0.get_text := Ok "text";
       Lambda0.find_tables := Ok false; Lambda0.widgets := Ok false |} in
  Lambda0.generate_structural_hash
    (Ok {| Lambda0.len := 3; Lambda0.first_page := Ok (page [b; b; b; b; b] 612%Q) |})
    "/tmp/a.pdf"
  = Lambda0.generate_structural_hash
      (Ok {| Lambda0.len := 3;
             Lambda0.first_page := Ok (page ([b; b; b; b; b] ++ [b; b]) 612.7%Q) |})
      "/tmp/b.pdf".
Proof.
  intros b page.
  exact (X9_fingerprint_reads_five_blocks 2 (page [b; b; b; b; b] 612%Q)
           (page ([b; b; b; b; b] ++ [b; b]) 612.7%Q) [b; b; b; b; b] [b; b]
           "/tmp/a.pdf" "/tmp/b.pdf" eq_refl eq_refl eq_refl eq_refl eq_refl).
Defined.

Lemma lower_append a b :
  PyStr.lower (a +:+ b) = PyStr.lower a +:+ PyStr.lower b.
Proof.
  induction a as [|c a IH]; [reflexivity|].
  rewrite append_cons. cbn [PyStr.lower]. rewrite append_cons. f_equal. exact IH.
Qed.

Lemma prefix_append kw rest : String.prefix kw (kw +:+ rest) = true.
Proof.
  induction kw as [|c kw IH]; [now destruct rest|].
  rewrite append_cons. simpl. destruct (ascii_dec c c); [exact IH | congruence].
Qed.

Lemma contains_append pre kw post : PyStr.contains kw (pre +:+ kw +:+ post) = true.
Proof.
  induction pre as [|c pre IH].
  - change (EmptyString +:+ kw +:+ post) with (kw +:+ post).
    destruct kw as [|k kw]; [now destruct post|].
    rewrite append_cons.
    change (PyStr.contains (String k kw) (String k (kw +:+ post)))
      with (String.prefix (String k kw) (String k (kw +:+ post))
            || PyStr.contains (String k kw) (kw +:+ post)).
    rewrite <- append_cons, prefix_append. reflexivity.
  - rewrite append_cons.
    change (PyStr.contains kw (String c (pre +:+ kw +:+ post)))
      with (String.prefix kw (String c (pre +:+ kw +:+ post))
            || PyStr.contains kw (pre +:+ kw +:+ post)).
    rewrite IH. apply orb_true_r.
Qed.

(** X10. When the first page is read, a text that holds one of the invoice
    keywords, in any case, makes the analysis an invoice at confidence 0.7,
    whatever contract or court keywords it also holds; the analysis then
    reports the page count of the document and the table and form signals of
    the page.  The type and the confidence always go together: unknown with
    0.6 or 0.3, invoice and contract with 0.7, court_filing with 0.8. *)
Theorem X10_header_keywords :
  (forall n page pre word post tables forms,
      Lambda0.get_text page = Ok (pre +:+ word +:+ post) ->
      In (PyStr.lower word) ["invoice"; "bill to"; "amount due"] ->
      Lambda0.find_tables page = Ok tables ->
      Lambda0.widgets page = Ok forms ->
      Lambda0.analyze_document_header
        (Ok {| Lambda0.len := S n; Lambda0.first_page := Ok page |})
      = {| Lambda0.page_count := Z.of_nat (S n);
           Lambda0.has_tables := tables; Lambda0.has_forms := forms;
           Lambda0.confidence := 0.7; Lambda0.type := "invoice" |}) /\
  (forall fitz_open,
      In (Lambda0.type (Lambda0.analyze_document_header fitz_open),
          Lambda0.confidence (Lambda0.analyze_document_header fitz_open))
        [ ("unknown", 0.6%Q); ("invoice", 0.7%Q); ("contract", 0.7%Q);
          ("court_filing", 0.8%Q); ("unknown", 0.3%Q) ]).
Proof.
  split; [|exact analysis_type_range].
  intros n page pre word post tables forms Htext Hword Htables Hforms.
  unfold Lambda0.analyze_document_header, Lambda0.try_analyze.
  cbn [bind Lambda0.len Lambda0.first_page Nat.ltb Nat.leb].
  rewrite Htext. cbn [bind].
  assert (Hk : Lambda0.any_keyword ["invoice"; "bill to"; "amount due"]
                 (pre +:+ word +:+ post) = true).
  { unfold Lambda0.any_keyword. apply existsb_exists.
    exists (PyStr.lower word). split; [exact Hword|].
    rewrite !lower_append. apply contains_append. }
  rewrite Hk, Htables, Hforms. cbn [bind].
  destruct tables, forms; reflexivity.
Qed.

Lemma X10_header_keywords_witness :
  Lambda0.analyze_document_header
    (Ok {| Lambda0.len := 4;
           Lambda0.first_page :=
             Ok (sample_page ("This Agreement, see " +:+ "INVOICE" +:+ " 12 of the court")) |})
  = {| Lambda0.page_count := 4; Lambda0.has_tables := false;
       Lambda0.has_forms := false; Lambda0.confidence := 0.7;
       Lambda0.type := "invoice" |}.
Proof.
  assert (Hin : In (PyStr.lower "INVOICE") ["invoice"; "bill to"; "amount due"])
    by (left; reflexivity).
  exact (proj1 X10_header_keywords 3%nat
           (sample_page ("This Agreement, see " +:+ "INVOICE" +:+ " 12 of the court"))
           "This Agreement, see " "INVOICE" " 12 of the court" false false
           eq_refl Hin eq_refl eq_refl).
Defined.

Lemma lower_ascii_idempotent c :
  PyStr.lower_ascii (PyStr.lower_ascii c) = PyStr.lower_ascii c.
Proof. destruct c as [[] [] [] [] [] [] [] []]; reflexivity. Qed.

Lemma lower_ascii_slash c :
  Ascii.eqb (PyStr.lower_ascii c) "/" = Ascii.eqb c "/".
Proof. destruct c as [[] [] [] [] [] [] [] []]; reflexivity. Qed.

Lemma lower_idempotent s : PyStr.lower (PyStr.lower s) = PyStr.lower s.
Proof.
  induction s as [|c s IH]; [reflexivity|].
  cbn [PyStr.lower]. now rewrite lower_ascii_idempotent, IH.
Qed.

Lemma split_nonempty sep s : PyStr.split sep s <> [].
Proof.
  destruct s as [|c s]; [discriminate|]. cbn [PyStr.split].
  destruct (Ascii.eqb c sep); [discriminate|].
  destruct (PyStr.split sep s); discriminate.
Qed.

Lemma split_lower s :
  PyStr.split "/" (PyStr.lower s) = map PyStr.lower (PyStr.split "/" s).
Proof.
  induction s as [|c s IH]; [reflexivity|].
  cbn [PyStr.lower PyStr.split]. rewrite lower_ascii_slash, IH.
  destruct (Ascii.eqb c "/"); [reflexivity|].
  destruct (PyStr.split "/" s); reflexivity.
Qed.

Lemma last_map_lower l d :
  List.last (map PyStr.lower l) (PyStr.lower d) = PyStr.lower (List.last l d).
Proof.
  induction l as [|x l IH]; [reflexivity|].
  destruct l; [reflexivity | exact IH].
Qed.

Lemma last_segment_lower key :
  PyStr.last_segment (PyStr.lower key) = PyStr.lower (PyStr.last_segment key).
Proof.
  unfold PyStr.last_segment. rewrite split_lower.
  exact (last_map_lower _ EmptyString).
Qed.

Lemma split_append_sep a b :
  PyStr.split "/" (a +:+ String "/" b) = PyStr.split "/" a ++ PyStr.split "/" b.
Proof.
  induction a as [|c a IH]; [reflexivity|].
  rewrite append_cons. cbn [PyStr.split]. rewrite IH.
  destruct (Ascii.eqb c "/"); [reflexivity|].
  pose proof (split_nonempty "/" a) as Hne.
  destruct (PyStr.split "/" a); [contradiction | reflexivity].
Qed.

Lemma last_app_nonempty (l1 l2 : list string) d :
  l2 <> [] -> List.last (l1 ++ l2) d = List.last l2 d.
Proof.
  intros Hne. induction l1 as [|x l1 IH]; [reflexivity|].
  cbn [app]. rewrite <- IH.
  destruct (l1 ++ l2) eqn:E; [|reflexivity].
  apply app_eq_nil in E as [_ ->]. contradiction.
Qed.

(** X11. The filename classifier looks at the name of the object alone, and
    not at its case: a key classifies as its lowercased form does, and a key
    under any directory classifies as the part after its last slash. *)
Theorem X11_filename_case_and_directory :
  (forall key,
      Lambda0.classify_by_filename (PyStr.lower key) = Lambda0.classify_by_filename key) /\
  (forall dir name,
      Lambda0.classify_by_filename (dir +:+ String "/" name)
      = Lambda0.classify_by_filename name).
Proof.
  split.
  - intros key. unfold Lambda0.classify_by_filename.
    now rewrite last_segment_lower, lower_idempotent.
  - intros dir name. unfold Lambda0.classify_by_filename, PyStr.last_segment.
    rewrite split_append_sep, last_app_nonempty; [reflexivity|].
    apply split_nonempty.
Qed.

(** * Further properties of the extraction lambda *)

(** ** Result pages and text *)

(** X12. [get_textract_results] follows the continuation tokens: over pages
    that each announce a next page, followed by one that does not (no token,
    or an empty one), it returns the blocks of all of them in page order, a
    page without blocks counting as empty, and asks for no further page.  A
    page request that raises makes it raise, with no partial result. *)
Theorem X12_pagination :
  (forall pages last rest acc,
      Forall (fun r => has_token r = true) pages ->
      has_token last = false ->
      Tier1.get_textract_results (map Ok pages ++ Ok last :: rest) acc
      = Ok (acc ++ flat_map blocks_of (pages ++ [last]))) /\
  (forall pages e rest acc,
      Forall (fun r => has_token r = true) pages ->
      Tier1.get_textract_results (map Ok pages ++ Raise e :: rest) acc = Raise e).
Proof.
  split.
  - intros pages last rest acc Hpages Hlast. revert acc.
    induction Hpages as [|r pages Hr _ IH]; intros acc.
    + cbn [map app Tier1.get_textract_results flat_map].
      unfold has_token in Hlast. fold (blocks_of last). rewrite app_nil_r.
      destruct (Tier1.NextToken last) as [[|c tok]|]; try reflexivity.
      discriminate Hlast.
    + cbn [map app Tier1.get_textract_results flat_map].
      unfold has_token in Hr. fold (blocks_of r).
      destruct (Tier1.NextToken r) as [[|c tok]|]; try discriminate Hr.
      rewrite IH, <- app_assoc. reflexivity.
  - intros pages e rest acc Hpages. revert acc.
    induction Hpages as [|r pages Hr _ IH]; intros acc; [reflexivity|].
    cbn [map app Tier1.get_textract_results].
    unfold has_token in Hr.
    destruct (Tier1.NextToken r) as [[|c tok]|]; try discriminate Hr.
    apply IH.
Qed.

Lemma X12_pagination_witness :
  let first := {| Tier1.Blocks := Some [ mk_block "LINE" 99 ];
                  Tier1.NextToken := Some "page-2" |} in
  let second := {| Tier1.Blocks := None; Tier1.NextToken := Some EmptyString |} in
  Forall (fun r => has_token r = true) [first] /\
  has_token second = false /\
  Tier1.get_textract_results (map Ok [first] ++ Ok second :: [Raise "not asked"]) []
  = Ok ([] ++ flat_map blocks_of ([first] ++ [second])).
Proof.
  intros first second.
  assert (H1 : Forall (fun r => has_token r = true) [first])
    by (constructor; [reflexivity | constructor]).
  split; [exact H1|]. split; [reflexivity|].
  exact (proj1 X12_pagination [first] second [Raise "not asked"] [] H1 eq_refl).
Defined.

Lemma join_app sep l1 l2 :
  PyStr.join sep (l1 ++ l2) =
  match l1, l2 with
  | [], _ => PyStr.join sep l2
  | _, [] => PyStr.join sep l1
  | _, _ => PyStr.join sep l1 +:+ sep +:+ PyStr.join sep l2
  end.
Proof.
  induction l1 as [|x l1 IH]; [reflexivity|].
  destruct l2 as [|y l2]; [now rewrite app_nil_r|].
  destruct l1 as [|x' l1]; [reflexivity|].
  change (PyStr.join sep ((x :: x' :: l1) ++ y :: l2))
    with (x +:+ sep +:+ PyStr.join sep ((x' :: l1) ++ y :: l2)).
  rewrite IH.
  change (PyStr.join sep (x :: x' :: l1))
    with (x +:+ sep +:+ PyStr.join sep (x' :: l1)).
  now rewrite !append_assoc.
Qed.

Lemma line_texts_nil blocks :
  flat_map (fun block =>
              if String.eqb (Tier1.BlockType block) "LINE"
              then [default EmptyString (Tier1.Text block)] else []) blocks = [] <->
  existsb is_line blocks = false.
Proof.
  induction blocks as [|b blocks IH]; [simpl; tauto|].
  cbn [flat_map existsb]. unfold is_line at 1.
  destruct (String.eqb (Tier1.BlockType b) "LINE"); cbn [app orb].
  - split; discriminate.
  - exact IH.
Qed.

(** X13. The extracted text is made of the LINE blocks alone: removing every
    other block does not change it, and a LINE block without text counts as
    an empty line.  The text of two result sets put one after the other is
    the two texts joined by a newline, or the text of the one that has LINE
    blocks when the other has none. *)
Theorem X13_extracted_text :
  (forall blocks,
      Tier1.extract_text_from_results (List.filter is_line blocks)
      = Tier1.extract_text_from_results blocks) /\
  (forall a b,
      Tier1.extract_text_from_results (a ++ b) =
      if negb (existsb is_line a) then Tier1.extract_text_from_results b
      else if negb (existsb is_line b) then Tier1.extract_text_from_results a
      else Tier1.extract_text_from_results a +:+ newline
           +:+ Tier1.extract_text_from_results b) /\
  (forall ty confidence,
      Tier1.extract_text_from_results
        [ {| Tier1.BlockType := "LINE"; Tier1.Text := None;
             Tier1.Confidence := confidence |};
          {| Tier1.BlockType := ty; Tier1.Text := Some "x";
             Tier1.Confidence := confidence |} ]
      = if String.eqb ty "LINE" then newline +:+ "x" else EmptyString).
Proof.
  split; [|split].
  - intros blocks. unfold Tier1.extract_text_from_results. f_equal.
    induction blocks as [|b blocks IH]; [reflexivity|].
    cbn [List.filter flat_map]. unfold is_line at 1.
    destruct (String.eqb (Tier1.BlockType b) "LINE") eqn:E.
    + cbn [flat_map]. rewrite E. now rewrite IH.
    + exact IH.
  - intros a b. unfold Tier1.extract_text_from_results.
    rewrite flat_map_app, join_app.
    fold newline.
    destruct (existsb is_line a) eqn:Ea; cbn [negb].
    + destruct (flat_map _ a) as [|x xs] eqn:Fa.
      * apply line_texts_nil in Fa. congruence.
      * destruct (existsb is_line b) eqn:Eb; cbn [negb].
        -- destruct (flat_map _ b) as [|y ys] eqn:Fb; [|reflexivity].
           apply line_texts_nil in Fb. congruence.
        -- apply line_texts_nil in Eb. now rewrite Eb.
    + apply line_texts_nil in Ea. now rewrite Ea.
  - intros ty confidence. unfold Tier1.extract_text_from_results.
    cbn [flat_map Tier1.BlockType Tier1.Text default].
    destruct (String.eqb ty "LINE"); reflexivity.
Qed.

(** ** Confidence: bounds and order *)

Lemma fold_left_Qplus_bounds xs : forall acc,
  Forall (fun x => 0 <= x <= 100)%Q xs ->
  (acc <= fold_left Qplus xs acc
   <= acc + 100 * inject_Z (Z.of_nat (length xs)))%Q.
Proof.
  induction xs as [|x xs IH]; intros acc H.
  - cbn [fold_left length]. change (inject_Z (Z.of_nat 0)) with 0%Q. split; lra.
  - inversion H as [|? ? [Hx0 Hx1] Hxs]; subst.
    cbn [fold_left length]. destruct (IH (acc + x)%Q Hxs) as [H1 H2].
    rewrite Nat2Z.inj_succ, <- Z.add_1_r, inject_Z_plus.
    assert (E : (inject_Z 1 == 1)%Q) by reflexivity.
    split; [lra|]. rewrite E. lra.
Qed.

Lemma round_half_even_between (k : Z) (y : Q) :
  ((inject_Z k <= y)%Q -> k <= Num.round_half_even y) /\
  ((y <= inject_Z k)%Q -> Num.round_half_even y <= k).
Proof.
  unfold Num.round_half_even. split; intros H.
  - apply Qfloor_resp_le in H. rewrite Qfloor_Z in H.
    repeat match goal with |- context [if ?b then _ else _] => destruct b end; lia.
  - pose proof (Qfloor_resp_le _ _ H) as Hf. rewrite Qfloor_Z in Hf.
    destruct (Z.eq_dec (Qfloor y) k) as [E|Hne].
    + assert (Hd : Num.ltb (y - inject_Z (Qfloor y)) 0.5 = true).
      { apply Num_ltb_lt. rewrite E. lra. }
      rewrite Hd. lia.
    + repeat match goal with |- context [if ?b then _ else _] => destruct b end; lia.
Qed.

Lemma round4_unit x : (0 <= x <= 1)%Q -> (0 <= Num.round4 x <= 1)%Q.
Proof.
  intros [H0 H1]. unfold Num.round4.
  assert (Hlo : 0 <= Num.round_half_even (x * 10000)).
  { apply (round_half_even_between 0). change (inject_Z 0) with 0%Q. lra. }
  assert (Hhi : Num.round_half_even (x * 10000) <= 10000).
  { apply (round_half_even_between 10000).
    change (inject_Z 10000) with 10000%Q. lra. }
  set (n := Num.round_half_even (x * 10000)) in *.
  assert (E : (inject_Z n / 10000 == inject_Z n * (1 # 10000))%Q)
    by (unfold Qdiv; reflexivity).
  rewrite E.
  assert (L0 : (inject_Z 0 <= inject_Z n)%Q) by (rewrite <- Zle_Qle; exact Hlo).
  assert (L1 : (inject_Z n <= inject_Z 10000)%Q) by (rewrite <- Zle_Qle; exact Hhi).
  change (inject_Z 0) with 0%Q in L0. change (inject_Z 10000) with 10000%Q in L1.
  split; lra.
Qed.

(** X14. When every confidence the blocks carry is a percentage, between 0
    and 100, the aggregate confidence lies between 0 and 1; a LINE or WORD
    block without a confidence counts as 0 and keeps the bound. *)
Theorem X14_confidence_in_unit_interval :
  forall blocks,
    percentages blocks ->
    (0 <= Tier1.calculate_confidence_score blocks <= 1)%Q.
Proof.
  intros blocks Hp. rewrite calculate_confidence_score_alt.
  assert (Hc : Forall (fun x => 0 <= x <= 100)%Q (confidences blocks)).
  { unfold confidences, percentages in *.
    induction Hp as [|b blocks Hb _ IH]; [constructor|].
    cbn [List.filter]. destruct (Tier1.scoring b); [|exact IH].
    cbn [map]. constructor; [|exact IH].
    destruct (Tier1.Confidence b) as [q|]; [now apply Hb | simpl; split; lra]. }
  destruct (confidences blocks) as [|c cs] eqn:E; [split; lra|].
  apply round4_unit.
  pose proof (fold_left_Qplus_bounds (c :: cs) 0%Q Hc) as [Hs0 Hs1].
  fold (Num.sum (c :: cs)) in Hs0, Hs1.
  set (s := Num.sum (c :: cs)) in *.
  set (n := inject_Z (Z.of_nat (length (c :: cs)))) in *.
  assert (Hn : (0 < n)%Q).
  { unfold n. change 0%Q with (inject_Z 0). rewrite <- Zlt_Qlt.
    cbn [length]. lia. }
  assert (Ha0 : (0 <= s / n)%Q) by (apply Qle_shift_div_l; [exact Hn | lra]).
  assert (Ha1 : (s / n <= 100)%Q) by (apply Qle_shift_div_r; [exact Hn | lra]).
  set (a := (s / n)%Q) in *.
  assert (Ea : (a / 100 == a * (1 # 100))%Q) by (unfold Qdiv; reflexivity).
  rewrite Ea. split; lra.
Qed.

Lemma sample_percentages :
  percentages [ mk_block "LINE" 100; mk_block "WORD" 80;
                {| Tier1.BlockType := "LINE"; Tier1.Text := None;
                   Tier1.Confidence := None |} ].
Proof.
  unfold percentages.
  constructor; [|constructor; [|constructor; [|constructor]]];
    intros q H; simpl in H; try discriminate H;
    injection H as <-; split; lra.
Defined.

Lemma X14_confidence_in_unit_interval_witness :
  percentages [ mk_block "LINE" 100; mk_block "WORD" 80;
                {| Tier1.BlockType := "LINE"; Tier1.Text := None;
                   Tier1.Confidence := None |} ] /\
  (0 <= Tier1.calculate_confidence_score
          [ mk_block "LINE" 100; mk_block "WORD" 80;
            {| Tier1.BlockType := "LINE"; Tier1.Text := None;
               Tier1.Confidence := None |} ] <= 1)%Q.
Proof.
  split; [exact sample_percentages|].
  exact (X14_confidence_in_unit_interval _ sample_percentages).
Defined.

(** ** Job start and completion *)

(** What the [FAILED] update of a job start leaves. *)
Lemma failed_update table now d e :
  let table' := <[d := merged now "FAILED" {[ "error" := Tier1.VStr e ]}
                         (item_of table d)]> table in
  attribute table' d "status" = Some (Tier1.VStr "FAILED") /\
  attribute table' d "errorMessage" = Some (Tier1.VStr e) /\
  attribute table' d "updatedAt" = Some (Tier1.VStr now) /\
  (forall a,
      a <> "status" -> a <> "updatedAt" -> a <> "errorMessage" ->
      attribute table' d a = item_of table d !! a) /\
  (forall d' a, d' <> d -> attribute table' d' a = attribute table d' a).
Proof.
  cbv zeta. repeat split.
  1-3: rewrite attribute_updated, String.eqb_refl, lookup_merged;
       unfold assigned; cbn [String.eqb Ascii.eqb Bool.eqb];
       rewrite ?error_kwargs_lookup; reflexivity.
  - intros a H1 H2 H3.
    rewrite attribute_updated, String.eqb_refl, lookup_merged.
    assert (Hn : assigned now "FAILED" {[ "error" := Tier1.VStr e ]} a = None).
    { apply assigned_none.
      split; [assumption | split; [assumption|]].
      intros name Hin. rewrite error_kwargs_lookup. simpl in Hin.
      repeat (destruct Hin as [Hin|Hin];
              [inversion Hin; subst; first [reflexivity | congruence]|]).
      contradiction. }
    now rewrite Hn.
  - intros d' a Hne. rewrite attribute_updated.
    destruct (String.eqb_spec d' d); [contradiction | reflexivity].
Qed.

(** X16. A job start that Textract accepts makes one update under the
    document id (the [document_id] of the message, or the last segment of its
    key).  When the queued classification holds no float, the update persists
    the status PROCESSING, the job id, the tier 1, the classification and the
    time of the update, and the start returns normally.  When it holds a
    float, the store refuses that update: the start persists the status
    FAILED with the refusal as [errorMessage], stores no job id, and raises
    [TypeError].  Every classification that the classification lambda
    queues holds a float confidence, so its start ends in FAILED.  In each
    case every other attribute of the item and every other item stay as they
    were. *)
Theorem X16_start_persists_job :
  (forall table now job_id c,
      let d := default (PyStr.last_segment (Lambda0.key (Tier1.body c)))
                 (Tier1.document_id c) in
      Tier1.serializable (Tier1.VDict c) = true ->
      exists table',
        Tier1.start_textract_job table now (Ok job_id) c = (table', Ok tt) /\
        attribute table' d "status" = Some (Tier1.VStr "PROCESSING") /\
        attribute table' d "jobId" = Some (Tier1.VStr job_id) /\
        attribute table' d "processingTier" = Some (Tier1.VInt 1) /\
        attribute table' d "classification" = Some (Tier1.VDict c) /\
        attribute table' d "updatedAt" = Some (Tier1.VStr now) /\
        (forall a,
            a <> "status" -> a <> "updatedAt" -> a <> "jobId" ->
            a <> "processingTier" -> a <> "classification" ->
            attribute table' d a = item_of table d !! a) /\
        (forall d' a, d' <> d -> attribute table' d' a = attribute table d' a)) /\
  (forall table now job_id c,
      let d := default (PyStr.last_segment (Lambda0.key (Tier1.body c)))
                 (Tier1.document_id c) in
      Tier1.serializable (Tier1.VDict c) = false ->
      exists table',
        Tier1.start_textract_job table now (Ok job_id) c
        = (table', Raise Tier1.float_types_error) /\
        attribute table' d "status" = Some (Tier1.VStr "FAILED") /\
        attribute table' d "errorMessage"
        = Some (Tier1.VStr Tier1.float_types_error) /\
        attribute table' d "updatedAt" = Some (Tier1.VStr now) /\
        (forall a,
            a <> "status" -> a <> "updatedAt" -> a <> "errorMessage" ->
            attribute table' d a = item_of table d !! a) /\
        (forall d' a, d' <> d -> attribute table' d' a = attribute table d' a)) /\
  (forall download fitz_open table bucket key c sent sent' document_id,
      Lambda0.classify_document download fitz_open table bucket key = Ok c ->
      Lambda0.route_to_tier sent (Ok tt) c = (sent', Ok tt) ->
      Tier1.serializable
        (Tier1.VDict {| Tier1.document_id := document_id; Tier1.body := c |})
      = false).
Proof.
  split; [|split].
  - intros table now job_id c d Hs. rewrite start_result. fold d. rewrite Hs.
    eexists. split; [reflexivity|].
    repeat split.
    1-5: rewrite attribute_updated, String.eqb_refl, lookup_merged;
         unfold assigned; cbn [String.eqb Ascii.eqb Bool.eqb];
         rewrite ?start_kwargs_lookup; reflexivity.
    + intros a H1 H2 H3 H4 H5.
      rewrite attribute_updated, String.eqb_refl, lookup_merged.
      assert (Hn : assigned now "PROCESSING"
                     (<["classification" := Tier1.VDict c]>
                        (<["tier" := Tier1.VInt 1]> {[ "job_id" := Tier1.VStr job_id ]})) a
                   = None).
      { apply assigned_none.
        split; [assumption | split; [assumption|]].
        intros name Hin. rewrite start_kwargs_lookup. simpl in Hin.
        repeat (destruct Hin as [Hin|Hin];
                [inversion Hin; subst; first [reflexivity | congruence]|]).
        contradiction. }
      now rewrite Hn.
    + intros d' a Hne. rewrite attribute_updated.
      destruct (String.eqb_spec d' d); [contradiction | reflexivity].
  - intros table now job_id c d Hs. rewrite start_result. fold d. rewrite Hs.
    eexists. split; [reflexivity|].
    apply failed_update.
  - intros download fitz_open table bucket key c sent sent' document_id Hc Hr.
    destruct (classify_document_cases _ _ _ _ _ _ Hc)
      as [(_ & _ & (d & Hd & _) & _) | (_ & _ & Hf & _)].
    + revert Hr. unfold Lambda0.route_to_tier, Lambda0.json_dumps.
      rewrite Hd. discriminate.
    + cbn [Tier1.serializable Tier1.body]. now rewrite Hf.
Qed.

Lemma X16_start_persists_job_witness :
  Tier1.serializable (Tier1.VDict integral_classification) = true /\
  Tier1.serializable (Tier1.VDict sample_classification) = false /\
  (exists table',
      Tier1.start_textract_job ∅ "t1" (Ok "job-1") integral_classification
      = (table', Ok tt) /\
      attribute table' "doc.pdf" "status" = Some (Tier1.VStr "PROCESSING")) /\
  (exists table',
      Tier1.start_textract_job ∅ "t1" (Ok "job-1") sample_classification
      = (table', Raise Tier1.float_types_error) /\
      attribute table' "doc.pdf" "status" = Some (Tier1.VStr "FAILED")).
Proof.
  split; [reflexivity|]. split; [reflexivity|]. split.
  - destruct (proj1 X16_start_persists_job ∅ "t1" "job-1"
                integral_classification eq_refl) as (table' & H & Hs & _).
    exists table'. split; [exact H | exact Hs].
  - destruct (proj1 (proj2 X16_start_persists_job) ∅ "t1" "job-1"
                sample_classification eq_refl) as (table' & H & Hs & _).
    exists table'. split; [exact H | exact Hs].
Defined.

(** X17. A job start that Textract refuses persists the status FAILED and
    the message of the exception as [errorMessage], and raises that exception
    again.  It writes neither a job id nor a classification: what an earlier
    start stored under them stays. *)
Theorem X17_start_failure_persists_error :
  forall table now e c,
    let d := default (PyStr.last_segment (Lambda0.key (Tier1.body c)))
               (Tier1.document_id c) in
    exists table',
      Tier1.start_textract_job table now (Raise e) c = (table', Raise e) /\
      attribute table' d "status" = Some (Tier1.VStr "FAILED") /\
      attribute table' d "errorMessage" = Some (Tier1.VStr e) /\
      attribute table' d "updatedAt" = Some (Tier1.VStr now) /\
      (forall a,
          a <> "status" -> a <> "updatedAt" -> a <> "errorMessage" ->
          attribute table' d a = item_of table d !! a) /\
      (forall d' a, d' <> d -> attribute table' d' a = attribute table d' a).
Proof.
  intros table now e c d. rewrite start_result. fold d.
  eexists. split; [reflexivity|]. apply failed_update.
Qed.

(** X18. A completion notification changes nothing in two cases: when its
    status is anything but SUCCEEDED it returns normally, and when a result
    page cannot be fetched it raises the exception of the fetch. *)
Theorem X18_completion_without_effect :
  (forall table completion_time now responses message,
      Tier1.Status message <> "SUCCEEDED" ->
      Tier1.handle_textract_completion table completion_time now responses message
      = (table, Ok tt)) /\
  (forall table completion_time now responses message e,
      Tier1.Status message = "SUCCEEDED" ->
      Tier1.get_textract_results responses [] = Raise e ->
      Tier1.handle_textract_completion table completion_time now responses message
      = (table, Raise e)).
Proof.
  split.
  - intros table completion_time now responses message Hs.
    unfold Tier1.handle_textract_completion.
    destruct (String.eqb_spec (Tier1.Status message) "SUCCEEDED");
      [contradiction | reflexivity].
  - intros table completion_time now responses message e Hs Hr.
    unfold Tier1.handle_textract_completion.
    rewrite Hs, Hr. reflexivity.
Qed.

Lemma X18_completion_without_effect_witness :
  Tier1.Status {| Tier1.JobId := "job-1"; Tier1.Status := "FAILED";
                  Tier1.JobTag := Some "doc.pdf" |} <> "SUCCEEDED" /\
  Tier1.handle_textract_completion started_table "t2" "t2" sample_responses
    {| Tier1.JobId := "job-1"; Tier1.Status := "FAILED";
       Tier1.JobTag := Some "doc.pdf" |}
  = (started_table, Ok tt).
Proof.
  assert (H : Tier1.Status {| Tier1.JobId := "job-1"; Tier1.Status := "FAILED";
                              Tier1.JobTag := Some "doc.pdf" |} <> "SUCCEEDED")
    by discriminate.
  split; [exact H|].
  exact (proj1 X18_completion_without_effect started_table "t2" "t2"
           sample_responses _ H).
Defined.

Lemma run_cons table r rest :
  Tier1.run table (r :: rest) =
  fst (Tier1.handle_record table r) :: Tier1.run (fst (Tier1.handle_record table r)) rest.
Proof. reflexivity. Qed.

(** X19. The status COMPLETED is never stored.  A SUCCEEDED notification
    whose result pages are fetched computes the text and the confidence, and
    the update that would store them is refused for the float confidence: the
    handler raises [TypeError] and the table stays as it was, so a document
    whose job was started stays in PROCESSING.  Over any sequence of handled
    records a document has the status COMPLETED only if it had it before the
    first. *)
Theorem X19_completed_is_never_stored :
  (forall table completion_time now responses message results,
      Tier1.Status message = "SUCCEEDED" ->
      Tier1.get_textract_results responses [] = Ok results ->
      Tier1.handle_textract_completion table completion_time now responses message
      = (table, Raise Tier1.float_types_error)) /\
  (forall table records d,
      In (Some (Tier1.VStr "COMPLETED")) (Tier1.history table records d) ->
      Tier1.status_of table d = Some (Tier1.VStr "COMPLETED")).
Proof.
  split.
  - intros table completion_time now responses message results Hs Hr.
    now rewrite completion_result, Hs, Hr.
  - intros table records. revert table.
    induction records as [|r rest IH]; intros table d Hin.
    + unfold Tier1.history in Hin. simpl in Hin.
      destruct Hin as [H|[]]. now symmetry.
    + rewrite history_cons in Hin. destruct Hin as [H|Hin]; [now symmetry|].
      apply IH in Hin.
      destruct (handle_record_status table r d) as [E|[_ Hw]]; cbv zeta in *.
      * now rewrite <- E.
      * destruct r; [contradiction|].
        destruct Hw as [Hw|Hw]; rewrite Hw in Hin; discriminate Hin.
Qed.

Lemma X19_completed_is_never_stored_witness :
  Tier1.Status (sample_completion "job-1") = "SUCCEEDED" /\
  Tier1.get_textract_results sample_responses []
    = Ok [ mk_block "LINE" 100; mk_block "WORD" 80 ] /\
  Tier1.handle_textract_completion started_table "t2" "t3" sample_responses
    (sample_completion "job-1")
  = (started_table, Raise Tier1.float_types_error) /\
  Tier1.status_of started_table "doc.pdf" = Some (Tier1.VStr "PROCESSING").
Proof.
  split; [reflexivity|]. split; [reflexivity|]. split; [|reflexivity].
  exact (proj1 X19_completed_is_never_stored started_table "t2" "t3"
           sample_responses (sample_completion "job-1") _ eq_refl eq_refl).
Defined.

(** ** The handler of the extraction lambda *)

(** X20. The handler works through its records in order and stops at the
    first that raises: handling two batches in one invocation is handling the
    first and then, if it did not raise, the second on the table it left; when
    the first raises, the second is not handled and the table is the one the
    first left. *)
Theorem X20_handler_stops_at_first_exception :
  forall first second table,
    Tier1.lambda_handler table (first ++ second) =
    match Tier1.lambda_handler table first with
    | (table', Ok _) => Tier1.lambda_handler table' second
    | (table', Raise e) => (table', Raise e)
    end.
Proof.
  induction first as [|r first IH]; intros second table; [reflexivity|].
  cbn [app Tier1.lambda_handler].
  destruct (Tier1.handle_record table r) as [table' [[]|e]]; [apply IH | reflexivity].
Qed.

(** ** Updates of the metadata table *)

Lemma item_of_other table d item d' :
  d' <> d -> item_of (<[d := item]> table) d' = item_of table d'.
Proof. intros H. unfold item_of. now rewrite lookup_insert_ne by congruence. Qed.

(** X21. Updates of different documents do not interfere: in either order
    they leave the same table, or raise the same exception.  Keyword arguments other than the seven that
    [update_metadata] reads are ignored: two calls that agree on those seven
    leave the same table. *)
Theorem X21_updates_commute_and_ignore_unknown_fields :
  (forall table now1 d1 status1 kwargs1 now2 d2 status2 kwargs2,
      d1 <> d2 ->
      (do t <- Tier1.update_metadata table now1 d1 status1 kwargs1;
       Tier1.update_metadata t now2 d2 status2 kwargs2)
      = (do t <- Tier1.update_metadata table now2 d2 status2 kwargs2;
         Tier1.update_metadata t now1 d1 status1 kwargs1)) /\
  (forall table now d status (kwargs kwargs' : gmap string Tier1.Value),
      (forall name attr, In (name, attr) field_names ->
                         kwargs !! name = kwargs' !! name) ->
      Tier1.update_metadata table now d status kwargs
      = Tier1.update_metadata table now d status kwargs').
Proof.
  split.
  - intros table now1 d1 status1 kwargs1 now2 d2 status2 kwargs2 Hne.
    rewrite (update_metadata_merges table now1), (update_metadata_merges table now2).
    destruct (storable kwargs1) eqn:E1, (storable kwargs2) eqn:E2; cbn [bind];
      rewrite ?update_metadata_merges, ?E1, ?E2; try reflexivity.
    rewrite (item_of_other _ _ _ _ (not_eq_sym Hne)), (item_of_other _ _ _ _ Hne).
    f_equal. apply insert_insert_ne. congruence.
  - intros table now d status kwargs kwargs' H.
    rewrite !update_metadata_merges.
    assert (Es : storable kwargs = storable kwargs').
    { unfold storable, field_names, supplied_serializable. cbn [map fst forallb].
      rewrite (H "job_id" "jobId"), (H "tier" "processingTier"),
        (H "classification" "classification"), (H "extracted_text" "extractedText"),
        (H "confidence" "confidence"), (H "error" "errorMessage"),
        (H "completion_time" "completionTime")
        by (unfold field_names; simpl; tauto).
      reflexivity. }
    rewrite <- Es. destruct (storable kwargs); [|reflexivity]. do 2 f_equal.
    apply map_eq. intros a. rewrite !lookup_merged.
    assert (E : assigned now status kwargs a = assigned now status kwargs' a).
    { unfold assigned.
      repeat match goal with
             | |- context [String.eqb a ?s] =>
                 destruct (String.eqb_spec a s) as [->|?]
             end; try reflexivity;
        (eapply H; unfold field_names; simpl; eauto 10). }
    now rewrite E.
Qed.

Lemma X21_updates_commute_and_ignore_unknown_fields_witness :
  (do t <- Tier1.update_metadata started_table "t1" "a.pdf" "PROCESSING"
             {[ "job_id" := Tier1.VStr "job-a" ]};
   Tier1.update_metadata t "t2" "b.pdf" "FAILED" {[ "error" := Tier1.VStr "denied" ]})
  = (do t <- Tier1.update_metadata started_table "t2" "b.pdf" "FAILED"
               {[ "error" := Tier1.VStr "denied" ]};
     Tier1.update_metadata t "t1" "a.pdf" "PROCESSING"
       {[ "job_id" := Tier1.VStr "job-a" ]}).
Proof.
  assert (Hne : "a.pdf" <> "b.pdf") by discriminate.
  exact (proj1 X21_updates_commute_and_ignore_unknown_fields started_table
           "t1" "a.pdf" "PROCESSING" {[ "job_id" := Tier1.VStr "job-a" ]}
           "t2" "b.pdf" "FAILED" {[ "error" := Tier1.VStr "denied" ]} Hne).
Defined.

Lemma add_field_invariant paths placeholders st kwargs name attribute placeholder :
  request_invariant paths placeholders st ->
  ~ In attribute paths ->
  ~ In placeholder placeholders ->
  request_invariant (attribute :: paths) (placeholder :: placeholders)
    (Tier1.add_field kwargs name attribute placeholder st).
Proof.
  intros (Hnd & Hp & Hv & Hph) Ha Hn. unfold Tier1.add_field.
  destruct (kwargs !! name) as [v|]; cbn [fst snd].
  - unfold request_invariant. cbn [fst snd]. rewrite !map_app. cbn [map fst snd].
    split; [|split; [|split]].
    + apply (Permutation_NoDup (Permutation_cons_append _ _)).
      constructor; [|exact Hnd]. intros Hin. apply Ha, Hp, Hin.
    + intros p Hin. apply in_app_iff in Hin as [Hin|Hin];
        [right; now apply Hp|].
      simpl in Hin. destruct Hin as [<-|Hin]; [now left | contradiction].
    + intros ph. rewrite in_app_iff.
      destruct (String.eqb_spec placeholder ph) as [->|Hne].
      * rewrite lookup_insert_eq. split; [intros _; right; now left | eauto].
      * rewrite lookup_insert_ne by exact Hne. rewrite Hv.
        split; [now left|].
        intros [H|H]; [exact H|].
        simpl in H. destruct H as [H|H]; contradiction.
    + intros ph Hin. apply in_app_iff in Hin as [Hin|Hin];
        [right; now apply Hph|].
      simpl in Hin. destruct Hin as [<-|Hin]; [now left | contradiction].
  - split; [exact Hnd|]. split; [|split; [exact Hv|]].
    + intros p Hin. right. now apply Hp.
    + intros ph Hin. right. now apply Hph.
Qed.

(** X22. The request [update_metadata] hands to [update_item] is well
    formed, whatever keyword arguments it is given: no attribute is set
    twice, every placeholder of the update expression has a value and every
    value belongs to a placeholder of the expression, every path resolves
    (the only name placeholder is [#status]), and the key attribute
    [documentId] is never set. *)
Theorem X22_update_request_well_formed :
  forall now document_id status kwargs,
    let u := Tier1.update_request now document_id status kwargs in
    Tier1.Key u = document_id /\
    List.NoDup (map fst (Tier1.UpdateExpression u)) /\
    (forall ph,
        is_Some (Tier1.ExpressionAttributeValues u !! ph) <->
        In ph (map snd (Tier1.UpdateExpression u))) /\
    (forall path,
        In path (map fst (Tier1.UpdateExpression u)) ->
        exists attr,
          Tier1.resolve_path (Tier1.ExpressionAttributeNames u) path = Some attr /\
          attr <> "documentId").
Proof.
  intros now document_id status kwargs. unfold Tier1.update_request.
  set (st0 := ([("#status", ":status"); ("updatedAt", ":updated_at")],
               <[":updated_at" := Tier1.VStr now]> {[ ":status" := Tier1.VStr status ]})
              : list (string * string) * gmap string Tier1.Value).
  assert (I0 : request_invariant ["updatedAt"; "#status"] [":updated_at"; ":status"] st0).
  { unfold request_invariant, st0. cbn [fst snd map].
    split; [|split; [|split]].
    - constructor; [simpl; intros [H|[]]; discriminate H|].
      constructor; [simpl; tauto | constructor].
    - simpl. tauto.
    - intros ph.
      destruct (String.eqb_spec ":updated_at" ph) as [<-|H1].
      + rewrite lookup_insert_eq. simpl. split; eauto.
      + rewrite lookup_insert_ne by exact H1.
        destruct (String.eqb_spec ":status" ph) as [<-|H2].
        * rewrite lookup_singleton_eq. simpl. split; eauto.
        * rewrite lookup_singleton_ne by exact H2. simpl.
          split; [intros [x Hx]; discriminate Hx | tauto].
    - simpl. tauto. }
  pose proof (add_field_invariant _ _ st0 kwargs "job_id" "jobId" ":job_id" I0)
    as I1.
  specialize (I1 ltac:(fresh_placeholder) ltac:(fresh_placeholder)).
  set (st1 := Tier1.add_field kwargs "job_id" "jobId" ":job_id" st0) in *.
  pose proof (add_field_invariant _ _ st1 kwargs "tier" "processingTier" ":tier" I1)
    as I2.
  specialize (I2 ltac:(fresh_placeholder) ltac:(fresh_placeholder)).
  set (st2 := Tier1.add_field kwargs "tier" "processingTier" ":tier" st1) in *.
  pose proof (add_field_invariant _ _ st2 kwargs "classification" "classification"
                ":classification" I2) as I3.
  specialize (I3 ltac:(fresh_placeholder) ltac:(fresh_placeholder)).
  set (st3 := Tier1.add_field kwargs "classification" "classification"
                ":classification" st2) in *.
  pose proof (add_field_invariant _ _ st3 kwargs "extracted_text" "extractedText"
                ":text" I3) as I4.
  specialize (I4 ltac:(fresh_placeholder) ltac:(fresh_placeholder)).
  set (st4 := Tier1.add_field kwargs "extracted_text" "extractedText" ":text" st3) in *.
  pose proof (add_field_invariant _ _ st4 kwargs "confidence" "confidence"
                ":confidence" I4) as I5.
  specialize (I5 ltac:(fresh_placeholder) ltac:(fresh_placeholder)).
  set (st5 := Tier1.add_field kwargs "confidence" "confidence" ":confidence" st4) in *.
  pose proof (add_field_invariant _ _ st5 kwargs "error" "errorMessage" ":error" I5)
    as I6.
  specialize (I6 ltac:(fresh_placeholder) ltac:(fresh_placeholder)).
  set (st6 := Tier1.add_field kwargs "error" "errorMessage" ":error" st5) in *.
  pose proof (add_field_invariant _ _ st6 kwargs "completion_time" "completionTime"
                ":completion_time" I6) as I7.
  specialize (I7 ltac:(fresh_placeholder) ltac:(fresh_placeholder)).
  set (st7 := Tier1.add_field kwargs "completion_time" "completionTime"
                ":completion_time" st6) in *.
  destruct I7 as (Hnd & Hp & Hv & _).
  cbv zeta. cbn [Tier1.Key Tier1.UpdateExpression Tier1.ExpressionAttributeNames
                 Tier1.ExpressionAttributeValues].
  split; [reflexivity|]. split; [exact Hnd|]. split; [exact Hv|].
  intros path Hin. apply Hp in Hin. simpl in Hin.
  repeat (destruct Hin as [<-|Hin];
          [eexists; split; [reflexivity | discriminate]|]).
  destruct Hin.
Qed.

(** ** A cache answer that does not qualify *)

Lemma tier_ignores_unqualified tm fc h :
  ~ qualifying_cache_entry tm ->
  Lambda0.determine_processing_tier tm fc h
  = Lambda0.determine_processing_tier None fc h.
Proof.
  intros Hno. unfold Lambda0.determine_processing_tier.
  fold (qualifying_cache_entryb tm). now rewrite (not_qualifying _ Hno).
Qed.

(** X23. A cache answer that does not pass the test [confidence > 0.85]
    leaves the classification as it is with an empty cache: whether the cache
    has no item for the fingerprint, or its first item has a confidence that
    is not above the float 0.85, or none, or the backend raises,
    [classify_document] returns what it returns when the cache is empty. *)
Theorem X23_unqualified_cache_is_a_miss :
  (forall download fitz_open table bucket key,
      ~ qualifying_cache_entry
          (Lambda0.check_template_cache table
             (Lambda0.generate_structural_hash fitz_open
                (String.append "/tmp/" (PyStr.last_segment key)))) ->
      Lambda0.classify_document download fitz_open table bucket key
      = Lambda0.classify_document download fitz_open empty_cache bucket key) /\
  (forall download fitz_open e items bucket key,
      Lambda0.classify_document download fitz_open
        {| Lambda0.backend_error := Some e; Lambda0.items := items |} bucket key
      = Lambda0.classify_document download fitz_open empty_cache bucket key).
Proof.
  assert (H : forall download fitz_open table bucket key,
             ~ qualifying_cache_entry
                 (Lambda0.check_template_cache table
                    (Lambda0.generate_structural_hash fitz_open
                       (String.append "/tmp/" (PyStr.last_segment key)))) ->
             Lambda0.classify_document download fitz_open table bucket key
             = Lambda0.classify_document download fitz_open empty_cache bucket key).
  { intros download fitz_open table bucket key Hno.
    unfold Lambda0.classify_document.
    destruct download as [[]|e]; cbn [bind]; [|reflexivity].
    set (h := Lambda0.generate_structural_hash _ _) in *.
    change (Lambda0.check_template_cache empty_cache h) with (@None Lambda0.TemplateMatch).
    destruct (Lambda0.check_template_cache table h) as [m|] eqn:Etm; [|reflexivity].
    pose proof (not_qualifying _ Hno) as Hb. cbn [qualifying_cache_entryb] in Hb.
    rewrite Hb, (tier_ignores_unqualified _ _ _ Hno). reflexivity. }
  split; [exact H|].
  intros download fitz_open e items bucket key. apply H.
  intros (m & Hm & _). discriminate Hm.
Qed.

Lemma X23_unqualified_cache_is_a_miss_witness :
  let stale :=
    {| Lambda0.backend_error := None;
       Lambda0.items :=
         [ {| Lambda0.structuralHash := Lambda0.sha256_hexdigest EmptyString;
              Lambda0.item_confidence := Some 0.8%Q;
              Lambda0.documentType := Some "invoice";
              Lambda0.fieldMappings := None |} ] |} in
  Lambda0.classify_document (Ok tt) zero_page_document stale "intake" "inbox/empty.pdf"
  = Lambda0.classify_document (Ok tt) zero_page_document empty_cache
      "intake" "inbox/empty.pdf".
Proof.
  intros stale.
  apply (proj1 X23_unqualified_cache_is_a_miss).
  intros (m & Hm & Hlt). injection Hm as <-. simpl in Hlt.
  revert Hlt. apply Qle_not_lt. unfold Qle. simpl. lia.
Defined.
